(** * mult-trad-bots: a shallow embedding of the trading core

    The development follows the Python sources under [backend/]:
    - [core/trade_executor.py]        (module [TradeExecutor])
    - [bots/grid_bot.py]              (module [GridBot])
    - [bots/dca_bot.py]               (module [DcaBot])
    - [bots/momentum_bot.py]          (module [MomentumBot])
    - [main.py]                       (modules [Scheduler], [Job])
    - [api/v1/endpoints/websockets.py] (module [Websockets])
    - [models/], [app/crud/]          (module [Database])
    - [app/services/performance_calculator.py] (module [PerformanceCalculator])
    - [api/v1/endpoints/bots.py]      (module [BotsApi])
    - [api/v1/endpoints/market.py]    (module [MarketApi])

    Conventions of the embedding.
    - A Python [float] is read as an exact rational ([Q]); binary rounding is
      not represented.  Equalities between computed numbers are therefore
      stated with [==].
    - A settings dictionary (JSON object) is a [gmap string pyval] whose values
      are JSON scalars.
    - A Python exception is a value of type [exn]; code that may raise returns
      a [result].
    - The exchange client and the pandas/pandas_ta calls are collaborators
      outside the repository: they appear as records of functions. *)

From Stdlib Require Import QArith Qround Qpower Qabs Lqa ZArith Lia List String Ascii Bool.
From Stdlib Require Import Floats Uint63.
From stdpp Require Import gmap strings list fin_maps.
Import ListNotations.

(** ** Python values *)

Module Py.

Inductive exn :=
| BinanceAPIException
| BinanceOrderException
| BinanceOrderMinAmountException
| TypeError
| AttributeError
| ZeroDivisionError
| IndexError
| OtherException.

Inductive result (A : Type) :=
| Ok (a : A)
| Raise (e : exn).
Arguments Ok {A} a.
Arguments Raise {A} e.

Definition bind {A B} (r : result A) (k : A -> result B) : result B :=
  match r with
  | Ok a => k a
  | Raise e => Raise e
  end.

(** [datetime]: microseconds since the epoch.  A naive value carries its
    wall-clock reading, an aware one the instant it denotes. *)
Inductive datetime :=
| Naive (wall : Z)
| Aware (instant : Z).

Inductive pyval :=
| PyNone
| PyBool (b : bool)
| PyInt (n : Z)
| PyFloat (x : Q)
| PyStr (s : string)
| PyDatetime (d : datetime).

Definition Qlt_bool (x y : Q) : bool := negb (Qle_bool y x).

(** [bool(v)] *)
Definition truthy (v : pyval) : bool :=
  match v with
  | PyNone => false
  | PyBool b => b
  | PyInt n => negb (n =? 0)%Z
  | PyFloat x => negb (Qeq_bool x 0)
  | PyStr s => negb (String.eqb s "")
  | PyDatetime _ => true
  end.

(** The numeric reading of an [int], [bool] or [float]. *)
Definition as_number (v : pyval) : option Q :=
  match v with
  | PyBool b => Some (if b then 1 else 0)%Q
  | PyInt n => Some (inject_Z n)
  | PyFloat x => Some x
  | _ => None
  end.

Definition as_int (v : pyval) : option Z :=
  match v with
  | PyBool b => Some (if b then 1 else 0)%Z
  | PyInt n => Some n
  | _ => None
  end.

(** Arithmetic on a non-number raises [TypeError]. *)
Definition number (v : pyval) : result Q :=
  match as_number v with
  | Some x => Ok x
  | None => Raise TypeError
  end.

Fixpoint repeat_string (n : nat) (s : string) : string :=
  match n with
  | O => ""%string
  | S k => (s ++ repeat_string k s)%string
  end.

(** [a * b] *)
Definition py_mul (a b : pyval) : result pyval :=
  match as_int a, as_int b with
  | Some m, Some n => Ok (PyInt (m * n))
  | _, _ =>
      match as_number a, as_number b with
      | Some x, Some y => Ok (PyFloat (x * y))
      | _, _ =>
          match a, as_int b, as_int a, b with
          | PyStr s, Some n, _, _ => Ok (PyStr (repeat_string (Z.to_nat n) s))
          | _, _, Some n, PyStr s => Ok (PyStr (repeat_string (Z.to_nat n) s))
          | _, _, _, _ => Raise TypeError
          end
      end
  end.

(** [a + b] *)
Definition py_add (a b : pyval) : result pyval :=
  match as_int a, as_int b with
  | Some m, Some n => Ok (PyInt (m + n))
  | _, _ =>
      match as_number a, as_number b with
      | Some x, Some y => Ok (PyFloat (x + y))
      | _, _ =>
          match a, b with
          | PyStr s, PyStr t => Ok (PyStr (s ++ t))
          | _, _ => Raise TypeError
          end
      end
  end.

(** [a > b]: numbers compare by value, strings by code points. *)
Definition py_gt (a b : pyval) : result bool :=
  match as_number a, as_number b with
  | Some x, Some y => Ok (Qlt_bool y x)
  | _, _ =>
      match a, b with
      | PyStr s, PyStr t => Ok (String.ltb t s)
      | _, _ => Raise TypeError
      end
  end.

(** [a >= b] *)
Definition py_ge (a b : pyval) : result bool :=
  match as_number a, as_number b with
  | Some x, Some y => Ok (Qle_bool y x)
  | _, _ =>
      match a, b with
      | PyStr s, PyStr t => Ok (String.leb t s)
      | _, _ => Raise TypeError
      end
  end.

Definition upper_ascii (c : ascii) : ascii :=
  let n := nat_of_ascii c in
  if (97 <=? n)%nat && (n <=? 122)%nat then ascii_of_nat (n - 32) else c.

Definition lower_ascii (c : ascii) : ascii :=
  let n := nat_of_ascii c in
  if (65 <=? n)%nat && (n <=? 90)%nat then ascii_of_nat (n + 32) else c.

Fixpoint map_string (f : ascii -> ascii) (s : string) : string :=
  match s with
  | EmptyString => EmptyString
  | String c r => String (f c) (map_string f r)
  end.

(** [s.upper()] and [s.lower()] on ASCII text. *)
Definition upper (s : string) : string := map_string upper_ascii s.
Definition lower (s : string) : string := map_string lower_ascii s.

(** [v.upper()] on an arbitrary value: only [str] has the method. *)
Definition py_upper (v : pyval) : result string :=
  match v with
  | PyStr s => Ok (upper s)
  | _ => Raise AttributeError
  end.

Definition py_lower (v : pyval) : result string :=
  match v with
  | PyStr s => Ok (lower s)
  | _ => Raise AttributeError
  end.

(** [d.get(k)] and [d.get(k, default)] *)
Definition get (d : gmap string pyval) (k : string) : pyval :=
  match d !! k with
  | Some v => v
  | None => PyNone
  end.

Definition get_default (d : gmap string pyval) (k : string) (dflt : pyval) : pyval :=
  match d !! k with
  | Some v => v
  | None => dflt
  end.

End Py.
Export Py.

(** ** The exchange gateway (python-binance [Client]) *)

Module Exchange.

Inductive OrderSide := BUY | SELL.
Inductive OrderType := MARKET | LIMIT.

Definition OrderSide_eqb (a b : OrderSide) : bool :=
  match a, b with
  | BUY, BUY | SELL, SELL => true
  | _, _ => false
  end.

Definition OrderType_eqb (a b : OrderType) : bool :=
  match a, b with
  | MARKET, MARKET | LIMIT, LIMIT => true
  | _, _ => false
  end.

(** One entry of [symbol_info['filters']]. *)
Inductive Filter :=
| LOT_SIZE (stepSize : Q)
| PRICE_FILTER (tickSize : Q)
| MIN_NOTIONAL (minNotional : Q)
| NOTIONAL (minNotional : Q)
| OTHER_FILTER (filterType : string).

Record SymbolInfo := { filters : list Filter }.

(** The keyword arguments of [client.create_order]. *)
Record OrderParams := {
  p_symbol : string;
  p_side : OrderSide;
  p_type : OrderType;
  p_quantity : option Q;
  p_quoteOrderQty : option Q;
  p_price : option Q;
  p_timeInForce : option string
}.

Record Fill := { f_price : Q; f_qty : Q }.

(** The order response dictionary. *)
Record Order := {
  o_orderId : Z;
  o_price : option Q;
  o_executedQty : option Q;
  o_status : option string;
  o_fills : option (list Fill)
}.

Record Kline := {
  k_open_time : Z;
  k_open : Q;
  k_high : Q;
  k_low : Q;
  k_close : Q;
  k_volume : Q;
  k_close_time : Z
}.

Record Client := {
  get_symbol_info : string -> result (option SymbolInfo);
  get_symbol_ticker : string -> result Q;
  get_klines : string -> pyval -> pyval -> result (list Kline);
  create_order : OrderParams -> result Order
}.

End Exchange.
Export Exchange.

(** ** Shared process state *)

(** A row of the [trade_history] table ([TradeHistoryCreate]); the timestamp
    column is left out. *)
Record TradeHistoryCreate := {
  t_bot_id : Z;
  t_symbol : string;
  t_action : string;
  t_price : Q;
  t_quantity : Q
}.

(** ** core/trade_executor.py *)

Module TradeExecutor.

Local Open Scope Q_scope.

(** The module-level state the executor reads and writes: the
    [symbol_info_cache] dictionary, the calls received by
    [client.create_order], and the rows added to the trade history. *)
Record State := {
  symbol_info_cache : gmap string SymbolInfo;
  create_order_calls : list OrderParams;
  trade_history : list TradeHistoryCreate
}.

Definition set_cache (c : gmap string SymbolInfo) (st : State) : State :=
  {| symbol_info_cache := c;
     create_order_calls := create_order_calls st;
     trade_history := trade_history st |}.

Definition add_call (p : OrderParams) (st : State) : State :=
  {| symbol_info_cache := symbol_info_cache st;
     create_order_calls := create_order_calls st ++ [p];
     trade_history := trade_history st |}.

(** [crud_trade_history.create_trade_history] *)
Definition create_trade_history (t : TradeHistoryCreate) (st : State) : State :=
  {| symbol_info_cache := symbol_info_cache st;
     create_order_calls := create_order_calls st;
     trade_history := trade_history st ++ [t] |}.

(** [get_symbol_info]: cached lookup; a [BinanceAPIException] becomes [None],
    any other exception propagates. *)
Definition get_symbol_info (client : Client) (symbol : string) (st : State)
  : State * result (option SymbolInfo) :=
  let symbol_upper := upper symbol in
  match symbol_info_cache st !! symbol_upper with
  | Some info => (st, Ok (Some info))
  | None =>
      match Exchange.get_symbol_info client symbol_upper with
      | Ok (Some info) =>
          (set_cache (<[symbol_upper := info]> (symbol_info_cache st)) st, Ok (Some info))
      | Ok None => (st, Ok None)
      | Raise BinanceAPIException => (st, Ok None)
      | Raise e => (st, Raise e)
      end
  end.

(** [10 ** precision] *)
Definition pow10 (p : Z) : Q := Qpower 10 p.

(** [p] is what [round] makes of [-log10 step]: the nearest integer,
    [|log10 step + p| < 1/2], that is [10^(-2p-1) < step^2 < 10^(-2p+1)];
    half-way between two integers, the even one. *)
Definition nearest_to_neg_log10 (step : Q) (p : Z) : bool :=
  let square := step * step in
  (Qlt_bool (pow10 (-2 * p - 1)) square && Qlt_bool square (pow10 (-2 * p + 1)))
  || (Z.even p && (Qeq_bool square (pow10 (-2 * p - 1))
                   || Qeq_bool square (pow10 (-2 * p + 1)))).

(** A bound on [|log10 step|], from the sizes of numerator and denominator. *)
Definition log_bound (step : Q) : Z :=
  Z.log2 (Z.abs (Qnum step)) + Z.log2 (Zpos (Qden step)) + 2.

(** [round(-math.log(step, 10), 0)], by search over the candidates. *)
Definition round_neg_log10 (step : Q) : Z :=
  let b := log_bound step in
  match List.find (nearest_to_neg_log10 step)
                  (List.map (fun i => Z.of_nat i - b)%Z (seq 0 (Z.to_nat (2 * b + 1)))) with
  | Some p => p
  | None => 0%Z
  end.

(** [int(round(-math.log(step, 10), 0)) if step > 0 else 0] *)
Definition precision_of (step : Q) : Z :=
  if Qlt_bool 0 step then round_neg_log10 step else 0%Z.

(** [math.floor(x * factor) / factor] *)
Definition floor_to (x factor : Q) : Q :=
  inject_Z (Qfloor (x * factor)) / factor.

Definition adjust_quantity_to_step_size (quantity step_size : Q) : Q :=
  let step := step_size in
  let precision := precision_of step in
  let factor := pow10 precision in
  floor_to quantity factor.

Definition adjust_price_to_tick_size (price tick_size : Q) : Q :=
  let tick := tick_size in
  let precision := precision_of tick in
  let factor := pow10 precision in
  floor_to price factor.

(** The three [next(... for f in symbol_info['filters'] ...)] lookups. *)
Definition step_size_of (info : SymbolInfo) : option Q :=
  match List.find (fun f => match f with LOT_SIZE _ => true | _ => false end) (filters info) with
  | Some (LOT_SIZE s) => Some s
  | _ => None
  end.

Definition tick_size_of (info : SymbolInfo) : option Q :=
  match List.find (fun f => match f with PRICE_FILTER _ => true | _ => false end) (filters info) with
  | Some (PRICE_FILTER t) => Some t
  | _ => None
  end.

Definition min_notional_of (info : SymbolInfo) : Q :=
  match List.find (fun f => match f with MIN_NOTIONAL _ | NOTIONAL _ => true | _ => false end)
                  (filters info) with
  | Some (MIN_NOTIONAL m) => m
  | Some (NOTIONAL m) => m
  | _ => 5
  end.

(** Lines 108-130: the quantity part of [order_params].  [None] is the
    early [return None]. *)
Definition quantity_params (info : SymbolInfo) (symbol_upper : string)
    (side : OrderSide) (order_type : OrderType)
    (quantity quote_order_qty : option Q) : option OrderParams :=
  let base q qq :=
    {| p_symbol := symbol_upper; p_side := side; p_type := order_type;
       p_quantity := q; p_quoteOrderQty := qq;
       p_price := None; p_timeInForce := None |} in
  match quantity with
  | Some q =>
      match step_size_of info with
      | Some step_size =>
          let adjusted_quantity := adjust_quantity_to_step_size q step_size in
          if Qle_bool adjusted_quantity 0 then None
          else Some (base (Some adjusted_quantity) None)
      | None => Some (base (Some q) None)
      end
  | None =>
      match side, order_type, quote_order_qty with
      | BUY, MARKET, Some qq => Some (base None (Some qq))
      | _, _, _ => None
      end
  end.

(** Lines 132-144: price and time in force of a LIMIT order.  The source
    stores the adjusted price as text with the tick's number of decimals;
    here it is kept as a number. *)
Definition price_params (info : SymbolInfo) (order_type : OrderType)
    (price : option Q) (params : OrderParams) : option OrderParams :=
  match order_type with
  | MARKET => Some params
  | LIMIT =>
      match price with
      | None => None
      | Some p =>
          let order_price :=
            match tick_size_of info with
            | Some tick_size => adjust_price_to_tick_size p tick_size
            | None => p
            end in
          Some {| p_symbol := p_symbol params; p_side := p_side params;
                  p_type := p_type params; p_quantity := p_quantity params;
                  p_quoteOrderQty := p_quoteOrderQty params;
                  p_price := Some order_price; p_timeInForce := Some "GTC"%string |}
      end
  end.

(** [not x] for an optional float: [None] and [0.0] are false. *)
Definition falsy (x : option Q) : bool :=
  match x with
  | None => true
  | Some v => Qeq_bool v 0
  end.

(** Lines 152-159: the price used by the notional check. *)
Definition current_order_price (client : Client) (symbol_upper : string)
    (order_type : OrderType) (price : option Q) : option Q :=
  let cop := match order_type with LIMIT => price | MARKET => None end in
  if falsy cop && negb (OrderType_eqb order_type MARKET) then
    match get_symbol_ticker client symbol_upper with
    | Ok t => Some t
    | Raise _ => cop
    end
  else cop.

(** Lines 161-165 *)
Definition notional_value (params : OrderParams) (cop : option Q) : Q :=
  match p_quoteOrderQty params with
  | Some qq => qq
  | None =>
      match p_quantity params with
      | Some q => if falsy cop then 0 else
                    match cop with Some c => q * c | None => 0 end
      | None => 0
      end
  end.

(** Line 167 *)
Definition below_min_notional (v min_notional : Q) : bool :=
  Qlt_bool 0 v && Qlt_bool v min_notional.

Definition sum_Q (l : list Q) : Q := fold_left Qplus l 0.

Definition default_Q (x : option Q) : Q :=
  match x with Some v => v | None => 0 end.

Definition side_name (s : OrderSide) : string :=
  match s with BUY => "BUY" | SELL => "SELL" end.

(** Lines 182-213: what is recorded once [create_order] has answered.
    [Raise] stands for an exception raised inside the [try] block. *)
Definition record_actual_trade (bot_id : Z) (symbol_upper : string)
    (side : OrderSide) (order_type : OrderType) (order : Order) (st : State)
  : State * result unit :=
  let trade_price := default_Q (o_price order) in
  let trade_quantity := default_Q (o_executedQty order) in
  let filled := match o_status order with
                | Some s => String.eqb s "FILLED"
                | None => false
                end in
  let fills := match o_fills order with Some l => l | None => [] end in
  let priced : result (Q * Q) :=
    if OrderType_eqb order_type MARKET && filled
       && match fills with [] => false | _ => true end
    then
      let total_cost := sum_Q (List.map (fun f => f_price f * f_qty f) fills) in
      let total_qty := sum_Q (List.map f_qty fills) in
      Ok (if Qlt_bool 0 total_qty then total_cost / total_qty else 0, total_qty)
    else if OrderType_eqb order_type LIMIT then
      match o_price order with
      | Some p => Ok (p, trade_quantity)
      | None => Raise TypeError
      end
    else Ok (trade_price, trade_quantity) in
  match priced with
  | Raise e => (st, Raise e)
  | Ok (tp, tq) =>
      if Qlt_bool 0 tq then
        (create_trade_history
           {| t_bot_id := bot_id; t_symbol := symbol_upper;
              t_action := side_name side; t_price := tp; t_quantity := tq |} st,
         Ok tt)
      else (st, Ok tt)
  end.

(** [execute_trade].  [binance_client] is the module-level client that
    [get_binance_client()] hands out; [client] is the optional argument.
    The answer is the order response, [None], or an exception that left the
    function (only the symbol lookup can let one through). *)
Definition execute_trade (binance_client : option Client)
    (bot_id : Z) (symbol : string) (side : OrderSide) (order_type : OrderType)
    (quantity quote_order_qty price : option Q) (client : option Client)
    (st : State) : State * result (option Order) :=
  let client := match client with Some c => Some c | None => binance_client end in
  match client with
  | None => (st, Ok None)
  | Some client =>
      let symbol_upper := upper symbol in
      match get_symbol_info client symbol_upper st with
      | (st1, Raise e) => (st1, Raise e)
      | (st1, Ok None) => (st1, Ok None)
      | (st1, Ok (Some symbol_info)) =>
          let min_notional := min_notional_of symbol_info in
          match quantity_params symbol_info symbol_upper side order_type
                                quantity quote_order_qty with
          | None => (st1, Ok None)
          | Some params0 =>
              match price_params symbol_info order_type price params0 with
              | None => (st1, Ok None)
              | Some order_params =>
                  let cop := current_order_price client symbol_upper order_type price in
                  let v := notional_value order_params cop in
                  if below_min_notional v min_notional then (st1, Ok None)
                  else
                    let st2 := add_call order_params st1 in
                    match create_order client order_params with
                    | Raise _ => (st2, Ok None)
                    | Ok order =>
                        match record_actual_trade bot_id symbol_upper side
                                                  order_type order st2 with
                        | (st3, Ok _) => (st3, Ok (Some order))
                        | (st3, Raise _) => (st3, Ok None)
                        end
                    end
              end
          end
      end
  end.

End TradeExecutor.

(** ** core/trade_executor.py, lines 42-43, in binary64

    The same two lines on IEEE 754 double precision numbers, for a step of
    [decimals] decimals ([factor = 10 ** decimals], an exact double up to
    15 decimals). *)

Module Binary64.

Local Open Scope float_scope.

Definition two52 : float := 0x1p52.

(** [math.floor] of a finite double, the answer kept as a double.  Below
    [2^52] in size, adding and removing [2^52] rounds to an integer, which is
    then corrected downwards; from [2^52] on every double is an integer. *)
Definition floor (x : float) : float :=
  if PrimFloat.ltb (PrimFloat.abs x) two52 then
    let r := if PrimFloat.ltb x 0 then (x - two52) + two52 else (x + two52) - two52 in
    if PrimFloat.ltb x r then r - 1 else r
  else x.

Definition factor_of (decimals : nat) : float :=
  PrimFloat.of_uint63 (Uint63.of_Z (10 ^ Z.of_nat decimals)).

(** [math.floor(quantity * factor) / factor] *)
Definition adjust_quantity (quantity : float) (decimals : nat) : float :=
  let factor := factor_of decimals in
  floor (quantity * factor) / factor.

End Binary64.

(** ** bots/grid_bot.py *)

Module GridBot.

Local Open Scope Q_scope.

Record GridAction := {
  action : OrderSide;
  price : Q;
  grid_level : Z
}.

(** [np.linspace(start, stop, num)]: [num] samples [i * step + start] with
    [step = (stop - start) / (num - 1)], the last one set to [stop]. *)
Definition linspace (start stop : Q) (num : Z) : list Q :=
  let div := inject_Z (num - 1) in
  let step := (stop - start) / div in
  let y := List.map (fun i => inject_Z (Z.of_nat i) * step + start)
                    (seq 0 (Z.to_nat num)) in
  if (1 <? num)%Z then removelast y ++ [stop] else y.

(** [a[i]] with Python's negative indices. *)
Definition index (a : list Q) (i : Z) : result Q :=
  let n := Z.of_nat (length a) in
  let j := if (i <? 0)%Z then (n + i)%Z else i in
  if (0 <=? j)%Z && (j <? n)%Z then
    match nth_error a (Z.to_nat j) with
    | Some x => Ok x
    | None => Raise IndexError
    end
  else Raise IndexError.

(** [isinstance(v, (int, float))] and [isinstance(v, int)] *)
Definition is_int_or_float (v : pyval) : bool :=
  match as_number v with Some _ => true | None => false end.
Definition is_int (v : pyval) : bool :=
  match as_int v with Some _ => true | None => false end.

(** [np.argmax] / [np.argmin]: the first position of the best element,
    [better v m] saying that [v] beats the best [m] seen so far. *)
Fixpoint arg_scan (better : Q -> Q -> bool) (l : list Q) (best : Z) (m : Q) (i : Z) : Z :=
  match l with
  | [] => best
  | v :: r => if better v m then arg_scan better r i v (i + 1)%Z
              else arg_scan better r best m (i + 1)%Z
  end.

(** Lines 96-101: the two indices the revised simulation computes and never
    reads ([-1] when there is no such level). *)
Definition closest_lower_level_index (grid_levels : list Q) (current_price : Q) : Z :=
  let lower_grids := List.filter (fun l => Qlt_bool l current_price) grid_levels in
  match lower_grids with
  | [] => (-1)%Z
  | x :: r => arg_scan (fun v m => Qlt_bool m v) r 0%Z x 1%Z
  end.

Definition closest_upper_level_index (grid_levels : list Q) (current_price : Q) : Z :=
  let lower_grids := List.filter (fun l => Qlt_bool l current_price) grid_levels in
  let upper_grids := List.filter (fun l => Qlt_bool current_price l) grid_levels in
  match upper_grids with
  | [] => (-1)%Z
  | x :: r => (arg_scan (fun v m => Qlt_bool v m) r 0%Z x 1%Z
               + Z.of_nat (length lower_grids))%Z
  end.

(** [get_grid_actions(config, current_price)].  The list handed to [all]
    is built first, so both comparisons run, and may raise, whatever the
    [isinstance] tests say.  The loop of lines 67-91 only compares and
    passes; it contributes nothing. *)
Definition get_grid_actions (config : gmap string pyval) (current_price : Q)
  : result (list GridAction) :=
  let upper_limit := get config "upper_limit" in
  let lower_limit := get config "lower_limit" in
  let num_grids := get config "num_grids" in
  bind (py_gt upper_limit lower_limit) (fun above =>
  bind (py_ge num_grids (PyInt 2)) (fun enough =>
  if negb (is_int_or_float upper_limit && is_int_or_float lower_limit
           && is_int num_grids && above && enough)
  then Ok []
  else
    match as_number lower_limit, as_number upper_limit, as_int num_grids with
    | Some lo, Some hi, Some n =>
        let grid_levels := linspace lo hi n in
        bind (index grid_levels 1) (fun second =>
        bind (index grid_levels 0) (fun lowest =>
        let buys :=
          if Qlt_bool current_price second
          then [ {| action := BUY; price := lowest; grid_level := 0 |} ]
          else [] in
        bind (index grid_levels (-2)) (fun second_to_last =>
        bind (index grid_levels (-1)) (fun highest =>
        let sells :=
          if Qlt_bool second_to_last current_price
          then [ {| action := SELL; price := highest; grid_level := n - 1 |} ]
          else [] in
        Ok (buys ++ sells)))))
    | _, _, _ => Ok []
    end)).

End GridBot.

(** ** External numeric libraries (pandas, pandas_ta) *)

Module Pandas.

(** One row of the momentum data frame once the indicator columns are
    appended; [None] is a missing value (NaN).  [other_columns_complete]
    says that no other column of the row has a missing value. *)
Record Row := {
  close : option Q;
  rsi : option Q;
  macd : option Q;
  macdh : option Q;
  macds : option Q;
  sma_short : option Q;
  sma_long : option Q;
  other_columns_complete : bool
}.

(** What the indicator calls compute.
    - [indicators config klines]: the frame of [get_momentum_signal] after
      the four [df.ta] calls, or [None] when a required column is absent.
    - [last_ma ma_type period klines]: for the smart dip, the last value of
      the moving-average column after [dropna], or [None] when the column
      is absent or the frame is empty. *)
Record TA := {
  indicators : gmap string pyval -> list Kline -> result (option (list Row));
  last_ma : string -> pyval -> list Kline -> result (option Q)
}.

Definition complete (r : Row) : bool :=
  match close r, rsi r, macd r, macdh r, macds r, sma_short r, sma_long r with
  | Some _, Some _, Some _, Some _, Some _, Some _, Some _ => other_columns_complete r
  | _, _, _, _, _, _, _ => false
  end.

(** [df.dropna(inplace=True)] *)
Definition dropna (df : list Row) : list Row := List.filter complete df.

(** A value read from a row that [dropna] kept. *)
Definition value (x : option Q) : Q :=
  match x with Some v => v | None => 0%Q end.

End Pandas.

(** ** bots/dca_bot.py *)

Module DcaBot.

Local Open Scope Q_scope.

Inductive DcaKind := DCA_BUY | SMART_DIP_BUY | TRAILING_STOP_SELL | HOLD.

Record DcaAction := {
  action : DcaKind;
  amount : pyval;
  price : option Q
}.

(** Durations ([timedelta]) in microseconds. *)
Definition hours (n : Z) : Z := (n * 3600 * 1000000)%Z.
Definition days (n : Z) : Z := (n * 24 * 3600 * 1000000)%Z.
Definition weeks (n : Z) : Z := (n * 7 * 24 * 3600 * 1000000)%Z.

(** Lines 31-38: the [timedelta] of a frequency, [None] when unsupported. *)
Definition delta_of (frequency : pyval) : option Z :=
  match frequency with
  | PyStr s =>
      if String.eqb s "daily" then Some (days 1)
      else if String.eqb s "weekly" then Some (weeks 1)
      else if String.eqb s "hourly" then Some (hours 1)
      else None
  | _ => None
  end.

(** Lines 26-29: the instant of a timestamp, a naive one taken as UTC. *)
Definition utc (d : datetime) : Z :=
  match d with Naive wall => wall | Aware instant => instant end.

(** [should_invest_now(frequency, last_investment_time)]; [now] is the
    reading of [datetime.now(timezone.utc)].  Reading [.tzinfo] of a value
    that is not a datetime raises. *)
Definition should_invest_now (now : Z) (frequency last_investment_time : pyval)
  : result bool :=
  match last_investment_time with
  | PyNone => Ok true
  | PyDatetime d =>
      let last := utc d in
      match delta_of frequency with
      | None => Ok false
      | Some delta => Ok (last + delta <=? now)%Z
      end
  | _ => Raise AttributeError
  end.

Inductive SimAction := SIM_BUY | SIM_SELL.

Definition sim_name (a : SimAction) : string :=
  match a with SIM_BUY => "SIM_BUY" | SIM_SELL => "SIM_SELL" end.

(** The local helper [record_simulated_trade] (lines 103-116).  [db_bot] is
    [Some bot_id] when both [db] and [bot_id] were passed.  Whatever fails
    inside is caught and only printed. *)
Definition record_simulated_trade (db_bot : option Z) (symbol_upper : string)
    (action_type : SimAction) (amount : pyval) (price : Q)
    (db : list TradeHistoryCreate) : list TradeHistoryCreate :=
  match db_bot with
  | None => db
  | Some bot_id =>
      let sim_quantity : result Q :=
        if truthy amount && Qlt_bool 0 price
           && match action_type with SIM_BUY => true | SIM_SELL => false end
        then bind (number amount) (fun a => Ok (a / price))
        else Ok 1 in
      match sim_quantity with
      | Ok q => db ++ [ {| t_bot_id := bot_id; t_symbol := symbol_upper;
                           t_action := sim_name action_type;
                           t_price := price; t_quantity := q |} ]
      | Raise _ => db
      end
  end.

(** Lines 118-120: the guard of the trailing stop and the stop price.
    [None]: the guard is false.  [Some (Raise _)]: computing the stop
    failed. *)
Definition stop_loss_price (position_active trailing_stop_pct
    average_purchase_price highest_price_since_purchase : pyval)
  : option (result Q) :=
  if truthy position_active && truthy trailing_stop_pct
     && truthy average_purchase_price && truthy highest_price_since_purchase
  then Some (bind (number trailing_stop_pct) (fun pct =>
             bind (number highest_price_since_purchase) (fun highest =>
             Ok (highest * (1 - pct / 100)))))
  else None.

(** Lines 139-166: the smart-dip check, with its own [try]; an exception
    inside leaves the actions as they are. *)
Definition smart_dip (ta : Pandas.TA) (client : Client) (db_bot : option Z)
    (symbol_upper : string) (current_price : Q)
    (investment_amount smart_dip_pct smart_dip_ma_period smart_dip_multiplier : pyval)
    (smart_dip_ma_type : string) (db : list TradeHistoryCreate)
  : list TradeHistoryCreate * list DcaAction :=
  let attempt : result (option pyval) :=
    bind (py_add smart_dip_ma_period (PyInt 5)) (fun limit =>
    bind (get_klines client symbol_upper (PyStr "1d") limit) (fun klines =>
    match klines with
    | [] => Ok None
    | _ =>
        if String.eqb smart_dip_ma_type "sma" || String.eqb smart_dip_ma_type "ema" then
          bind (Pandas.last_ma ta smart_dip_ma_type smart_dip_ma_period klines) (fun ma =>
          match ma with
          | None => Ok None
          | Some last_ma =>
              bind (number smart_dip_pct) (fun pct =>
              let dip_threshold_price := last_ma * (1 - pct / 100) in
              if Qlt_bool current_price dip_threshold_price then
                bind (py_mul investment_amount smart_dip_multiplier) (fun dip_amount =>
                Ok (Some dip_amount))
              else Ok None)
          end)
        else Ok None
    end)) in
  match attempt with
  | Ok (Some dip_amount) =>
      (record_simulated_trade db_bot symbol_upper SIM_BUY dip_amount current_price db,
       [ {| action := SMART_DIP_BUY; amount := dip_amount; price := Some current_price |} ])
  | Ok None => (db, [])
  | Raise _ => (db, [])
  end.

Definition hold (p : option Q) : DcaAction :=
  {| action := HOLD; amount := PyNone; price := p |}.

(** The body of the outer [try] (lines 98-172). *)
Definition evaluate (ta : Pandas.TA) (now : Z) (client : Client) (db_bot : option Z)
    (symbol investment_amount frequency smart_dip_pct smart_dip_ma_period
     smart_dip_multiplier trailing_stop_pct : pyval) (smart_dip_ma_type : string)
    (last_investment_time average_purchase_price highest_price_since_purchase
     position_active : pyval)
    (db : list TradeHistoryCreate) : list TradeHistoryCreate * result (list DcaAction) :=
  match bind (py_upper symbol) (fun s =>
        bind (get_symbol_ticker client s) (fun p => Ok (s, p))) with
  | Raise e => (db, Raise e)
  | Ok (symbol_upper, current_price) =>
      let stop := stop_loss_price position_active trailing_stop_pct
                    average_purchase_price highest_price_since_purchase in
      match stop with
      | Some (Raise e) => (db, Raise e)
      | _ =>
          let triggered :=
            match stop with
            | Some (Ok stop_loss_price) => Qlt_bool current_price stop_loss_price
            | _ => false
            end in
          if triggered then
            (record_simulated_trade db_bot symbol_upper SIM_SELL PyNone current_price db,
             Ok [ {| action := TRAILING_STOP_SELL; amount := PyNone;
                     price := Some current_price |} ])
          else
            match should_invest_now now frequency last_investment_time with
            | Raise e => (db, Raise e)
            | Ok invest_now =>
                let '(db1, regular) :=
                  if invest_now then
                    (record_simulated_trade db_bot symbol_upper SIM_BUY
                                            investment_amount current_price db,
                     [ {| action := DCA_BUY; amount := investment_amount;
                          price := Some current_price |} ])
                  else (db, []) in
                let '(db2, dip) :=
                  if negb invest_now && truthy smart_dip_pct && truthy smart_dip_ma_period
                  then smart_dip ta client db_bot symbol_upper current_price
                                 investment_amount smart_dip_pct smart_dip_ma_period
                                 smart_dip_multiplier smart_dip_ma_type db1
                  else (db1, []) in
                let potential_actions := regular ++ dip in
                (db2, Ok (match potential_actions with
                          | [] => [hold (Some current_price)]
                          | _ => potential_actions
                          end))
            end
      end
  end.

(** [get_dca_actions(config, client, state, db, bot_id)].  Reading the
    moving-average type calls [.lower()] before the [try] starts, so that
    one exception can leave the function; every other one ends in a HOLD
    without a price. *)
Definition get_dca_actions (ta : Pandas.TA) (now : Z)
    (config : gmap string pyval) (client : Client) (state : gmap string pyval)
    (db_bot : option Z) (db : list TradeHistoryCreate)
  : list TradeHistoryCreate * result (list DcaAction) :=
  let symbol := get_default config "symbol" (PyStr "BTCUSDT") in
  let investment_amount := get config "investment_amount" in
  let frequency := get config "frequency" in
  let smart_dip_pct := get config "smart_dip_pct" in
  let smart_dip_ma_period := get_default config "smart_dip_ma_period" (PyInt 20) in
  match py_lower (get_default config "smart_dip_ma_type" (PyStr "sma")) with
  | Raise e => (db, Raise e)
  | Ok smart_dip_ma_type =>
      let smart_dip_multiplier := get_default config "smart_dip_multiplier" (PyFloat 1) in
      let trailing_stop_pct := get config "trailing_stop_pct" in
      let last_investment_time := get state "last_investment_time" in
      let average_purchase_price := get state "average_purchase_price" in
      let highest_price_since_purchase := get state "highest_price_since_purchase" in
      let position_active := get_default state "position_active" (PyBool false) in
      if negb (truthy investment_amount) || negb (truthy frequency)
      then (db, Ok [hold None])
      else
        match evaluate ta now client db_bot symbol investment_amount frequency
                       smart_dip_pct smart_dip_ma_period smart_dip_multiplier
                       trailing_stop_pct smart_dip_ma_type last_investment_time
                       average_purchase_price highest_price_since_purchase
                       position_active db with
        | (db', Ok actions) => (db', Ok actions)
        | (db', Raise _) => (db', Ok [hold None])
        end
  end.

End DcaBot.

(** ** bots/momentum_bot.py *)

Module MomentumBot.

Local Open Scope Q_scope.
Import Pandas.

Inductive Signal := BUY | SELL | HOLD.

(** Lines 105-108 *)
Definition ma_cross_bullish (prev latest : Row) : bool :=
  Qle_bool (value (sma_short prev)) (value (sma_long prev))
  && Qlt_bool (value (sma_long latest)) (value (sma_short latest)).
Definition macd_bullish (latest : Row) : bool :=
  Qlt_bool (value (macds latest)) (value (macd latest))
  && Qlt_bool 0 (value (macdh latest)).

(** Lines 110-113 *)
Definition ma_cross_bearish (prev latest : Row) : bool :=
  Qle_bool (value (sma_long prev)) (value (sma_short prev))
  && Qlt_bool (value (sma_short latest)) (value (sma_long latest)).
Definition macd_bearish (latest : Row) : bool :=
  Qlt_bool (value (macd latest)) (value (macds latest))
  && Qlt_bool (value (macdh latest)) 0.

(** Lines 101-123: the signal from the last two rows.  Comparing the RSI
    with a threshold that is not a number raises. *)
Definition signal_logic (rsi_oversold rsi_overbought : pyval) (prev latest : Row)
  : result Signal :=
  bind (number rsi_overbought) (fun overbought =>
  let rsi_buy_ok := Qlt_bool (value (rsi latest)) overbought in
  let buy_signal := ma_cross_bullish prev latest && macd_bullish latest && rsi_buy_ok in
  bind (number rsi_oversold) (fun oversold =>
  let rsi_sell_ok := Qlt_bool oversold (value (rsi latest)) in
  let sell_signal := ma_cross_bearish prev latest && macd_bearish latest && rsi_sell_ok in
  Ok (if buy_signal then BUY else if sell_signal then SELL else HOLD))).

(** [df.iloc[-2]] and [df.iloc[-1]] of a frame with at least two rows. *)
Fixpoint last_two (df : list Row) : option (Row * Row) :=
  match df with
  | [] => None
  | [_] => None
  | [prev; latest] => Some (prev, latest)
  | _ :: r => last_two r
  end.

(** Lines 125-140: the simulated trade stored with a BUY or SELL. *)
Definition record_signal (db_bot : option Z) (symbol_upper : string)
    (final_signal : Signal) (latest : Row)
    (db : list TradeHistoryCreate) : list TradeHistoryCreate :=
  match final_signal, db_bot with
  | HOLD, _ => db
  | _, None => db
  | s, Some bot_id =>
      db ++ [ {| t_bot_id := bot_id; t_symbol := symbol_upper;
                 t_action := match s with BUY => "SIM_BUY" | _ => "SIM_SELL" end;
                 t_price := value (close latest); t_quantity := 1 |} ]
  end.

(** [get_momentum_signal(config, client, db, bot_id)]: every exception
    inside ends in HOLD. *)
Definition get_momentum_signal (ta : TA) (config : gmap string pyval)
    (client : Client) (db_bot : option Z) (db : list TradeHistoryCreate)
  : list TradeHistoryCreate * Signal :=
  let symbol := get_default config "symbol" (PyStr "BTCUSDT") in
  let interval := get_default config "interval" (PyStr "1h") in
  let limit := get_default config "kline_limit" (PyInt 100) in
  let rsi_oversold := get_default config "rsi_oversold" (PyInt 30) in
  let rsi_overbought := get_default config "rsi_overbought" (PyInt 70) in
  let computed : result (option (string * Row * Signal)) :=
    bind (py_upper symbol) (fun symbol_upper =>
    bind (get_klines client symbol_upper interval limit) (fun klines =>
    match klines with
    | [] => Ok None
    | _ =>
        bind (indicators ta config klines) (fun frame =>
        match frame with
        | None => Ok None
        | Some rows =>
            match last_two (dropna rows) with
            | None => Ok None
            | Some (prev, latest) =>
                bind (signal_logic rsi_oversold rsi_overbought prev latest) (fun s =>
                Ok (Some (symbol_upper, latest, s)))
            end
        end)
    end)) in
  match computed with
  | Ok (Some (symbol_upper, latest, s)) =>
      (record_signal db_bot symbol_upper s latest db, s)
  | Ok None => (db, HOLD)
  | Raise _ => (db, HOLD)
  end.

End MomentumBot.

(** ** main.py: the scheduled job *)

Module Scheduler.

Local Open Scope Q_scope.

(** A row of [bot_configurations] as the job reads it. *)
Record BotConfiguration := {
  id : Z;
  bot_type : string;
  settings : gmap string pyval
}.

(** The [logger] calls of [run_active_bots_job]. *)
Inductive LogEntry :=
| JobRunning
| ClientNotAvailable
| FoundActiveBots (n : nat)
| CheckingBot (bot_id : Z) (bot_type : string) (symbol : pyval)
| MomentumSignal (bot_id : Z) (signal : MomentumBot.Signal)
| GridActions (bot_id : Z) (actions : list GridBot.GridAction)
| DcaActions (bot_id : Z) (actions : list DcaBot.DcaAction)
| ExecutingTrade (bot_id : Z) (signal : OrderSide) (trade_quantity : option Q)
| TradeExecuted (bot_id : Z) (orderId : Z)
| TradeFailed (bot_id : Z)
| ErrorProcessingBot (bot_id : Z) (symbol : pyval) (bot_err : exn)
| ErrorInJob (e : exn).

Record State := {
  executor : TradeExecutor.State;
  log : list LogEntry
}.

(** What the job finds around it: the module-level Binance client, the
    indicator library, the clock, and the answer of
    [crud_bot_config.get_active_bot_configs(db)]. *)
Record Env := {
  binance_client : option Client;
  ta : Pandas.TA;
  now : Z;
  active_bots : result (list BotConfiguration)
}.

Definition info (e : LogEntry) (st : State) : State :=
  {| executor := executor st; log := log st ++ [e] |}.

(** The state dictionary built afresh at line 76. *)
Definition dca_state : gmap string pyval :=
  <["last_investment_time" := PyNone]>
  (<["average_purchase_price" := PyNone]>
  (<["highest_price_since_purchase" := PyNone]>
  (<["position_active" := PyBool false]> ∅))).

(** The call of [execute_trade] at lines 93-96: no client is passed, and
    the symbol is whatever the settings hold ([symbol.upper()] runs once a
    client is found). *)
Definition call_execute_trade (env : Env) (bot_id : Z) (symbol : pyval)
    (side : OrderSide) (quantity quote_order_qty : option Q)
    (st : TradeExecutor.State) : TradeExecutor.State * result (option Order) :=
  match symbol with
  | PyStr s =>
      TradeExecutor.execute_trade (binance_client env) bot_id s side MARKET
                                  quantity quote_order_qty None None st
  | _ =>
      match binance_client env with
      | None => (st, Ok None)
      | Some _ => (st, Raise AttributeError)
      end
  end.

(** Lines 85-101 for a BUY or SELL signal. *)
Definition execute_signal (env : Env) (bot : BotConfiguration) (symbol : pyval)
    (signal : OrderSide) (st : State) : State * result unit :=
  let trade_quantity := match signal with BUY => None | SELL => Some (1 # 1000) end in
  let quote_qty := match signal with BUY => Some 10 | SELL => None end in
  let st1 := info (ExecutingTrade (id bot) signal (Some (1 # 1000))) st in
  match call_execute_trade env (id bot) symbol signal trade_quantity quote_qty
                           (executor st1) with
  | (ex, Raise e) => ({| executor := ex; log := log st1 |}, Raise e)
  | (ex, Ok (Some order)) =>
      (info (TradeExecuted (id bot) (o_orderId order))
            {| executor := ex; log := log st1 |}, Ok tt)
  | (ex, Ok None) =>
      (info (TradeFailed (id bot)) {| executor := ex; log := log st1 |}, Ok tt)
  end.

(** Lines 61-103: the body of the inner [try]. *)
Definition bot_body (env : Env) (client : Client) (bot : BotConfiguration)
    (symbol : pyval) (st : State) : State * result unit :=
  let config := settings bot in
  if String.eqb (bot_type bot) "momentum" then
    let signal :=
      snd (MomentumBot.get_momentum_signal (ta env) config client None
             (TradeExecutor.trade_history (executor st))) in
    let st1 := info (MomentumSignal (id bot) signal) st in
    match signal with
    | MomentumBot.BUY => execute_signal env bot symbol BUY st1
    | MomentumBot.SELL => execute_signal env bot symbol SELL st1
    | MomentumBot.HOLD => (st1, Ok tt)
    end
  else if String.eqb (bot_type bot) "grid" then
    match bind (py_upper symbol) (fun s =>
          bind (get_symbol_ticker client s) (fun current_price =>
          GridBot.get_grid_actions config current_price)) with
    | Raise e => (st, Raise e)
    | Ok action_details => (info (GridActions (id bot) action_details) st, Ok tt)
    end
  else if String.eqb (bot_type bot) "dca" then
    match snd (DcaBot.get_dca_actions (ta env) (now env) config client dca_state None
                 (TradeExecutor.trade_history (executor st))) with
    | Raise e => (st, Raise e)
    | Ok action_details => (info (DcaActions (id bot) action_details) st, Ok tt)
    end
  else (st, Ok tt).

(** Lines 53-106: one turn of the loop, with its [try ... except Exception]. *)
Definition bot_iteration (env : Env) (client : Client) (bot : BotConfiguration)
    (st : State) : State * result unit :=
  let st0 := info (CheckingBot (id bot) (bot_type bot) (get (settings bot) "symbol")) st in
  let symbol := get_default (settings bot) "symbol" (PyStr "UNKNOWN") in
  match bot_body env client bot symbol st0 with
  | (st1, Ok _) => (st1, Ok tt)
  | (st1, Raise bot_err) => (info (ErrorProcessingBot (id bot) symbol bot_err) st1, Ok tt)
  end.

(** A Python [for] loop: an exception that leaves the body ends the loop. *)
Fixpoint for_each {A} (body : A -> State -> State * result unit) (items : list A)
    (st : State) : State * result unit :=
  match items with
  | [] => (st, Ok tt)
  | x :: rest =>
      match body x st with
      | (st', Ok _) => for_each body rest st'
      | (st', Raise e) => (st', Raise e)
      end
  end.

(** [run_active_bots_job] *)
Definition run_active_bots_job (env : Env) (st : State) : State :=
  let st := info JobRunning st in
  match binance_client env with
  | None => info ClientNotAvailable st
  | Some client =>
      match active_bots env with
      | Raise e => info (ErrorInJob e) st
      | Ok bots =>
          let st1 := info (FoundActiveBots (length bots)) st in
          match for_each (bot_iteration env client) bots st1 with
          | (st2, Ok _) => st2
          | (st2, Raise e) => info (ErrorInJob e) st2
          end
      end
  end.

End Scheduler.

(** ** api/v1/endpoints/websockets.py: the market-data relay

    asyncio runs one coroutine at a time and switches only where a coroutine
    waits.  The service is therefore a transition system: a state holds the
    module-level dictionaries and the place where every coroutine waits, and
    an event runs one coroutine from one wait to the next. *)

Module Websockets.

(** A listener task made by [asyncio.create_task(binance_websocket_listener(..))].
    [Created]: scheduled, no step taken yet.  [Listening]: waiting somewhere
    inside the [try] of the listener.  [Done]: what [task.done()] reports.
    [cancel_requested]: [task.cancel()] was called and the task has not
    finished yet (the [CancelledError] is thrown into the listener at its
    next step, and leaving the stream context waits once more). *)
Inductive Status := Created | Listening | Done.

Record Task := {
  symbol : string;
  status : Status;
  cancel_requested : bool
}.

(** Where a [websocket_endpoint] coroutine waits. *)
Inductive Endpoint :=
| Accepting (symbol_upper : string)       (* line 18, await websocket.accept() *)
| CreatingClient (symbol_upper : string)  (* line 142, AsyncClient.create in flight *)
| Closing (symbol_upper : string)         (* lines 147 and 152, await websocket.close() *)
| Receiving (symbol_upper : string)       (* line 162, await websocket.receive_text() *)
| Returned.

Record State := {
  active_connections : gmap string (gset nat);   (* manager.active_connections *)
  binance_socket_tasks : gmap string nat;        (* symbol -> listener task *)
  async_binance_client : bool;                  (* the global client is not None *)
  tasks : gmap nat Task;                         (* every task created so far *)
  endpoints : gmap nat Endpoint                  (* one coroutine per websocket *)
}.

Definition initial (client_ready : bool) : State :=
  {| active_connections := ∅; binance_socket_tasks := ∅;
     async_binance_client := client_ready; tasks := ∅; endpoints := ∅ |}.

Definition set_endpoint (ws : nat) (e : Endpoint) (st : State) : State :=
  {| active_connections := active_connections st;
     binance_socket_tasks := binance_socket_tasks st;
     async_binance_client := async_binance_client st;
     tasks := tasks st;
     endpoints := <[ws := e]> (endpoints st) |}.

Definition set_connections (c : gmap string (gset nat)) (st : State) : State :=
  {| active_connections := c;
     binance_socket_tasks := binance_socket_tasks st;
     async_binance_client := async_binance_client st;
     tasks := tasks st;
     endpoints := endpoints st |}.

Definition set_registry (r : gmap string nat) (st : State) : State :=
  {| active_connections := active_connections st;
     binance_socket_tasks := r;
     async_binance_client := async_binance_client st;
     tasks := tasks st;
     endpoints := endpoints st |}.

Definition set_tasks (t : gmap nat Task) (st : State) : State :=
  {| active_connections := active_connections st;
     binance_socket_tasks := binance_socket_tasks st;
     async_binance_client := async_binance_client st;
     tasks := t;
     endpoints := endpoints st |}.

Definition set_client (b : bool) (st : State) : State :=
  {| active_connections := active_connections st;
     binance_socket_tasks := binance_socket_tasks st;
     async_binance_client := b;
     tasks := tasks st;
     endpoints := endpoints st |}.

(** [ConnectionManager.connect], after the accept. *)
Definition connect (websocket : nat) (symbol_upper : string)
    (conns : gmap string (gset nat)) : gmap string (gset nat) :=
  let current := match conns !! symbol_upper with Some s => s | None => ∅ end in
  <[symbol_upper := {[websocket]} ∪ current]> conns.

(** [ConnectionManager.disconnect]; removing an absent socket is the
    [KeyError] branch and changes nothing. *)
Definition disconnect (websocket : nat) (symbol_upper : string)
    (conns : gmap string (gset nat)) : gmap string (gset nat) :=
  match conns !! symbol_upper with
  | None => conns
  | Some s =>
      if decide (websocket ∈ s) then
        let s' := s ∖ {[websocket]} in
        if decide (s' = ∅) then delete symbol_upper conns
        else <[symbol_upper := s']> conns
      else conns
  end.

(** [binance_socket_tasks[symbol].done()] for a registered task. *)
Definition done (st : State) (t : nat) : bool :=
  match tasks st !! t with
  | Some {| status := Done |} => true
  | _ => false
  end.

(** Line 138: [symbol not in binance_socket_tasks or
    binance_socket_tasks[symbol].done()] *)
Definition listener_needed (st : State) (symbol_upper : string) : bool :=
  match binance_socket_tasks st !! symbol_upper with
  | None => true
  | Some t => done st t
  end.

(** The next free task identifier. *)
Definition fresh_task (st : State) : nat := size (tasks st).

(** Lines 143-144: [create_task] and the registration. *)
Definition start_listener (symbol_upper : string) (st : State) : State :=
  let t := fresh_task st in
  set_registry (<[symbol_upper := t]> (binance_socket_tasks st))
    (set_tasks (<[t := {| symbol := symbol_upper; status := Created;
                          cancel_requested := false |}]> (tasks st)) st).

(** [task.cancel()] *)
Definition cancel (t : nat) (st : State) : State :=
  match tasks st !! t with
  | Some k =>
      match status k with
      | Done => st
      | _ => set_tasks (<[t := {| symbol := symbol k; status := status k;
                                  cancel_requested := true |}]> (tasks st)) st
      end
  | None => st
  end.

(** Lines 171-178: the [finally] of the endpoint. *)
Definition endpoint_finally (symbol_upper : string) (st : State) : State :=
  match active_connections st !! symbol_upper, binance_socket_tasks st !! symbol_upper with
  | None, Some t =>
      let st1 := if done st t then st else cancel t st in
      set_registry (delete symbol_upper (binance_socket_tasks st1)) st1
  | _, _ => st
  end.

(** Lines 121-125: the [finally] of the listener, and the end of the task. *)
Definition listener_finally (t : nat) (k : Task) (st : State) : State :=
  let st1 :=
    match binance_socket_tasks st !! symbol k with
    | Some _ => set_registry (delete (symbol k) (binance_socket_tasks st)) st
    | None => st
    end in
  set_tasks (<[t := {| symbol := symbol k; status := Done;
                       cancel_requested := false |}]> (tasks st1)) st1.

Inductive ExitReason := Cancelled | Failed.

Inductive Event :=
| Connect (websocket : nat) (symbol : string)  (* a client opens /ws/market-updates/{symbol} *)
| Accepted (websocket : nat)                   (* websocket.accept() returns *)
| ClientCreated (websocket : nat) (ok : bool)  (* AsyncClient.create returns or raises *)
| Closed (websocket : nat) (ok : bool)         (* websocket.close() returns or raises *)
| Received (websocket : nat)                   (* receive_text() returns a message *)
| Disconnected (websocket : nat)               (* receive_text() raises *)
| TaskStart (t : nat)                          (* the event loop gives the task its first step *)
| TaskMessage (t : nat)                        (* stream.recv() returns, the message is broadcast *)
| TaskExit (t : nat) (why : ExitReason).       (* the listener leaves its try block *)

(** [keys] says whether the settings hold the API keys
    ([get_async_binance_client] raises [ValueError] without them). *)
Definition step (keys : bool) (st : State) (ev : Event) : option State :=
  match ev with
  | Connect ws symbol =>
      match endpoints st !! ws with
      | Some _ => None
      | None => Some (set_endpoint ws (Accepting (upper symbol)) st)
      end
  | Accepted ws =>
      match endpoints st !! ws with
      | Some (Accepting s) =>
          let st1 := set_connections (connect ws s (active_connections st)) st in
          if listener_needed st1 s then
            if async_binance_client st1 then
              Some (set_endpoint ws (Receiving s) (start_listener s st1))
            else if keys then Some (set_endpoint ws (CreatingClient s) st1)
            else Some (set_endpoint ws (Closing s) st1)
          else Some (set_endpoint ws (Receiving s) st1)
      | _ => None
      end
  | ClientCreated ws ok =>
      match endpoints st !! ws with
      | Some (CreatingClient s) =>
          if ok then
            Some (set_endpoint ws (Receiving s) (start_listener s (set_client true st)))
          else Some (set_endpoint ws (Closing s) st)
      | _ => None
      end
  | Closed ws ok =>
      match endpoints st !! ws with
      | Some (Closing s) =>
          if ok then
            Some (set_endpoint ws Returned
                    (set_connections (disconnect ws s (active_connections st)) st))
          else Some (set_endpoint ws Returned st)
      | _ => None
      end
  | Received ws =>
      match endpoints st !! ws with
      | Some (Receiving _) => Some st
      | _ => None
      end
  | Disconnected ws =>
      match endpoints st !! ws with
      | Some (Receiving s) =>
          let st1 := set_connections (disconnect ws s (active_connections st)) st in
          Some (set_endpoint ws Returned (endpoint_finally s st1))
      | _ => None
      end
  | TaskStart t =>
      match tasks st !! t with
      | Some k =>
          match status k with
          | Created =>
              if cancel_requested k then
                (* cancelled before its first step: the body never runs *)
                Some (set_tasks (<[t := {| symbol := symbol k; status := Done;
                                           cancel_requested := false |}]> (tasks st)) st)
              else if async_binance_client st then
                Some (set_tasks (<[t := {| symbol := symbol k; status := Listening;
                                           cancel_requested := false |}]> (tasks st)) st)
              else if keys then
                Some (set_client true
                        (set_tasks (<[t := {| symbol := symbol k; status := Listening;
                                              cancel_requested := false |}]> (tasks st)) st))
              else Some (listener_finally t k st)
          | _ => None
          end
      | None => None
      end
  | TaskMessage t =>
      match tasks st !! t with
      | Some {| status := Listening |} => Some st
      | _ => None
      end
  | TaskExit t why =>
      match tasks st !! t with
      | Some k =>
          match status k, why with
          | Listening, Failed => Some (listener_finally t k st)
          | Listening, Cancelled =>
              if cancel_requested k then Some (listener_finally t k st) else None
          | _, _ => None
          end
      | None => None
      end
  end.

Fixpoint run (keys : bool) (events : list Event) (st : State) : option State :=
  match events with
  | [] => Some st
  | ev :: rest =>
      match step keys st ev with
      | Some st' => run keys rest st'
      | None => None
      end
  end.

(** The states the service can be in. *)
Inductive reachable (keys client_ready : bool) : State -> Prop :=
| reachable_initial : reachable keys client_ready (initial client_ready)
| reachable_step st ev st' :
    reachable keys client_ready st ->
    step keys st ev = Some st' ->
    reachable keys client_ready st'.

(** The listener tasks of a symbol that are not finished. *)
Definition running_listeners (st : State) (symbol_upper : string) : list nat :=
  List.map fst
    (List.filter (fun '(_, k) => String.eqb (symbol k) symbol_upper
                                 && match status k with Done => false | _ => true end)
                 (map_to_list (tasks st))).

End Websockets.

(** ** The claims of the specification, and sample data *)

Module Fixtures.

Local Open Scope Q_scope.


(** BTCUSDT-like trading rules and an exchange that fills every order at
    20000. *)
Definition btc_rules : SymbolInfo :=
  {| filters := [ PRICE_FILTER (1 # 100); LOT_SIZE (1 # 100000); MIN_NOTIONAL 5 ] |}.

Definition filled (order_id : Z) (p : OrderParams) : Order :=
  let qty := match p_quantity p with
             | Some q => q
             | None => match p_quoteOrderQty p with
                       | Some qq => qq / 20000
                       | None => 0
                       end
             end in
  {| o_orderId := order_id; o_price := Some 0; o_executedQty := Some qty;
     o_status := Some "FILLED"%string;
     o_fills := Some [ {| f_price := 20000; f_qty := qty |} ] |}.

Definition btc_client : Client :=
  {| get_symbol_info := fun _ => Ok (Some btc_rules);
     get_symbol_ticker := fun _ => Ok 20000;
     get_klines := fun _ _ _ => Ok [];
     create_order := fun p => Ok (filled 7 p) |}.

Definition idle : TradeExecutor.State :=
  {| TradeExecutor.symbol_info_cache := ∅;
     TradeExecutor.create_order_calls := [];
     TradeExecutor.trade_history := [] |}.

(** The settings and state of the trailing-stop scenario of dca_bot.py
    (test case 3): 50 a day on ETHUSDT, a 10 % trailing stop, bought at 3000
    with a high of 3500 since. *)
Definition eth_dca_config : gmap string pyval :=
  <["symbol" := PyStr "ETHUSDT"]>
  (<["investment_amount" := PyInt 50]>
  (<["frequency" := PyStr "daily"]>
  (<["trailing_stop_pct" := PyInt 10]> ∅))).

Definition eth_dca_state (last : Z) : gmap string pyval :=
  <["last_investment_time" := PyDatetime (Aware last)]>
  (<["average_purchase_price" := PyInt 3000]>
  (<["highest_price_since_purchase" := PyInt 3500]>
  (<["position_active" := PyBool true]> ∅))).

(** An exchange whose ticker reads [p]. *)
Definition ticker_client (p : Q) : Client :=
  {| get_symbol_info := fun _ => Ok (Some btc_rules);
     get_symbol_ticker := fun _ => Ok p;
     get_klines := fun _ _ _ => Ok [];
     create_order := fun o => Ok (filled 7 o) |}.

(** An indicator library that finds nothing to compute. *)
Definition no_indicators : Pandas.TA :=
  {| Pandas.indicators := fun _ _ => Ok None;
     Pandas.last_ma := fun _ _ _ => Ok None |}.

(** The conditions of the momentum strategy as the specification words
    them, on the previous and the latest valid row. *)
Definition crosses_above (prev latest : Pandas.Row) : Prop :=
  Pandas.value (Pandas.sma_short prev) <= Pandas.value (Pandas.sma_long prev)
  /\ Pandas.value (Pandas.sma_long latest) < Pandas.value (Pandas.sma_short latest).

Definition crosses_below (prev latest : Pandas.Row) : Prop :=
  Pandas.value (Pandas.sma_long prev) <= Pandas.value (Pandas.sma_short prev)
  /\ Pandas.value (Pandas.sma_short latest) < Pandas.value (Pandas.sma_long latest).

Definition buy_conditions (overbought : Q) (prev latest : Pandas.Row) : Prop :=
  crosses_above prev latest
  /\ Pandas.value (Pandas.macds latest) < Pandas.value (Pandas.macd latest)
  /\ 0 < Pandas.value (Pandas.macdh latest)
  /\ Pandas.value (Pandas.rsi latest) < overbought.

Definition sell_conditions (oversold : Q) (prev latest : Pandas.Row) : Prop :=
  crosses_below prev latest
  /\ Pandas.value (Pandas.macd latest) < Pandas.value (Pandas.macds latest)
  /\ Pandas.value (Pandas.macdh latest) < 0
  /\ oversold < Pandas.value (Pandas.rsi latest).

(** Two candles and two complete indicator rows on which the short average
    has just moved above the long one. *)
Definition candle (t : Z) (c : Q) : Kline :=
  {| k_open_time := t; k_open := c; k_high := c; k_low := c; k_close := c;
     k_volume := 1; k_close_time := t + 1 |}.

Definition row (c r m h s short long : Q) : Pandas.Row :=
  {| Pandas.close := Some c; Pandas.rsi := Some r; Pandas.macd := Some m;
     Pandas.macdh := Some h; Pandas.macds := Some s;
     Pandas.sma_short := Some short; Pandas.sma_long := Some long;
     Pandas.other_columns_complete := true |}.

Definition warming_up : Pandas.Row :=
  {| Pandas.close := Some 100; Pandas.rsi := None; Pandas.macd := None;
     Pandas.macdh := None; Pandas.macds := None;
     Pandas.sma_short := None; Pandas.sma_long := None;
     Pandas.other_columns_complete := true |}.

Definition rising_rows : list Pandas.Row :=
  [ warming_up; row 100 45 1 0 1 10 11; row 104 50 2 1 1 12 11 ].

Definition rising : Pandas.TA :=
  {| Pandas.indicators := fun _ _ => Ok (Some rising_rows);
     Pandas.last_ma := fun _ _ _ => Ok None |}.

Definition candle_client : Client :=
  {| get_symbol_info := fun _ => Ok (Some btc_rules);
     get_symbol_ticker := fun _ => Ok 20000;
     get_klines := fun _ _ _ => Ok [ candle 0 100; candle 1 100; candle 2 104 ];
     create_order := fun o => Ok (filled 7 o) |}.

(** The [i]-th of [n] equally spaced levels from [lo] to [hi]. *)
Definition level (lo hi : Q) (n i : Z) : Q :=
  lo + inject_Z i * ((hi - lo) / inject_Z (n - 1)).

(** The grid of grid_bot.py's own example: five lines from 48000 to 52000. *)
Definition btc_grid : gmap string pyval :=
  <["symbol" := PyStr "BTCUSDT"]>
  (<["upper_limit" := PyInt 52000]>
  (<["lower_limit" := PyInt 48000]>
  (<["num_grids" := PyInt 5]>
  (<["investment_per_grid" := PyInt 100]> ∅)))).

(** *** A scheduler tick *)

(** One bot after the other, each through its own turn of the loop. *)
Definition each_in_turn (env : Scheduler.Env) (client : Client)
    (bots : list Scheduler.BotConfiguration) (st : Scheduler.State) : Scheduler.State :=
  fold_left (fun s bot => fst (Scheduler.bot_iteration env client bot s)) bots st.






(** Four active bots: an unknown type, a grid without limits, the example
    grid, a daily DCA, and a momentum bot on the default settings. *)
Definition unknown_bot : Scheduler.BotConfiguration :=
  {| Scheduler.id := 1; Scheduler.bot_type := "arbitrage";
     Scheduler.settings := <["symbol" := PyStr "BTCUSDT"]> ∅ |}.

Definition broken_grid_bot : Scheduler.BotConfiguration :=
  {| Scheduler.id := 2; Scheduler.bot_type := "grid";
     Scheduler.settings := <["symbol" := PyStr "BTCUSDT"]> ∅ |}.



Definition momentum_bot : Scheduler.BotConfiguration :=
  {| Scheduler.id := 5; Scheduler.bot_type := "momentum";
     Scheduler.settings := <["symbol" := PyStr "BTCUSDT"]> ∅ |}.

(** The exchange of the tick: ticker at 47500, three candles, every order
    filled. *)
Definition tick_client : Client :=
  {| get_symbol_info := fun _ => Ok (Some btc_rules);
     get_symbol_ticker := fun _ => Ok 47500;
     get_klines := fun _ _ _ => Ok [ candle 0 100; candle 1 100; candle 2 104 ];
     create_order := fun o => Ok (filled 7 o) |}.

Definition tick_env (bots : list Scheduler.BotConfiguration) : Scheduler.Env :=
  {| Scheduler.binance_client := Some tick_client;
     Scheduler.ta := rising;
     Scheduler.now := DcaBot.days 20000;
     Scheduler.active_bots := Ok bots |}.

Definition fresh : Scheduler.State :=
  {| Scheduler.executor := idle; Scheduler.log := [] |}.

(** *** Two schedules of the market-data relay *)

(** A subscriber leaves and the next one arrives before the cancelled
    listener has finished; a third one arrives afterwards. *)
Definition late_cancellation : list Websockets.Event :=
  [ Websockets.Connect 1 "btcusdt"; Websockets.Accepted 1; Websockets.TaskStart 0;
    Websockets.Disconnected 1;
    Websockets.Connect 2 "btcusdt"; Websockets.Accepted 2; Websockets.TaskStart 1;
    Websockets.TaskExit 0 Websockets.Cancelled;
    Websockets.Connect 3 "btcusdt"; Websockets.Accepted 3; Websockets.TaskStart 2 ].

(** Two subscribers arrive while the global client is still being created. *)
Definition slow_client : list Websockets.Event :=
  [ Websockets.Connect 1 "btcusdt"; Websockets.Accepted 1;
    Websockets.Connect 2 "btcusdt"; Websockets.Accepted 2;
    Websockets.ClientCreated 1 true; Websockets.ClientCreated 2 true;
    Websockets.TaskStart 0; Websockets.TaskStart 1 ].

(** What the registry can be relied on for: a registered task exists and
    listens to the symbol it is registered under; tasks are numbered in the
    order of their creation; no task exists before the global client does. *)
Definition registry_consistent (st : Websockets.State) : Prop :=
  (forall s t, Websockets.binance_socket_tasks st !! s = Some t ->
     exists k, Websockets.tasks st !! t = Some k /\ Websockets.symbol k = s)
  /\ (forall t, is_Some (Websockets.tasks st !! t)
                <-> (t < size (Websockets.tasks st))%nat)
  /\ (forall t k, Websockets.tasks st !! t = Some k ->
                  Websockets.async_binance_client st = true).

Definition listening (s : string) : Websockets.Task :=
  {| Websockets.symbol := s; Websockets.status := Websockets.Listening;
     Websockets.cancel_requested := false |}.

End Fixtures.

(** ** The tables (models/) and their queries (app/crud/)

    A session is read as the tables it sees: each table is the list of its
    rows, in the order a query without ORDER BY gives them.  The columns the
    database fills with a time ([created_at], [updated_at]) are left out.
    What the constraints of the models make the database refuse at [commit]
    (a NOT NULL column set to null, a foreign key without its row) is the
    answer [IntegrityError].  The [settings] column has the type [JSON]: the
    Python value [None] is stored in it as the JSON value null, which is a
    value for the NOT NULL constraint, and is read back as [None]. *)

Module Database.

Local Open Scope Q_scope.

(** A [uuid.UUID], as its 128-bit number. *)
Definition UUID := N.

(** models/bot_configuration.py; [settings] is a dictionary or, once an
    update has set it to null, [None]. *)
Record BotConfiguration := {
  id : Z;
  user_id : UUID;
  bot_type : string;
  name : string;
  settings : option (gmap string pyval);
  is_active : bool
}.

(** models/trade_history.py *)
Record TradeHistory := {
  th_id : Z;
  th_bot_id : Z;
  th_timestamp : Z;
  th_symbol : string;
  th_action : string;
  th_price : Q;
  th_quantity : Q
}.

(** The tables, the keys of [users], and the sequence that numbers the rows
    of [bot_configurations]. *)
Record Session := {
  users : gset UUID;
  bot_configurations : list BotConfiguration;
  trade_history : list TradeHistory;
  bot_configurations_id_seq : Z
}.

(** schemas/bot_configuration.py: [BotConfigurationCreate] *)
Record BotConfigurationCreate := {
  c_bot_type : string;
  c_name : string;
  c_settings : gmap string pyval;
  c_is_active : bool
}.

(** A field of [BotConfigurationUpdate]: left out of the request, or set by
    it, to a value or to null. *)
Inductive Field (A : Type) :=
| Unset
| SetTo (v : option A).
Arguments Unset {A}.
Arguments SetTo {A} v.

Record BotConfigurationUpdate := {
  u_name : Field string;
  u_settings : Field (gmap string pyval);
  u_is_active : Field bool
}.

(** What a function that commits comes back with. *)
Inductive Committed (A : Type) :=
| Returns (db : Session) (a : A)
| IntegrityError.
Arguments Returns {A} db a.
Arguments IntegrityError {A}.

Definition set_bot_configurations (rows : list BotConfiguration) (db : Session) : Session :=
  {| users := users db; bot_configurations := rows;
     trade_history := trade_history db;
     bot_configurations_id_seq := bot_configurations_id_seq db |}.

(** [get_bot_config]: the row with this identifier, if it is this user's. *)
Definition get_bot_config (db : Session) (bot_id : Z) (user : UUID)
  : option BotConfiguration :=
  List.find (fun b => (id b =? bot_id)%Z && (user_id b =? user)%N)
            (bot_configurations db).

(** [get_bot_configs_by_user] *)
Definition get_bot_configs_by_user (db : Session) (user : UUID) (skip limit : nat)
  : list BotConfiguration :=
  firstn limit (skipn skip (List.filter (fun b => (user_id b =? user)%N)
                                        (bot_configurations db))).

(** [create_bot_config]: the new row takes the next identifier of the
    sequence; its owner must be a row of [users]. *)
Definition create_bot_config (db : Session) (bot_config : BotConfigurationCreate)
    (user : UUID) : Committed BotConfiguration :=
  let db_bot_config :=
    {| id := bot_configurations_id_seq db; user_id := user;
       bot_type := c_bot_type bot_config; name := c_name bot_config;
       settings := Some (c_settings bot_config);
       is_active := c_is_active bot_config |} in
  if decide (user ∈ users db) then
    Returns {| users := users db;
               bot_configurations := bot_configurations db ++ [db_bot_config];
               trade_history := trade_history db;
               bot_configurations_id_seq := (bot_configurations_id_seq db + 1)%Z |}
            db_bot_config
  else IntegrityError.

(** [setattr(db_bot_config, key, value)] for the fields the request set. *)
Definition set_fields (update : BotConfigurationUpdate) (row : BotConfiguration)
  : option string * option (gmap string pyval) * option bool :=
  let field {A} (f : Field A) (old : A) : option A :=
    match f with
    | Unset => Some old
    | SetTo v => v
    end in
  (field (u_name update) (name row),
   match u_settings update with
   | Unset => settings row
   | SetTo v => v
   end,
   field (u_is_active update) (is_active row)).

(** [update_bot_config]: the commit fails when [name] or [is_active] is
    left null; [settings] set to null is stored. *)
Definition update_bot_config (db : Session) (bot_id : Z)
    (bot_config_update : BotConfigurationUpdate) (user : UUID)
  : Committed (option BotConfiguration) :=
  match get_bot_config db bot_id user with
  | None => Returns db None
  | Some db_bot_config =>
      match set_fields bot_config_update db_bot_config with
      | (Some n, s, Some a) =>
          let updated :=
            {| id := id db_bot_config; user_id := user_id db_bot_config;
               bot_type := bot_type db_bot_config;
               name := n; settings := s; is_active := a |} in
          Returns (set_bot_configurations
                     (List.map (fun b => if (id b =? id db_bot_config)%Z then updated else b)
                               (bot_configurations db)) db)
                  (Some updated)
      | _ => IntegrityError
      end
  end.

(** [get_active_bot_configs]: the active rows of every user. *)
Definition get_active_bot_configs (db : Session) : list BotConfiguration :=
  List.filter is_active (bot_configurations db).

(** [delete_bot_config]; the relationship [trade_history] of the model
    cascades the deletion to the trades of the bot. *)
Definition delete_bot_config (db : Session) (bot_id : Z) (user : UUID)
  : Session * option BotConfiguration :=
  match get_bot_config db bot_id user with
  | None => (db, None)
  | Some db_bot_config =>
      ({| users := users db;
          bot_configurations :=
            List.filter (fun b => negb (id b =? id db_bot_config)%Z) (bot_configurations db);
          trade_history :=
            List.filter (fun t => negb (th_bot_id t =? id db_bot_config)%Z) (trade_history db);
          bot_configurations_id_seq := bot_configurations_id_seq db |},
       Some db_bot_config)
  end.

(** [ORDER BY timestamp ASC]; rows with the same timestamp keep the order of
    the table. *)
Fixpoint insert_by_timestamp (t : TradeHistory) (sorted : list TradeHistory)
  : list TradeHistory :=
  match sorted with
  | [] => [t]
  | x :: rest =>
      if (th_timestamp t <=? th_timestamp x)%Z then t :: sorted
      else x :: insert_by_timestamp t rest
  end.

Definition order_by_timestamp (rows : list TradeHistory) : list TradeHistory :=
  fold_right insert_by_timestamp [] rows.

(** [get_trade_history_for_bot] *)
Definition get_trade_history_for_bot (db : Session) (bot_id : Z) (skip limit : nat)
  : list TradeHistory :=
  firstn limit
    (skipn skip
       (order_by_timestamp
          (List.filter (fun t => (th_bot_id t =? bot_id)%Z) (trade_history db)))).

End Database.

(** ** app/services/performance_calculator.py *)

Module PerformanceCalculator.

Local Open Scope Q_scope.
Import Database.

(** [round(x, ndigits)]: to the nearest multiple of [10 ** -ndigits], a tie
    going to the even one. *)
Definition round_half_even (y : Q) : Z :=
  let f := Qfloor y in
  let r := y - inject_Z f in
  if Qlt_bool r (1 # 2) then f
  else if Qlt_bool (1 # 2) r then (f + 1)%Z
  else if Z.even f then f else (f + 1)%Z.

Definition round (x : Q) (ndigits : Z) : Q :=
  inject_Z (round_half_even (x * Qpower 10 ndigits)) / Qpower 10 ndigits.

(** The variables of the loop of lines 41-68. *)
Record Tally := {
  total_pnl : Q;
  wins : Z;
  losses : Z;
  last_buy_price : option Q;
  last_buy_quantity : Q
}.

Definition start : Tally :=
  {| total_pnl := 0; wins := 0; losses := 0;
     last_buy_price := None; last_buy_quantity := 0 |}.

Definition is_buy (action : string) : bool :=
  String.eqb action "BUY" || String.eqb action "SIM_BUY".

Definition is_sell (action : string) : bool :=
  String.eqb action "SELL" || String.eqb action "SIM_SELL".

(** One turn of the loop. *)
Definition account (t : Tally) (trade : TradeHistory) : Tally :=
  let action := th_action trade in
  let price := th_price trade in
  let quantity := th_quantity trade in
  if is_buy action then
    {| total_pnl := total_pnl t; wins := wins t; losses := losses t;
       last_buy_price := Some price; last_buy_quantity := quantity |}
  else if is_sell action then
    match last_buy_price t with
    | Some bought =>
        let pnl := (price - bought) * last_buy_quantity t in
        {| total_pnl := total_pnl t + pnl;
           wins := if Qlt_bool 0 pnl then (wins t + 1)%Z else wins t;
           losses := if Qlt_bool 0 pnl then losses t
                     else if Qlt_bool pnl 0 then (losses t + 1)%Z else losses t;
           last_buy_price := None; last_buy_quantity := 0 |}
    | None => t
    end
  else t.

(** The two dictionaries the function can return. *)
Inductive Metrics :=
| NoTrades
| Cycles (total_trades_cycles winning_trades losing_trades : Z)
         (win_rate_pct total_pnl average_pnl_per_cycle : Q).

(** [calculate_performance_metrics(trades)] *)
Definition calculate_performance_metrics (trades : list TradeHistory) : Metrics :=
  match trades with
  | [] => NoTrades
  | _ =>
      let t := fold_left account trades start in
      let total_trades_evaluated := (wins t + losses t)%Z in
      let win_rate :=
        if (0 <? total_trades_evaluated)%Z
        then inject_Z (wins t) / inject_Z total_trades_evaluated * 100 else 0 in
      let avg_pnl :=
        if (0 <? total_trades_evaluated)%Z
        then total_pnl t / inject_Z total_trades_evaluated else 0 in
      Cycles total_trades_evaluated (wins t) (losses t)
             (round win_rate 2) (round (total_pnl t) 4) (round avg_pnl 4)
  end.

End PerformanceCalculator.

(** ** api/v1/endpoints/bots.py

    A definition is the function as FastAPI calls it, with path and query
    parameters that passed their declared bounds ([bot_id >= 1], [skip >= 0],
    [1 <= limit <= 200]).  [current_user] is the authenticated user, read as
    the [uuid.UUID] of its identifier; every endpoint gets a session of its
    own. *)

Module BotsApi.

Local Open Scope Q_scope.
Import Database.

(** What an endpoint comes back with: a value, a raised [HTTPException], or
    another exception that leaves the function or the serialization of its
    answer. *)
Inductive Response (A : Type) :=
| Answer (a : A)
| HTTPException (status_code : Z)
| Unhandled.
Arguments Answer {A} a.
Arguments HTTPException {A} status_code.
Arguments Unhandled {A}.

(** [response_model=bot_schemas.BotConfiguration]: the row a function
    returns is validated against the schema, whose [settings] is a
    dictionary. *)
Definition validates (b : BotConfiguration) : bool :=
  match settings b with Some _ => true | None => false end.

Definition respond (b : BotConfiguration) : Response BotConfiguration :=
  if validates b then Answer b else Unhandled.

Definition create_bot (db : Session) (bot_in : BotConfigurationCreate) (current_user : UUID)
  : Session * Response BotConfiguration :=
  match create_bot_config db bot_in current_user with
  | Returns db' db_bot => (db', respond db_bot)
  | IntegrityError => (db, Unhandled)
  end.

Definition read_bots (db : Session) (skip limit : nat) (current_user : UUID)
  : Response (list BotConfiguration) :=
  let bots := get_bot_configs_by_user db current_user skip limit in
  if forallb validates bots then Answer bots else Unhandled.

Definition read_bot (db : Session) (bot_id : Z) (current_user : UUID)
  : Response BotConfiguration :=
  match get_bot_config db bot_id current_user with
  | None => HTTPException 404
  | Some db_bot => respond db_bot
  end.

Definition update_bot (db : Session) (bot_id : Z) (bot_in : BotConfigurationUpdate)
    (current_user : UUID) : Session * Response BotConfiguration :=
  match update_bot_config db bot_id bot_in current_user with
  | Returns db' None => (db', HTTPException 404)
  | Returns db' (Some db_bot) => (db', respond db_bot)
  | IntegrityError => (db, Unhandled)
  end.

Definition delete_bot (db : Session) (bot_id : Z) (current_user : UUID)
  : Session * Response BotConfiguration :=
  match delete_bot_config db bot_id current_user with
  | (db', None) => (db', HTTPException 404)
  | (db', Some db_bot) => (db', respond db_bot)
  end.

(** The value of ["details"] in the status dictionary. *)
Inductive Details :=
| Signal (signal : MomentumBot.Signal)
| GridState (current_price : Q) (potential_actions : list GridBot.GridAction)
| DcaState (potential_actions : list DcaBot.DcaAction)
| UnsupportedType (bot_type : string)
| ErrorMessage (e : exn).

Record Status := {
  s_bot_id : Z;
  s_bot_type : string;
  s_symbol : pyval;
  s_is_active : bool;
  s_status : string;
  s_details : Details
}.

(** The placeholder state of lines 182-187. *)
Definition dca_state : gmap string pyval :=
  <["last_investment_time" := PyNone]>
  (<["average_purchase_price" := PyNone]>
  (<["highest_price_since_purchase" := PyNone]>
  (<["position_active" := PyBool false]> ∅))).

(** Lines 165-201: the [try] block, with what it leaves in ["status"] and
    ["details"]. *)
Definition check (ta : Pandas.TA) (now : Z) (binance_client : Client)
    (bot_type : string) (config : gmap string pyval) (symbol : pyval)
  : string * Details :=
  let attempt : result (string * Details) :=
    if String.eqb bot_type "momentum" then
      let signal :=
        snd (MomentumBot.get_momentum_signal ta config binance_client None []) in
      Ok ("signal_generated"%string, Signal signal)
    else if String.eqb bot_type "grid" then
      bind (py_upper symbol) (fun s =>
      bind (get_symbol_ticker binance_client s) (fun current_price =>
      bind (GridBot.get_grid_actions config current_price) (fun actions =>
      Ok ("grid_state"%string, GridState current_price actions))))
    else if String.eqb bot_type "dca" then
      bind (snd (DcaBot.get_dca_actions ta now config binance_client dca_state None []))
           (fun actions => Ok ("dca_state"%string, DcaState actions))
    else Ok ("unsupported_type"%string, UnsupportedType bot_type) in
  match attempt with
  | Ok answer => answer
  | Raise e => ("error"%string, ErrorMessage e)
  end.

(** [get_bot_status]; [ta] and [now] are the indicator library and the
    clock the engines read.  Line 154 reads the symbol before the [try]:
    settings that are [None] have no [get]. *)
Definition get_bot_status (ta : Pandas.TA) (now : Z) (db : Session) (bot_id : Z)
    (current_user : UUID) (binance_client : option Client) : Response Status :=
  match get_bot_config db bot_id current_user with
  | None => HTTPException 404
  | Some db_bot =>
      match binance_client with
      | None => HTTPException 503
      | Some client =>
          let bot_type := bot_type db_bot in
          match settings db_bot with
          | None => Unhandled
          | Some config =>
              let symbol := get_default config "symbol" (PyStr "UNKNOWN") in
              let '(status, details) := check ta now client bot_type config symbol in
              Answer {| s_bot_id := bot_id; s_bot_type := bot_type; s_symbol := symbol;
                        s_is_active := is_active db_bot;
                        s_status := status; s_details := details |}
          end
      end
  end.

(** [get_bot_performance] *)
Definition get_bot_performance (db : Session) (bot_id : Z) (current_user : UUID)
  : Response PerformanceCalculator.Metrics :=
  match get_bot_config db bot_id current_user with
  | None => HTTPException 404
  | Some _ =>
      let trades := get_trade_history_for_bot db bot_id 0 10000 in
      Answer (PerformanceCalculator.calculate_performance_metrics trades)
  end.

End BotsApi.

(** ** main.py, lines 35-50: the job and the table of bots *)

Module Job.

(** A row of the table as the loop reads it, when its settings are a
    dictionary (line 54 calls [bot.settings.get]). *)
Definition row (b : Database.BotConfiguration) : option Scheduler.BotConfiguration :=
  match Database.settings b with
  | Some config =>
      Some {| Scheduler.id := Database.id b;
              Scheduler.bot_type := Database.bot_type b;
              Scheduler.settings := config |}
  | None => None
  end.

Fixpoint rows (l : list Database.BotConfiguration) : option (list Scheduler.BotConfiguration) :=
  match l with
  | [] => Some []
  | b :: rest =>
      match row b, rows rest with
      | Some r, Some rs => Some (r :: rs)
      | _, _ => None
      end
  end.

(** Line 50: the bots [get_active_bot_configs] hands to the loop, when all
    of them have a dictionary for settings. *)
Definition active_bots (db : Database.Session) : option (list Scheduler.BotConfiguration) :=
  rows (Database.get_active_bot_configs db).

(** What the job finds around it when its session gave it [bots]. *)
Definition env (binance_client : option Client) (ta : Pandas.TA) (now : Z)
    (bots : list Scheduler.BotConfiguration) : Scheduler.Env :=
  {| Scheduler.binance_client := binance_client;
     Scheduler.ta := ta;
     Scheduler.now := now;
     Scheduler.active_bots := Ok bots |}.

End Job.

(** ** api/v1/endpoints/market.py: the ticker *)

Module MarketApi.

(** What can be raised inside the [try] of [get_ticker]: the two exceptions
    of the client with their message, the [HTTPException] of line 85, and
    anything else. *)
Inductive Raised :=
| BinanceAPIException (message : string)
| BinanceRequestException (message : string)
| HTTPException (status_code : Z)
| Exception.

(** [client.get_symbol_ticker(symbol=...)]: the ticker dictionary ([None]
    when the call answers nothing), or an exception. *)
Record Client := {
  get_symbol_ticker : string -> option (gmap string string) + Raised
}.

Inductive Response :=
| Ticker (ticker_info : gmap string string)
| Error (status_code : Z).

(** [needle in text] *)
Fixpoint contains (needle text : string) : bool :=
  String.prefix needle text
  || match text with
     | EmptyString => false
     | String _ rest => contains needle rest
     end.

(** Lines 83-87, the body of the [try]. *)
Definition ticker_info_of (client : Client) (symbol : string)
  : gmap string string + Raised :=
  match get_symbol_ticker client (upper symbol) with
  | inl (Some ticker_info) =>
      if decide (ticker_info = ∅) then inr (HTTPException 404) else inl ticker_info
  | inl None => inr (HTTPException 404)
  | inr e => inr e
  end.

(** [get_ticker]: the handlers of lines 89-99 turn whatever the body raised
    into a status code; the last one catches every [Exception], the
    [HTTPException] of the body among them. *)
Definition get_ticker (symbol : string) (client : option Client) : Response :=
  match client with
  | None => Error 503
  | Some client =>
      match ticker_info_of client symbol with
      | inl ticker_info => Ticker ticker_info
      | inr (BinanceAPIException message) =>
          if contains "Invalid symbol" message then Error 404 else Error 400
      | inr (BinanceRequestException _) => Error 504
      | inr _ => Error 500
      end
  end.

End MarketApi.

(** ** Sample data and the predicates of the statements *)

Module Samples.

Local Open Scope Q_scope.

(** An exchange that cannot be reached: every call fails. *)
Definition unreachable_client : Client :=
  {| get_symbol_info := fun _ => Raise BinanceAPIException;
     get_symbol_ticker := fun _ => Raise BinanceAPIException;
     get_klines := fun _ _ _ => Raise BinanceAPIException;
     create_order := fun _ => Raise BinanceAPIException |}.





(** *** The connection manager of the relay *)

(** The sockets [manager.active_connections] holds for a symbol: none when
    the symbol is not a key. *)
Definition subscribers (conns : gmap string (gset nat)) (symbol_upper : string) : gset nat :=
  match conns !! symbol_upper with Some s => s | None => ∅ end.

(** The symbol an endpoint has connected its socket for and not yet
    disconnected: from the accept to the end of the receive loop. *)
Definition connected_for (e : Websockets.Endpoint) : option string :=
  match e with
  | Websockets.CreatingClient s | Websockets.Closing s | Websockets.Receiving s => Some s
  | Websockets.Accepting _ | Websockets.Returned => None
  end.

(** What the endpoints rely on: a symbol is a key of the dictionary only
    while it has a subscriber, and the socket of every endpoint between its
    accept and its disconnect is among the subscribers of its symbol. *)
Definition connections_consistent (st : Websockets.State) : Prop :=
  (forall s subscribed, Websockets.active_connections st !! s = Some subscribed ->
                        subscribed <> ∅)
  /\ (forall ws e s, Websockets.endpoints st !! ws = Some e ->
                     connected_for e = Some s ->
                     ws ∈ subscribers (Websockets.active_connections st) s).

(** One subscriber of BTCUSDT, accepted, its listener started. *)
Definition one_subscriber : list Websockets.Event :=
  [ Websockets.Connect 1 "btcusdt"; Websockets.Accepted 1; Websockets.TaskStart 0 ].

(** A second client has opened its connection for the same symbol and waits
    for the accept. *)
Definition second_subscriber : list Websockets.Event :=
  one_subscriber ++ [ Websockets.Connect 2 "BTCUSDT" ].

(** The state of the relay after a schedule, from an empty relay whose
    client is ready. *)
Definition after (events : list Websockets.Event) : Websockets.State :=
  match Websockets.run true events (Websockets.initial true) with
  | Some st => st
  | None => Websockets.initial true
  end.

(** *** Trade histories *)

(** The number of trades whose action passes a test. *)
Definition count_actions (test : string -> bool) (trades : list Database.TradeHistory) : Z :=
  Z.of_nat (length (List.filter (fun t => test (Database.th_action t)) trades)).

(** A trade of bot 1 on BTCUSDT. *)
Definition trade (time : Z) (action : string) (price quantity : Q) : Database.TradeHistory :=
  {| Database.th_id := time; Database.th_bot_id := 1; Database.th_timestamp := time;
     Database.th_symbol := "BTCUSDT"; Database.th_action := action;
     Database.th_price := price; Database.th_quantity := quantity |}.

(** What the loop keeps true of its variables; [buys] and [sells] count the
    rows read so far. *)
Definition tally_bounded (t : PerformanceCalculator.Tally) (buys sells : Z) : Prop :=
  (0 <= PerformanceCalculator.wins t)%Z /\ (0 <= PerformanceCalculator.losses t)%Z
  /\ (PerformanceCalculator.wins t + PerformanceCalculator.losses t
      + match PerformanceCalculator.last_buy_price t with Some _ => 1 | None => 0 end
      <= buys)%Z
  /\ (PerformanceCalculator.wins t + PerformanceCalculator.losses t <= sells)%Z
  /\ (PerformanceCalculator.wins t = 0%Z -> PerformanceCalculator.total_pnl t <= 0)
  /\ (PerformanceCalculator.losses t = 0%Z -> 0 <= PerformanceCalculator.total_pnl t).

(** Two trades the metrics cannot tell apart: the same action at the same
    price, and for a purchase the same quantity. *)
Definition same_for_the_metrics (t t' : Database.TradeHistory) : Prop :=
  Database.th_action t = Database.th_action t'
  /\ Database.th_price t = Database.th_price t'
  /\ (PerformanceCalculator.is_buy (Database.th_action t) = true ->
      Database.th_quantity t = Database.th_quantity t').

(** *** The table of bots *)

(** No identifier of the table is at or beyond the next one of the sequence,
    and no two rows share one. *)
Definition keys_in_sequence (db : Database.Session) : Prop :=
  NoDup (List.map Database.id (Database.bot_configurations db))
  /\ Forall (fun b => (Database.id b < Database.bot_configurations_id_seq db)%Z)
            (Database.bot_configurations db).

(** The value an update leaves in a column that holds [old]: that of the
    request if it set the field, null included. *)
Definition updated_value {A} (f : Database.Field A) (old : option A) : option A :=
  match f with
  | Database.SetTo v => v
  | Database.Unset => old
  end.

Definition set_to_null {A} (f : Database.Field A) : Prop := f = Database.SetTo None.

(** Two users, a momentum bot of the first one that is switched on and has
    two trades, and a grid bot of the second one that is switched off. *)
Definition alice : Database.UUID := 1%N.
Definition bob : Database.UUID := 2%N.

Definition alice_momentum : Database.BotConfiguration :=
  {| Database.id := 1; Database.user_id := alice; Database.bot_type := "momentum";
     Database.name := "BTC momentum";
     Database.settings := Some (<["symbol" := PyStr "BTCUSDT"]> ∅);
     Database.is_active := true |}.

Definition bob_grid : Database.BotConfiguration :=
  {| Database.id := 2; Database.user_id := bob; Database.bot_type := "grid";
     Database.name := "BTC grid";
     Database.settings := Some Fixtures.btc_grid;
     Database.is_active := false |}.

Definition two_users : Database.Session :=
  {| Database.users := {[ alice; bob ]};
     Database.bot_configurations := [ alice_momentum; bob_grid ];
     Database.trade_history := [ trade 2 "SELL" 110 1; trade 1 "BUY" 100 1 ];
     Database.bot_configurations_id_seq := 3 |}.

(** The "Checking bot" lines of the log. *)
Definition is_checking (e : Scheduler.LogEntry) : bool :=
  match e with Scheduler.CheckingBot _ _ _ => true | _ => false end.

Definition checking (b : Scheduler.BotConfiguration) : Scheduler.LogEntry :=
  Scheduler.CheckingBot (Scheduler.id b) (Scheduler.bot_type b)
                        (get (Scheduler.settings b) "symbol").

(** The line the job logs for what the status endpoint shows. *)
Definition logged_as (bot_id : Z) (symbol : pyval) (details : BotsApi.Details)
  : option Scheduler.LogEntry :=
  match details with
  | BotsApi.Signal signal => Some (Scheduler.MomentumSignal bot_id signal)
  | BotsApi.GridState _ actions => Some (Scheduler.GridActions bot_id actions)
  | BotsApi.DcaState actions => Some (Scheduler.DcaActions bot_id actions)
  | BotsApi.UnsupportedType _ => None
  | BotsApi.ErrorMessage e => Some (Scheduler.ErrorProcessingBot bot_id symbol e)
  end.

(** *** Tickers *)

Definition btc_ticker : gmap string string :=
  <["symbol" := "BTCUSDT"]> (<["price" := "25000.00"]> ∅).

(** An exchange that answers an empty ticker. *)
Definition empty_ticker_client : MarketApi.Client :=
  {| MarketApi.get_symbol_ticker := fun _ => inl (Some ∅) |}.

End Samples.

(** * Properties *)

(** ** Arithmetic on rationals *)

Section RationalTests.

Local Open Scope Q_scope.

Lemma Qlt_bool_iff (x y : Q) : Qlt_bool x y = true <-> x < y.
Proof.
  unfold Qlt_bool. rewrite negb_true_iff. split.
  - intros H. apply Qnot_le_lt. intros Hle.
    apply Qle_bool_iff in Hle. congruence.
  - intros H. destruct (Qle_bool y x) eqn:E; [|reflexivity].
    apply Qle_bool_iff in E. lra.
Qed.

Lemma Qlt_bool_false (x y : Q) : Qlt_bool x y = false <-> y <= x.
Proof.
  unfold Qlt_bool. rewrite negb_false_iff. apply Qle_bool_iff.
Qed.

Lemma Qle_bool_false (x y : Q) : Qle_bool x y = false <-> y < x.
Proof.
  rewrite <- Qlt_bool_iff. unfold Qlt_bool.
  destruct (Qle_bool x y); simpl; split; congruence.
Qed.


End RationalTests.

(** ** Rounding to the step size (trade_executor.py, lines 37-51) *)

Section StepSize.

Local Open Scope Q_scope.
Import TradeExecutor.

Lemma pow10_pos (p : Z) : 0 < pow10 p.
Proof. unfold pow10. apply Qpower_0_lt. reflexivity. Qed.

Lemma pow10_lt (a b : Z) : (a < b)%Z -> pow10 a < pow10 b.
Proof. intros H. unfold pow10. apply Qpower_lt_compat_l; [exact H | reflexivity]. Qed.

Lemma pow10_lt_inv (a b : Z) : pow10 a < pow10 b -> (a < b)%Z.
Proof. intros H. unfold pow10 in H. eapply Qpower_lt_compat_l_inv; [exact H | reflexivity]. Qed.

Lemma pow10_add (a b : Z) : pow10 (a + b) == pow10 a * pow10 b.
Proof. unfold pow10. apply Qpower_plus. discriminate. Qed.

Lemma pow10_opp (a : Z) : pow10 (- a) == / pow10 a.
Proof. unfold pow10. apply Qpower_opp. Qed.




Lemma nearest_to_neg_log10_iff (step : Q) (p : Z) :
  nearest_to_neg_log10 step p = true
  <-> (pow10 (-2 * p - 1) < step * step /\ step * step < pow10 (-2 * p + 1))
      \/ (Z.even p = true
          /\ (step * step == pow10 (-2 * p - 1) \/ step * step == pow10 (-2 * p + 1))).
Proof.
  unfold nearest_to_neg_log10.
  rewrite orb_true_iff, !andb_true_iff, orb_true_iff, !Qlt_bool_iff, !Qeq_bool_iff.
  reflexivity.
Qed.

(** [round] has one answer. *)
Lemma nearest_to_neg_log10_unique (step : Q) (p p' : Z) :
  nearest_to_neg_log10 step p = true ->
  nearest_to_neg_log10 step p' = true -> p = p'.
Proof.
  rewrite !nearest_to_neg_log10_iff. intros H H'.
  pose proof (pow10_lt (-2 * p - 1) (-2 * p + 1) ltac:(lia)) as Hw.
  pose proof (pow10_lt (-2 * p' - 1) (-2 * p' + 1) ltac:(lia)) as Hw'.
  assert (Hlo : pow10 (-2 * p - 1) <= step * step) by (destruct H as [[? ?]|[_ [E|E]]]; lra).
  assert (Hhi : step * step <= pow10 (-2 * p + 1)) by (destruct H as [[? ?]|[_ [E|E]]]; lra).
  assert (Hlo' : pow10 (-2 * p' - 1) <= step * step)
    by (destruct H' as [[? ?]|[_ [E|E]]]; lra).
  assert (Hhi' : step * step <= pow10 (-2 * p' + 1))
    by (destruct H' as [[? ?]|[_ [E|E]]]; lra).
  destruct (Z.lt_trichotomy p p') as [Hlt|[Heq|Hgt]]; [|exact Heq|]; exfalso.
  - (* p < p': the square sits on the boundary between p and p' = p + 1 *)
    assert (Hp : (p' = p + 1)%Z).
    { destruct (Z_le_gt_dec p' (p + 1)); [lia|].
      assert (pow10 (-2 * p' + 1) < pow10 (-2 * p - 1)) by (apply pow10_lt; lia). lra. }
    subst p'. replace (-2 * (p + 1) + 1)%Z with (-2 * p - 1)%Z in * by lia.
    pose proof (pow10_lt (-2 * p - 1) (-2 * p + 1) ltac:(lia)).
    pose proof (pow10_lt (-2 * (p + 1) - 1) (-2 * p - 1) ltac:(lia)).
    assert (Ev : Z.even p = true) by (destruct H as [[? ?]|[Ev _]]; [lra|exact Ev]).
    assert (Ev' : Z.even (p + 1) = true) by (destruct H' as [[? ?]|[Ev' _]]; [lra|exact Ev']).
    rewrite Z.even_add in Ev'. rewrite Ev in Ev'. discriminate.
  - assert (Hp : (p = p' + 1)%Z).
    { destruct (Z_le_gt_dec p (p' + 1)); [lia|].
      assert (pow10 (-2 * p + 1) < pow10 (-2 * p' - 1)) by (apply pow10_lt; lia). lra. }
    subst p. replace (-2 * (p' + 1) + 1)%Z with (-2 * p' - 1)%Z in * by lia.
    pose proof (pow10_lt (-2 * p' - 1) (-2 * p' + 1) ltac:(lia)).
    pose proof (pow10_lt (-2 * (p' + 1) - 1) (-2 * p' - 1) ltac:(lia)).
    assert (Ev : Z.even p' = true) by (destruct H' as [[? ?]|[Ev _]]; [lra|exact Ev]).
    assert (Ev' : Z.even (p' + 1) = true) by (destruct H as [[? ?]|[Ev' _]]; [lra|exact Ev']).
    rewrite Z.even_add in Ev'. rewrite Ev in Ev'. discriminate.
Qed.

(** For a power of ten the nearest integer is the exponent. *)
Lemma nearest_to_neg_log10_pow10 (step : Q) (k : Z) :
  step == pow10 (- k) -> nearest_to_neg_log10 step k = true.
Proof.
  intros E. apply nearest_to_neg_log10_iff. left.
  assert (Hsq : step * step == pow10 (-2 * k)).
  { rewrite E, <- pow10_add. replace (- k + - k)%Z with (-2 * k)%Z by lia. reflexivity. }
  rewrite Hsq. split; apply pow10_lt; lia.
Qed.

Lemma find_unique {A} (f : A -> bool) (l : list A) (k : A) :
  (forall x, f x = true -> x = k) -> In k l -> f k = true ->
  List.find f l = Some k.
Proof.
  intros Hu Hin Hk. destruct (List.find f l) as [x|] eqn:E.
  - apply List.find_some in E. f_equal. apply Hu. tauto.
  - eapply List.find_none in E; [|exact Hin]. congruence.
Qed.

Lemma pow2_le_pow10 (k : Z) : (0 <= k -> 2 ^ k <= 10 ^ k)%Z.
Proof. intros H. apply Z.pow_le_mono_l. lia. Qed.

(** The search window of [round_neg_log10] contains the exponent of a
    power of ten, however the fraction is written. *)
Lemma log_bound_pow10 (step : Q) (k : Z) :
  step == pow10 (- k) -> (Z.abs k <= log_bound step - 2)%Z.
Proof.
  intros E. unfold log_bound.
  assert (Hn : (0 <= Z.log2 (Z.abs (Qnum step)))%Z) by apply Z.log2_nonneg.
  assert (Hd : (0 <= Z.log2 (Z.pos (Qden step)))%Z) by apply Z.log2_nonneg.
  assert (Hpos : 0 < step) by (rewrite E; apply pow10_pos).
  assert (Hnum : (0 < Qnum step)%Z).
  { unfold Qlt in Hpos. simpl in Hpos. lia. }
  destruct (Z_le_gt_dec 0 k) as [Hk|Hk].
  - (* step = 1 / 10^k: the denominator is at least 10^k *)
    assert (E' : step * inject_Z (10 ^ k) == 1).
    { rewrite E, pow10_opp, (Zpower_Qpower 10 k Hk). unfold pow10.
      change (inject_Z 10) with 10. rewrite Qmult_comm.
      apply Qmult_inv_r, Qpower_not_0. discriminate. }
    unfold Qeq in E'. simpl in E'.
    assert (Hge : (2 ^ k <= Z.pos (Qden step))%Z).
    { pose proof (pow2_le_pow10 k Hk). nia. }
    apply Z.log2_le_mono in Hge. rewrite Z.log2_pow2 in Hge by exact Hk. lia.
  - (* step = 10^(-k): the numerator is at least 10^(-k) *)
    assert (Hk' : (0 <= - k)%Z) by lia.
    assert (E' : step == inject_Z (10 ^ (- k))).
    { rewrite E, (Zpower_Qpower 10 (- k) Hk'). reflexivity. }
    unfold Qeq in E'. simpl in E'.
    assert (Hge : (2 ^ (- k) <= Z.abs (Qnum step))%Z).
    { pose proof (pow2_le_pow10 (- k) Hk'). nia. }
    apply Z.log2_le_mono in Hge. rewrite Z.log2_pow2 in Hge by exact Hk'. lia.
Qed.

Lemma round_neg_log10_pow10 (step : Q) (k : Z) :
  step == pow10 (- k) -> round_neg_log10 step = k.
Proof.
  intros E. unfold round_neg_log10.
  pose proof (log_bound_pow10 step k E) as Hb.
  rewrite (find_unique _ _ k); [reflexivity | | | ].
  - intros x Hx. eapply nearest_to_neg_log10_unique; [exact Hx|].
    apply nearest_to_neg_log10_pow10, E.
  - apply in_map_iff. exists (Z.to_nat (k + log_bound step)). split; [lia|].
    apply in_seq. lia.
  - apply nearest_to_neg_log10_pow10, E.
Qed.

Lemma precision_of_pow10 (step : Q) (k : Z) :
  step == pow10 (- k) -> precision_of step = k.
Proof.
  intros E. unfold precision_of.
  assert (Hpos : 0 < step) by (rewrite E; apply pow10_pos).
  apply Qlt_bool_iff in Hpos. rewrite Hpos.
  apply round_neg_log10_pow10, E.
Qed.









End StepSize.

Section QuantityNormalization.

Local Open Scope Q_scope.
Import TradeExecutor.



(** The usual exchange steps are powers of ten, and there the precision is the
    number of decimals: [0.001] has precision 3, and 1.234567 becomes 1.234. *)
Example adjust_quantity_three_decimals :
  precision_of (1 # 1000) = 3%Z
  /\ adjust_quantity_to_step_size (1234567 # 1000000) (1 # 1000) == 1234 # 1000.
Proof. split; reflexivity. Qed.


(** In double precision the first two parts of C2 hold up to rounding only.
    With two decimals, 0.295 is adjusted to 0.29, and 0.29 to 0.28, because
    [0.29 * 100] is the double just below 29.  With one decimal, the double
    just below 0.9 is adjusted to 0.9, above it. *)
Example binary64_adjustment_is_not_idempotent :
  Binary64.adjust_quantity 0x1.2e147ae147ae1p-2 2 = 0x1.28f5c28f5c28fp-2%float
  /\ Binary64.adjust_quantity 0x1.28f5c28f5c28fp-2 2 = 0x1.1eb851eb851ecp-2%float
  /\ PrimFloat.ltb 0x1.1eb851eb851ecp-2 0x1.28f5c28f5c28fp-2 = true
  /\ Binary64.adjust_quantity 0x1.cccccccccccccp-1 1 = 0x1.ccccccccccccdp-1%float
  /\ PrimFloat.ltb 0x1.cccccccccccccp-1 0x1.ccccccccccccdp-1 = true.
Proof. repeat split; reflexivity. Qed.

End QuantityNormalization.

(** ** The minimum-notional check (trade_executor.py, lines 147-179) *)

Section MinimumNotional.

Local Open Scope Q_scope.
Import TradeExecutor Fixtures.

Lemma get_symbol_info_calls (client : Client) (symbol : string) (st : State) :
  create_order_calls (fst (TradeExecutor.get_symbol_info client symbol st))
  = create_order_calls st.
Proof.
  unfold TradeExecutor.get_symbol_info.
  destruct (symbol_info_cache st !! upper symbol); [reflexivity|].
  destruct (Exchange.get_symbol_info client (upper symbol)) as [[info|]|e];
    try reflexivity.
  destruct e; reflexivity.
Qed.





(** A notional of zero passes the check as well: line 167 rejects only what
    is above zero.  A MARKET BUY for a quote amount of 0 is sent. *)
Example zero_quote_amount_submitted :
  create_order_calls
    (fst (execute_trade (Some btc_client) 1 "btcusdt" BUY MARKET
                        None (Some 0) None None idle))
  = [ {| p_symbol := "BTCUSDT"; p_side := BUY; p_type := MARKET;
         p_quantity := None; p_quoteOrderQty := Some 0;
         p_price := None; p_timeInForce := None |} ].
Proof. reflexivity. Qed.

End MinimumNotional.

(** ** The DCA engine (dca_bot.py) *)

Section InvestmentTime.

Import DcaBot.





End InvestmentTime.

Section TrailingStop.

Local Open Scope Q_scope.
Import DcaBot Fixtures.



(** The smart-dip check adds nothing or one SMART_DIP_BUY. *)
Lemma smart_dip_kind ta client db_bot symbol_upper current_price
    investment_amount smart_dip_pct smart_dip_ma_period smart_dip_multiplier
    smart_dip_ma_type db (a : DcaAction) :
  In a (snd (smart_dip ta client db_bot symbol_upper current_price investment_amount
               smart_dip_pct smart_dip_ma_period smart_dip_multiplier
               smart_dip_ma_type db)) ->
  action a = SMART_DIP_BUY.
Proof.
  unfold smart_dip.
  match goal with |- context [match ?r with Ok _ => _ | Raise _ => _ end] =>
    destruct r as [[dip|]|e] end; simpl; intros H; try contradiction.
  destruct H as [<-|[]]. reflexivity.
Qed.



(** The same position at 3200: the stop at 3150 is not reached, and the
    engine goes on to the regular purchase. *)
Example trailing_stop_not_reached :
  snd (get_dca_actions no_indicators (days 5) eth_dca_config (ticker_client 3200)
         (eth_dca_state 0) None [])
  = Ok [ {| action := DCA_BUY; amount := PyInt 50; price := Some 3200 |} ].
Proof. reflexivity. Qed.

End TrailingStop.

(** ** The momentum engine (momentum_bot.py) *)

Section MomentumSignal.

Local Open Scope Q_scope.
Import MomentumBot Pandas Fixtures.

Lemma last_two_app (init : list Row) (prev latest : Row) :
  last_two (init ++ [prev; latest]) = Some (prev, latest).
Proof.
  induction init as [|r init IH]; [reflexivity|].
  change ((r :: init) ++ [prev; latest]) with (r :: (init ++ [prev; latest])).
  destruct (init ++ [prev; latest]) as [|a [|b rest]] eqn:E.
  - destruct init; discriminate.
  - destruct init as [|x [|y init]]; discriminate.
  - destruct rest; exact IH.
Qed.

Lemma buy_signal_iff (overbought : Q) (prev latest : Row) :
  ma_cross_bullish prev latest && macd_bullish latest
  && Qlt_bool (value (rsi latest)) overbought = true
  <-> buy_conditions overbought prev latest.
Proof.
  unfold ma_cross_bullish, macd_bullish, buy_conditions, crosses_above.
  rewrite !andb_true_iff, !Qlt_bool_iff, Qle_bool_iff. tauto.
Qed.

Lemma sell_signal_iff (oversold : Q) (prev latest : Row) :
  ma_cross_bearish prev latest && macd_bearish latest
  && Qlt_bool oversold (value (rsi latest)) = true
  <-> sell_conditions oversold prev latest.
Proof.
  unfold ma_cross_bearish, macd_bearish, sell_conditions, crosses_below.
  rewrite !andb_true_iff, !Qlt_bool_iff, Qle_bool_iff. tauto.
Qed.

Lemma buy_excludes_sell (overbought oversold : Q) (prev latest : Row) :
  buy_conditions overbought prev latest -> ~ sell_conditions oversold prev latest.
Proof.
  unfold buy_conditions, sell_conditions. intros (_ & Hb & _) (_ & Hs & _). lra.
Qed.

(** C3.  When the candles are fetched, the indicators computed and at least
    two rows are left without a missing value, the signal is BUY exactly when
    the short average crosses above the long one over the last two rows, the
    MACD line is above its signal line, the histogram is positive and the RSI
    is below the overbought threshold; SELL exactly under the mirrored
    conditions; HOLD otherwise. *)
Theorem momentum_signal_cases
    (ta : TA) (config : gmap string pyval) (client : Client)
    (db_bot : option Z) (db : list TradeHistoryCreate)
    (symbol_upper : string) (klines : list Kline)
    (rows init : list Row) (prev latest : Row) (overbought oversold : Q) :
  py_upper (get_default config "symbol" (PyStr "BTCUSDT")) = Ok symbol_upper ->
  get_klines client symbol_upper (get_default config "interval" (PyStr "1h"))
             (get_default config "kline_limit" (PyInt 100)) = Ok klines ->
  klines <> [] ->
  indicators ta config klines = Ok (Some rows) ->
  dropna rows = init ++ [prev; latest] ->
  as_number (get_default config "rsi_overbought" (PyInt 70)) = Some overbought ->
  as_number (get_default config "rsi_oversold" (PyInt 30)) = Some oversold ->
  (snd (get_momentum_signal ta config client db_bot db) = BUY
   <-> buy_conditions overbought prev latest)
  /\ (snd (get_momentum_signal ta config client db_bot db) = SELL
      <-> sell_conditions oversold prev latest)
  /\ (snd (get_momentum_signal ta config client db_bot db) = HOLD
      <-> ~ buy_conditions overbought prev latest
          /\ ~ sell_conditions oversold prev latest).
Proof.
  intros Hsym Hk Hne Hind Hrows Hob Hos.
  assert (Hs : snd (get_momentum_signal ta config client db_bot db)
               = if ma_cross_bullish prev latest && macd_bullish latest
                    && Qlt_bool (value (rsi latest)) overbought
                 then BUY
                 else if ma_cross_bearish prev latest && macd_bearish latest
                         && Qlt_bool oversold (value (rsi latest))
                      then SELL else HOLD).
  { unfold get_momentum_signal. rewrite Hsym. simpl. rewrite Hk. simpl.
    destruct klines as [|k klines]; [contradiction|].
    rewrite Hind. simpl. rewrite Hrows, last_two_app.
    unfold signal_logic. unfold number. rewrite Hob, Hos. reflexivity. }
  rewrite Hs.
  pose proof (buy_signal_iff overbought prev latest) as Hb.
  pose proof (sell_signal_iff oversold prev latest) as Hsl.
  pose proof (buy_excludes_sell overbought oversold prev latest) as Hex.
  destruct (ma_cross_bullish prev latest && macd_bullish latest
            && Qlt_bool (value (rsi latest)) overbought).
  - assert (B : buy_conditions overbought prev latest) by (apply Hb; reflexivity).
    specialize (Hex B).
    (split; [|split]); split; intros; try discriminate; try assumption;
      try tauto; try (exfalso; tauto).
  - assert (NB : ~ buy_conditions overbought prev latest).
    { intros X. apply Hb in X. discriminate. }
    destruct (ma_cross_bearish prev latest && macd_bearish latest
              && Qlt_bool oversold (value (rsi latest))).
    + assert (S : sell_conditions oversold prev latest) by (apply Hsl; reflexivity).
      (split; [|split]); split; intros; try discriminate; try assumption;
      try tauto; try (exfalso; tauto).
    + assert (NS : ~ sell_conditions oversold prev latest).
      { intros X. apply Hsl in X. discriminate. }
      (split; [|split]); split; intros; try discriminate; try assumption;
      try tauto; try (exfalso; tauto).
Qed.

(** The theorem on the two rows of [rising_rows]: a BUY. *)
Lemma momentum_signal_cases_witness :
  py_upper (get_default (∅ : gmap string pyval) "symbol" (PyStr "BTCUSDT"))
  = Ok "BTCUSDT"%string
  /\ get_klines candle_client "BTCUSDT"
       (get_default (∅ : gmap string pyval) "interval" (PyStr "1h"))
       (get_default (∅ : gmap string pyval) "kline_limit" (PyInt 100))
     = Ok [ candle 0 100; candle 1 100; candle 2 104 ]
  /\ [ candle 0 100; candle 1 100; candle 2 104 ] <> []
  /\ indicators rising ∅ [ candle 0 100; candle 1 100; candle 2 104 ]
     = Ok (Some rising_rows)
  /\ dropna rising_rows = [] ++ [ row 100 45 1 0 1 10 11; row 104 50 2 1 1 12 11 ]
  /\ as_number (get_default (∅ : gmap string pyval) "rsi_overbought" (PyInt 70))
     = Some (inject_Z 70)
  /\ as_number (get_default (∅ : gmap string pyval) "rsi_oversold" (PyInt 30))
     = Some (inject_Z 30)
  /\ buy_conditions (inject_Z 70) (row 100 45 1 0 1 10 11) (row 104 50 2 1 1 12 11)
  /\ snd (get_momentum_signal rising ∅ candle_client None []) = BUY.
Proof.
  assert (Hne : [ candle 0 100; candle 1 100; candle 2 104 ] <> []) by discriminate.
  assert (Hbuy : buy_conditions (inject_Z 70) (row 100 45 1 0 1 10 11)
                                (row 104 50 2 1 1 12 11)).
  { unfold buy_conditions, crosses_above. simpl.
    repeat split; try reflexivity. discriminate. }
  split; [reflexivity|]. split; [reflexivity|]. split; [exact Hne|].
  split; [reflexivity|]. split; [reflexivity|]. split; [reflexivity|].
  split; [reflexivity|]. split; [exact Hbuy|].
  exact (proj2 (proj1
    (momentum_signal_cases rising ∅ candle_client None [] "BTCUSDT"
       [ candle 0 100; candle 1 100; candle 2 104 ] rising_rows []
       (row 100 45 1 0 1 10 11) (row 104 50 2 1 1 12 11) (inject_Z 70) (inject_Z 30)
       eq_refl eq_refl Hne eq_refl eq_refl eq_refl eq_refl)) Hbuy).
Defined.

End MomentumSignal.

(** ** The grid engine (grid_bot.py) *)

Section GridLevels.

Local Open Scope Q_scope.
Import GridBot Fixtures.

Lemma as_int_as_number (v : pyval) (n : Z) :
  as_int v = Some n -> as_number v = Some (inject_Z n).
Proof.
  destruct v as [|b|m|x|s|d]; simpl; intros E; try discriminate;
    injection E as <-; [destruct b|]; reflexivity.
Qed.

Lemma removelast_map_seq {A} (f : nat -> A) (m : nat) :
  removelast (List.map f (seq 0 (S m))) = List.map f (seq 0 m).
Proof.
  rewrite seq_S, List.map_app. simpl. apply removelast_last.
Qed.

(** With at least two samples, [linspace] is the computed levels but the
    last, followed by [stop] itself. *)
Lemma linspace_unfold (lo hi : Q) (n : Z) :
  (2 <= n)%Z ->
  linspace lo hi n
  = List.map (fun i => inject_Z (Z.of_nat i) * ((hi - lo) / inject_Z (n - 1)) + lo)
             (seq 0 (Z.to_nat (n - 1)))
    ++ [hi].
Proof.
  intros Hn. unfold linspace.
  assert (H1 : (1 <? n)%Z = true) by (apply Z.ltb_lt; lia).
  rewrite H1.
  replace (Z.to_nat n) with (S (Z.to_nat (n - 1))) by lia.
  rewrite removelast_map_seq. reflexivity.
Qed.

Lemma linspace_length (lo hi : Q) (n : Z) :
  (2 <= n)%Z -> Z.of_nat (length (linspace lo hi n)) = n.
Proof.
  intros Hn. rewrite (linspace_unfold lo hi n Hn).
  rewrite List.length_app, List.length_map, List.length_seq. simpl. lia.
Qed.

Lemma level_last (lo hi : Q) (n : Z) : (2 <= n)%Z -> hi == level lo hi n (n - 1).
Proof.
  intros Hn. unfold level.
  assert (H : ~ inject_Z (n - 1) == 0).
  { intros E. apply (inject_Z_injective (n - 1) 0) in E. lia. }
  field. exact H.
Qed.

(** Reading a level of the grid, counted from the start. *)
Lemma index_linspace (lo hi : Q) (n i : Z) :
  (2 <= n)%Z -> (0 <= i < n)%Z ->
  exists x, index (linspace lo hi n) i = Ok x /\ x == level lo hi n i.
Proof.
  intros Hn Hi. unfold index.
  rewrite (linspace_length lo hi n Hn).
  assert (H0 : (i <? 0)%Z = false) by (apply Z.ltb_ge; lia).
  assert (H1 : (0 <=? i)%Z = true) by (apply Z.leb_le; lia).
  assert (H2 : (i <? n)%Z = true) by (apply Z.ltb_lt; lia).
  rewrite H0, H1, H2. simpl.
  rewrite (linspace_unfold lo hi n Hn).
  destruct (Z_lt_le_dec i (n - 1)) as [Hlt|Hge].
  - rewrite nth_error_app1
      by (rewrite List.length_map, List.length_seq; lia).
    rewrite nth_error_map, nth_error_seq.
    assert (Hb : (Z.to_nat i <? Z.to_nat (n - 1))%nat = true)
      by (apply Nat.ltb_lt; lia).
    rewrite Hb. simpl. eexists. split; [reflexivity|].
    unfold level. rewrite Z2Nat.id by lia. ring.
  - assert (i = n - 1)%Z as -> by lia.
    rewrite nth_error_app2
      by (rewrite List.length_map, List.length_seq; lia).
    rewrite List.length_map, List.length_seq, Nat.sub_diag. simpl.
    eexists. split; [reflexivity|]. apply level_last, Hn.
Qed.

(** Reading a level counted from the end. *)
Lemma index_linspace_from_end (lo hi : Q) (n i : Z) :
  (2 <= n)%Z -> (- n <= i < 0)%Z ->
  exists x, index (linspace lo hi n) i = Ok x /\ x == level lo hi n (n + i).
Proof.
  intros Hn Hi.
  destruct (index_linspace lo hi n (n + i) Hn) as (x & E & Hx); [lia|].
  exists x. split; [|exact Hx].
  unfold index in *. rewrite (linspace_length lo hi n Hn) in *.
  assert (H0 : (i <? 0)%Z = true) by (apply Z.ltb_lt; lia).
  assert (H1 : (n + i <? 0)%Z = false) by (apply Z.ltb_ge; lia).
  rewrite H0. rewrite H1 in E. exact E.
Qed.

(** What [get_grid_actions] answers for a configuration that passes the
    check of lines 37-41. *)
Lemma get_grid_actions_valid (config : gmap string pyval) (current_price lo hi : Q) (n : Z) :
  as_number (get config "lower_limit") = Some lo ->
  as_number (get config "upper_limit") = Some hi ->
  as_int (get config "num_grids") = Some n ->
  lo < hi -> (2 <= n)%Z ->
  exists lowest second second_to_last highest,
    lowest == lo /\ second == level lo hi n 1
    /\ second_to_last == level lo hi n (n - 2) /\ highest == hi
    /\ get_grid_actions config current_price
       = Ok ((if Qlt_bool current_price second
              then [ {| action := BUY; price := lowest; grid_level := 0 |} ]
              else [])
             ++ (if Qlt_bool second_to_last current_price
                 then [ {| action := SELL; price := highest; grid_level := n - 1 |} ]
                 else [])).
Proof.
  intros Hlo Hhi Hn Hlt Hn2.
  destruct (index_linspace lo hi n 0 Hn2) as (lowest & E0 & Q0); [lia|].
  destruct (index_linspace lo hi n 1 Hn2) as (second & E1 & Q1); [lia|].
  destruct (index_linspace_from_end lo hi n (-2) Hn2) as (stl & E2 & Q2); [lia|].
  destruct (index_linspace_from_end lo hi n (-1) Hn2) as (highest & E3 & Q3); [lia|].
  exists lowest, second, stl, highest.
  split; [rewrite Q0; unfold level; ring|].
  split; [exact Q1|].
  split; [rewrite Q2; replace (n + -2)%Z with (n - 2)%Z by lia; reflexivity|].
  split.
  { rewrite Q3. replace (n + -1)%Z with (n - 1)%Z by lia.
    symmetry. apply level_last, Hn2. }
  unfold get_grid_actions, py_gt, py_ge, is_int_or_float, is_int.
  rewrite Hlo, Hhi, Hn, (as_int_as_number _ _ Hn).
  assert (Ha : Qlt_bool lo hi = true) by (apply Qlt_bool_iff, Hlt).
  assert (Hb : Qle_bool (inject_Z 2) (inject_Z n) = true).
  { apply Qle_bool_iff. rewrite <- Zle_Qle. exact Hn2. }
  simpl. rewrite Ha, Hb. simpl.
  rewrite E1. simpl. rewrite E0. simpl. rewrite E2. simpl. rewrite E3. reflexivity.
Qed.

End GridLevels.

Section GridActions.

Local Open Scope Q_scope.
Import GridBot Fixtures.



(** C6 as stated fails at its second step.  At 47500 the engine answers one
    BUY at 48000; asked again at 49500 it answers nothing, so no SELL at
    49000: the function receives the settings and the price only and has no
    record of the earlier BUY. *)
Lemma grid_no_sell_at_49500 :
  (exists b, get_grid_actions btc_grid 47500 = Ok [b]
             /\ action b = BUY /\ price b == 48000)
  /\ get_grid_actions btc_grid 49500 = Ok []
  /\ ~ exists actions a,
         get_grid_actions btc_grid 49500 = Ok actions
         /\ In a actions /\ action a = SELL /\ price a == 49000.
Proof.
  split; [eexists; split; [reflexivity|split; reflexivity]|].
  assert (E : get_grid_actions btc_grid 49500 = Ok []) by reflexivity.
  split; [exact E|].
  intros (actions & a & E' & Ha & _). rewrite E in E'.
  injection E' as <-. destruct Ha.
Qed.

(** C6, as amended.  For upper limit 52000, lower limit 48000 and five grid
    lines the levels are 48000, 49000, 50000, 51000, 52000.  At 47500 the
    engine answers exactly one action, a BUY at 48000 on grid level 0.  At
    49500 it answers no action.  At any price a SELL is answered exactly
    above 51000, and it is at 52000 on grid level 4. *)
Theorem grid_example_actions :
  Forall2 Qeq (linspace 48000 52000 5) [48000; 49000; 50000; 51000; 52000]
  /\ (exists b, get_grid_actions btc_grid 47500 = Ok [b]
                /\ action b = BUY /\ price b == 48000 /\ grid_level b = 0%Z)
  /\ get_grid_actions btc_grid 49500 = Ok []
  /\ forall current_price : Q,
       exists actions,
         get_grid_actions btc_grid current_price = Ok actions
         /\ ((exists a, In a actions /\ action a = SELL) <-> 51000 < current_price)
         /\ forall a, In a actions -> action a = SELL ->
                      price a == 52000 /\ grid_level a = 4%Z.
Proof.
  split.
  { repeat constructor. }
  split; [eexists; split; [reflexivity|repeat split; reflexivity]|].
  split; [reflexivity|].
  intros current_price.
  assert (H4 : inject_Z 48000 < inject_Z 52000) by reflexivity.
  assert (H5 : (2 <= 5)%Z) by lia.
  assert (H1 : as_number (get btc_grid "lower_limit") = Some (inject_Z 48000))
    by reflexivity.
  assert (H2 : as_number (get btc_grid "upper_limit") = Some (inject_Z 52000))
    by reflexivity.
  assert (H3 : as_int (get btc_grid "num_grids") = Some 5%Z) by reflexivity.
  destruct (get_grid_actions_valid btc_grid current_price (inject_Z 48000)
              (inject_Z 52000) 5 H1 H2 H3 H4 H5)
    as (lowest & second & stl & highest & Q0 & Q1 & Q2 & Q3 & E).
  eexists. split; [exact E|].
  assert (Hstl : stl == 51000) by (rewrite Q2; reflexivity).
  assert (Hsell : Qlt_bool stl current_price = true <-> 51000 < current_price)
    by (rewrite Qlt_bool_iff, Hstl; reflexivity).
  destruct (Qlt_bool current_price second);
    destruct (Qlt_bool stl current_price); simpl.
  - split.
    + split; [intros _; apply Hsell; reflexivity|].
      intros _. eexists. split; [right; left; reflexivity|reflexivity].
    + intros a [<-|[<-|[]]]; simpl; intros Ha; [discriminate|].
      split; [exact Q3|reflexivity].
  - split.
    + split; [intros (a & [<-|[]] & Ha); discriminate|].
      intros H. apply Hsell in H. discriminate.
    + intros a [<-|[]]; simpl; intros Ha. discriminate.
  - split.
    + split; [intros _; apply Hsell; reflexivity|].
      intros _. eexists. split; [left; reflexivity|reflexivity].
    + intros a [<-|[]]; simpl; intros Ha. split; [exact Q3|reflexivity].
  - split.
    + split; [intros (a & [] & _)|].
      intros H. apply Hsell in H. discriminate.
    + intros a [].
Qed.

End GridActions.

(** ** The scheduled job (main.py) *)

Section SchedulerTick.

Local Open Scope Q_scope.
Import Scheduler Fixtures.

Lemma bot_iteration_never_raises env client bot st :
  snd (bot_iteration env client bot st) = Ok tt.
Proof.
  unfold bot_iteration.
  destruct (bot_body env client bot _ _) as [st1 [u|e]]; reflexivity.
Qed.

(** The loop over the active bots always runs to its end. *)
Lemma for_each_bot_iteration env client bots st :
  for_each (bot_iteration env client) bots st = (each_in_turn env client bots st, Ok tt).
Proof.
  revert st. induction bots as [|bot bots IH]; intros st; [reflexivity|].
  simpl. pose proof (bot_iteration_never_raises env client bot st) as H.
  unfold each_in_turn. simpl.
  destruct (bot_iteration env client bot st) as [st' r]. simpl in *. subst r.
  apply IH.
Qed.








(** The tick of the three bots above, as the log and the exchange see it:
    the unknown type is passed over, the grid without limits fails with a
    [TypeError] that is logged under its identifier, and the momentum bot
    after it still gets its signal and its order. *)
Example tick_with_a_broken_bot :
  log (run_active_bots_job (tick_env [unknown_bot; broken_grid_bot; momentum_bot]) fresh)
  = [ JobRunning; FoundActiveBots 3;
      CheckingBot 1 "arbitrage" (PyStr "BTCUSDT");
      CheckingBot 2 "grid" (PyStr "BTCUSDT");
      ErrorProcessingBot 2 (PyStr "BTCUSDT") TypeError;
      CheckingBot 5 "momentum" (PyStr "BTCUSDT");
      MomentumSignal 5 MomentumBot.BUY;
      ExecutingTrade 5 BUY (Some (1 # 1000));
      TradeExecuted 5 7 ]
  /\ TradeExecutor.create_order_calls
       (executor (run_active_bots_job
                    (tick_env [unknown_bot; broken_grid_bot; momentum_bot]) fresh))
     = [ {| p_symbol := "BTCUSDT"; p_side := BUY; p_type := MARKET;
            p_quantity := None; p_quoteOrderQty := Some 10;
            p_price := None; p_timeInForce := None |} ].
Proof. split; reflexivity. Qed.

End SchedulerTick.

Section SchedulerExecution.

Local Open Scope Q_scope.
Import Scheduler Fixtures.

(** The signal does not depend on the trade history. *)
Lemma momentum_signal_history ta config client db_bot db db' :
  snd (MomentumBot.get_momentum_signal ta config client db_bot db)
  = snd (MomentumBot.get_momentum_signal ta config client db_bot db').
Proof.
  unfold MomentumBot.get_momentum_signal.
  match goal with |- context [match ?c with Ok _ => _ | Raise _ => _ end] =>
    destruct c as [[[[s r] sig]|]|e] end; reflexivity.
Qed.

Lemma smart_dip_history ta client db_bot symbol_upper current_price amount pct period
    multiplier ma_type db db' :
  snd (DcaBot.smart_dip ta client db_bot symbol_upper current_price amount pct period
         multiplier ma_type db)
  = snd (DcaBot.smart_dip ta client db_bot symbol_upper current_price amount pct period
           multiplier ma_type db').
Proof.
  unfold DcaBot.smart_dip.
  match goal with |- context [match ?c with Ok _ => _ | Raise _ => _ end] =>
    destruct c as [[dip|]|e] end; reflexivity.
Qed.

(** Neither do the DCA actions. *)
Lemma dca_actions_history ta now config client state db_bot db db' :
  snd (DcaBot.get_dca_actions ta now config client state db_bot db)
  = snd (DcaBot.get_dca_actions ta now config client state db_bot db').
Proof.
  unfold DcaBot.get_dca_actions.
  destruct (py_lower _) as [ma_type|e]; [|reflexivity].
  destruct (negb _ || negb _); [reflexivity|].
  unfold DcaBot.evaluate.
  destruct (bind (py_upper _) _) as [[symbol_upper current_price]|e]; [|reflexivity].
  destruct (DcaBot.stop_loss_price _ _ _ _) as [[stop|e]|]; try reflexivity.
  - destruct (Qlt_bool current_price stop); [reflexivity|].
    destruct (DcaBot.should_invest_now _ _ _) as [[|]|e]; try reflexivity.
    simpl. destruct (truthy _ && truthy _); [|reflexivity].
    match goal with
    | |- context [DcaBot.smart_dip ?a ?b ?c ?d ?e ?f ?g ?h ?i ?j db] =>
        pose proof (smart_dip_history a b c d e f g h i j db db') as Hd;
        destruct (DcaBot.smart_dip a b c d e f g h i j db);
        destruct (DcaBot.smart_dip a b c d e f g h i j db')
    end.
    simpl in Hd. subst. reflexivity.
  - destruct (DcaBot.should_invest_now _ _ _) as [[|]|e]; try reflexivity.
    simpl. destruct (truthy _ && truthy _); [|reflexivity].
    match goal with
    | |- context [DcaBot.smart_dip ?a ?b ?c ?d ?e ?f ?g ?h ?i ?j db] =>
        pose proof (smart_dip_history a b c d e f g h i j db db') as Hd;
        destruct (DcaBot.smart_dip a b c d e f g h i j db);
        destruct (DcaBot.smart_dip a b c d e f g h i j db')
    end.
    simpl in Hd. subst. reflexivity.
Qed.






Lemma run_active_bots_job_each_in_turn env client bots st :
  binance_client env = Some client -> active_bots env = Ok bots ->
  run_active_bots_job env st
  = each_in_turn env client bots (info (FoundActiveBots (length bots)) (info JobRunning st)).
Proof.
  intros Hc Hb. unfold run_active_bots_job. rewrite Hc, Hb.
  rewrite for_each_bot_iteration. reflexivity.
Qed.




End SchedulerExecution.

(** ** The market-data relay (websockets.py) *)

Section ListenerRegistry.

Import Websockets Fixtures.

Lemma run_reachable keys client_ready events st st' :
  reachable keys client_ready st -> run keys events st = Some st' ->
  reachable keys client_ready st'.
Proof.
  revert st. induction events as [|ev events IH]; intros st Hr Hrun; simpl in Hrun.
  - injection Hrun as <-. exact Hr.
  - destruct (step keys st ev) as [st1|] eqn:E; [|discriminate].
    apply (IH st1); [|exact Hrun].
    eapply reachable_step; [exact Hr | exact E].
Qed.

Lemma consistent_update_task st t k k' :
  registry_consistent st -> tasks st !! t = Some k -> symbol k' = symbol k ->
  registry_consistent (set_tasks (<[t := k']> (tasks st)) st).
Proof.
  intros (Ha & Hb & Hc) Ht Hsym. split; [|split]; simpl.
  - intros s t0 Hreg. destruct (Ha s t0 Hreg) as (k0 & Hk0 & Hs0).
    destruct (decide (t = t0)) as [->|Hne].
    + exists k'. rewrite lookup_insert_eq. split; [reflexivity|]. congruence.
    + exists k0. rewrite lookup_insert_ne by exact Hne. split; assumption.
  - intros t0. rewrite map_size_insert_Some by (rewrite Ht; eauto).
    rewrite lookup_insert_is_Some, <- Hb. split.
    + intros [<-|[_ H]]; [rewrite Ht; eauto|exact H].
    + intros H. destruct (decide (t = t0)); [left|right]; auto.
  - intros t0 k0 H0. apply lookup_insert_Some in H0 as [[<- _]|[_ H0]];
      [exact (Hc t k Ht)|exact (Hc t0 k0 H0)].
Qed.

Lemma consistent_unregister st s :
  registry_consistent st ->
  registry_consistent (set_registry (delete s (binance_socket_tasks st)) st).
Proof.
  intros (Ha & Hb & Hc). split; [|split]; simpl; [|exact Hb|exact Hc].
  intros s0 t0 Hreg. apply lookup_delete_Some in Hreg as [_ Hreg]. exact (Ha s0 t0 Hreg).
Qed.

Lemma consistent_client_ready st :
  registry_consistent st -> registry_consistent (set_client true st).
Proof.
  intros (Ha & Hb & Hc). split; [|split]; simpl; [exact Ha|exact Hb|reflexivity].
Qed.

Lemma consistent_start_listener st s :
  registry_consistent st -> async_binance_client st = true ->
  registry_consistent (start_listener s st).
Proof.
  intros (Ha & Hb & Hc) Hready. unfold start_listener, fresh_task.
  assert (Hfresh : tasks st !! size (tasks st) = None).
  { destruct (tasks st !! size (tasks st)) eqn:E; [|reflexivity].
    assert (size (tasks st) < size (tasks st))%nat by (apply Hb; rewrite E; eauto). lia. }
  split; [|split]; simpl.
  - intros s0 t0 Hreg. apply lookup_insert_Some in Hreg as [[<- <-]|[Hne Hreg]].
    + eexists. rewrite lookup_insert_eq. split; reflexivity.
    + destruct (Ha s0 t0 Hreg) as (k0 & Hk0 & Hs0). exists k0.
      rewrite lookup_insert_ne; [split; assumption|].
      intros <-. rewrite Hfresh in Hk0. discriminate.
  - intros t0. rewrite map_size_insert_None by exact Hfresh.
    rewrite lookup_insert_is_Some, Hb. split.
    + intros [<-|[_ H]]; lia.
    + intros H. destruct (decide (size (tasks st) = t0)); [left|right]; [assumption|].
      split; [assumption|lia].
  - intros t0 k0 _. exact Hready.
Qed.

Lemma consistent_cancel st t :
  registry_consistent st -> registry_consistent (cancel t st).
Proof.
  intros H. unfold cancel. destruct (tasks st !! t) as [k|] eqn:E; [|exact H].
  destruct (status k); try exact H;
    apply (consistent_update_task st t k); auto.
Qed.

Lemma consistent_endpoint_finally st s :
  registry_consistent st -> registry_consistent (endpoint_finally s st).
Proof.
  intros H. unfold endpoint_finally.
  destruct (active_connections st !! s); [exact H|].
  destruct (binance_socket_tasks st !! s) as [t|]; [|exact H].
  apply consistent_unregister. destruct (done st t); [exact H|].
  apply consistent_cancel, H.
Qed.

Lemma consistent_listener_finally st t k :
  registry_consistent st -> tasks st !! t = Some k ->
  registry_consistent (listener_finally t k st).
Proof.
  intros H Ht. unfold listener_finally.
  destruct (binance_socket_tasks st !! symbol k).
  - apply (consistent_update_task _ t k); [apply consistent_unregister, H|exact Ht|reflexivity].
  - apply (consistent_update_task _ t k); [exact H|exact Ht|reflexivity].
Qed.

(** The registry stays consistent along every step. *)
Lemma step_consistent keys st ev st' :
  registry_consistent st -> step keys st ev = Some st' -> registry_consistent st'.
Proof.
  intros H Hstep. destruct ev as [ws s|ws|ws ok|ws ok|ws|ws|t|t|t why];
    unfold step in Hstep.
  - destruct (endpoints st !! ws); [discriminate|]. injection Hstep as <-. exact H.
  - destruct (endpoints st !! ws) as [[s| | | |]|]; try discriminate.
    set (st1 := set_connections (connect ws s (active_connections st)) st) in *.
    assert (H1 : registry_consistent st1) by exact H.
    destruct (listener_needed st1 s).
    + destruct (async_binance_client st1) eqn:Hc.
      * injection Hstep as <-.
        apply (consistent_start_listener st1 s H1 Hc).
      * destruct keys; injection Hstep as <-; exact H1.
    + injection Hstep as <-. exact H1.
  - destruct (endpoints st !! ws) as [[| s | | |]|]; try discriminate.
    destruct ok; injection Hstep as <-; [|exact H].
    apply (consistent_start_listener (set_client true st) s);
      [apply consistent_client_ready, H|reflexivity].
  - destruct (endpoints st !! ws) as [[| | s | |]|]; try discriminate.
    destruct ok; injection Hstep as <-; exact H.
  - destruct (endpoints st !! ws) as [[| | | s |]|]; try discriminate.
    injection Hstep as <-. exact H.
  - destruct (endpoints st !! ws) as [[| | | s |]|]; try discriminate.
    injection Hstep as <-.
    apply (consistent_endpoint_finally
             (set_connections (disconnect ws s (active_connections st)) st) s H).
  - destruct (tasks st !! t) as [k|] eqn:Ht; [|discriminate].
    destruct (status k); try discriminate.
    destruct (cancel_requested k).
    { injection Hstep as <-. apply (consistent_update_task st t k); auto. }
    destruct (async_binance_client st).
    { injection Hstep as <-. apply (consistent_update_task st t k); auto. }
    destruct keys; injection Hstep as <-.
    + apply consistent_client_ready. apply (consistent_update_task st t k); auto.
    + apply consistent_listener_finally; assumption.
  - destruct (tasks st !! t) as [[s [| |] c]|]; try discriminate.
    injection Hstep as <-. exact H.
  - destruct (tasks st !! t) as [k|] eqn:Ht; [|discriminate].
    destruct (status k), why; try discriminate.
    + destruct (cancel_requested k); [|discriminate].
      injection Hstep as <-. apply consistent_listener_finally; assumption.
    + injection Hstep as <-. apply consistent_listener_finally; assumption.
Qed.

(** X18.  In every reachable state the registry is consistent. *)
Lemma reachable_consistent keys client_ready st :
  reachable keys client_ready st -> registry_consistent st.
Proof.
  induction 1 as [|st ev st' _ IH Hstep].
  - split; [|split]; simpl.
    + intros s t Hreg. rewrite lookup_empty in Hreg. discriminate.
    + intros t. rewrite lookup_empty, map_size_empty. split; [intros [k Hk]; discriminate|lia].
    + intros t k Ht. rewrite lookup_empty in Ht. discriminate.
  - eapply step_consistent; eassumption.
Qed.

(** X19.  The test of line 138 does what it says: a subscriber that finds
    a registered listener that is not done starts no task and registers
    nothing. *)
Lemma registered_listener_is_reused keys st ws s t st' :
  endpoints st !! ws = Some (Accepting s) ->
  binance_socket_tasks st !! s = Some t ->
  done st t = false ->
  step keys st (Accepted ws) = Some st' ->
  tasks st' = tasks st /\ binance_socket_tasks st' = binance_socket_tasks st.
Proof.
  intros He Hreg Hdone Hstep. simpl in Hstep. rewrite He in Hstep.
  unfold listener_needed in Hstep. simpl in Hstep. rewrite Hreg in Hstep.
  change (done (set_connections (connect ws s (active_connections st)) st) t)
    with (done st t) in Hstep.
  rewrite Hdone in Hstep. injection Hstep as <-. split; reflexivity.
Qed.

(** The invariant of C9 does not hold of the code.  A listener that was
    cancelled reaches its [finally] after the next subscriber has registered
    a new listener, and deletes that registration (lines 124-125 delete by
    symbol, whichever task is registered).  The new listener keeps running
    unregistered, so the subscriber after that starts another one: two
    listeners for BTCUSDT run at once, neither of them cancelled. *)
Theorem two_listeners_for_one_symbol :
  exists st,
    run true late_cancellation (initial true) = Some st
    /\ reachable true true st
    /\ tasks st !! 1%nat = Some (listening "BTCUSDT")
    /\ tasks st !! 2%nat = Some (listening "BTCUSDT")
    /\ length (running_listeners st "BTCUSDT") = 2%nat
    /\ binance_socket_tasks st !! "BTCUSDT"%string = Some 2%nat
    /\ active_connections st !! "BTCUSDT"%string = Some ({[2%nat; 3%nat]} : gset nat).
Proof.
  destruct (run true late_cancellation (initial true)) as [st|] eqn:E;
    [|vm_compute in E; discriminate].
  exists st. split; [reflexivity|].
  split; [eapply run_reachable; [apply reachable_initial | exact E]|].
  vm_compute in E. injection E as <-.
  repeat split; vm_compute; reflexivity.
Qed.

(** The same with two subscribers only, when the global client is not ready:
    both pass the test of line 138 before either registers its task. *)
Example two_listeners_while_client_is_created :
  exists st,
    run true slow_client (initial false) = Some st
    /\ tasks st !! 0%nat = Some (listening "BTCUSDT")
    /\ tasks st !! 1%nat = Some (listening "BTCUSDT")
    /\ length (running_listeners st "BTCUSDT") = 2%nat.
Proof.
  destruct (run true slow_client (initial false)) as [st|] eqn:E;
    [|vm_compute in E; discriminate].
  exists st. split; [reflexivity|].
  vm_compute in E. injection E as <-.
  repeat split; vm_compute; reflexivity.
Qed.

End ListenerRegistry.

Section SymbolInfoCache.

Import TradeExecutor Fixtures Samples.

(** X1.  Trading rules that were found once are answered from the cache:
    whatever client is passed afterwards and however the symbol is cased,
    the same rules come back and the state stays as it is.  Looking rules up
    sends no order and records no trade. *)
Theorem symbol_info_is_cached
    (client : Client) (symbol : string) (st st1 : State) (info : SymbolInfo) :
  TradeExecutor.get_symbol_info client symbol st = (st1, Ok (Some info)) ->
  (forall (client' : Client) (symbol' : string),
     upper symbol' = upper symbol ->
     TradeExecutor.get_symbol_info client' symbol' st1 = (st1, Ok (Some info)))
  /\ create_order_calls st1 = create_order_calls st
  /\ trade_history st1 = trade_history st.
Proof.
  unfold TradeExecutor.get_symbol_info. intros H.
  destruct (symbol_info_cache st !! upper symbol) as [cached|] eqn:Hc.
  - injection H as <- <-. split; [|split; reflexivity].
    intros client' symbol' ->. rewrite Hc. reflexivity.
  - destruct (Exchange.get_symbol_info client (upper symbol)) as [[found|]|e];
      [| discriminate | destruct e; discriminate].
    injection H as <- <-. split; [|split; reflexivity].
    intros client' symbol' ->. simpl. rewrite lookup_insert_eq. reflexivity.
Qed.

(** The theorem at the rules of BTCUSDT, asked for again in another casing
    from an exchange that is down. *)
Lemma symbol_info_is_cached_witness :
  TradeExecutor.get_symbol_info btc_client "btcusdt" idle
  = (set_cache (<["BTCUSDT"%string := btc_rules]> ∅) idle, Ok (Some btc_rules))
  /\ TradeExecutor.get_symbol_info unreachable_client "BtcUsdt"
       (set_cache (<["BTCUSDT"%string := btc_rules]> ∅) idle)
     = (set_cache (<["BTCUSDT"%string := btc_rules]> ∅) idle, Ok (Some btc_rules)).
Proof.
  assert (H : TradeExecutor.get_symbol_info btc_client "btcusdt" idle
              = (set_cache (<["BTCUSDT"%string := btc_rules]> ∅) idle, Ok (Some btc_rules)))
    by reflexivity.
  split; [exact H|].
  apply (proj1 (symbol_info_is_cached btc_client "btcusdt" idle _ btc_rules H)).
  reflexivity.
Defined.

End SymbolInfoCache.
Section TickSize.

Local Open Scope Q_scope.
Import TradeExecutor.





End TickSize.
Section OrderPlacement.

Local Open Scope Q_scope.
Import TradeExecutor Fixtures Samples.

Lemma get_symbol_info_history (client : Client) (symbol : string) (st : State) :
  trade_history (fst (TradeExecutor.get_symbol_info client symbol st)) = trade_history st.
Proof.
  unfold TradeExecutor.get_symbol_info.
  destruct (symbol_info_cache st !! upper symbol); [reflexivity|].
  destruct (Exchange.get_symbol_info client (upper symbol)) as [[info|]|e];
    try reflexivity.
  destruct e; reflexivity.
Qed.

(** Recording a trade adds at most one row, for an executed quantity above
    zero, and sends nothing to the exchange. *)
Lemma record_actual_trade_rows bot_id symbol_upper side order_type order st :
  create_order_calls (fst (record_actual_trade bot_id symbol_upper side order_type order st))
  = create_order_calls st
  /\ (trade_history (fst (record_actual_trade bot_id symbol_upper side order_type order st))
      = trade_history st
      \/ exists row,
           trade_history (fst (record_actual_trade bot_id symbol_upper side order_type order st))
           = trade_history st ++ [row]
           /\ snd (record_actual_trade bot_id symbol_upper side order_type order st) = Ok tt
           /\ t_bot_id row = bot_id /\ t_symbol row = symbol_upper
           /\ t_action row = side_name side /\ 0 < t_quantity row).
Proof.
  unfold record_actual_trade.
  match goal with |- context [match ?p with Ok _ => _ | Raise _ => _ end] =>
    destruct p as [[tp tq]|e] end; [|split; [reflexivity|left; reflexivity]].
  destruct (Qlt_bool 0 tq) eqn:Hq; [|split; [reflexivity|left; reflexivity]].
  split; [reflexivity|]. right. eexists. split; [reflexivity|].
  split; [reflexivity|]. simpl. repeat split. apply Qlt_bool_iff, Hq.
Qed.

(** X3.  With a lot-size step that is a power of ten, a quantity below one
    step is adjusted to nothing: [execute_trade] answers [None] and the
    exchange receives no order. *)
Theorem quantity_below_one_step_is_rejected
    (binance_client client : option Client) (c : Client) (bot_id : Z)
    (symbol : string) (side : OrderSide) (order_type : OrderType)
    (q step : Q) (k : Z) (quote_order_qty price : option Q) (st : State)
    (rules : SymbolInfo) :
  match client with Some x => Some x | None => binance_client end = Some c ->
  snd (TradeExecutor.get_symbol_info c (upper symbol) st) = Ok (Some rules) ->
  step_size_of rules = Some step -> step == pow10 (- k) -> q < step ->
  create_order_calls
    (fst (execute_trade binance_client bot_id symbol side order_type
                        (Some q) quote_order_qty price client st))
  = create_order_calls st
  /\ snd (execute_trade binance_client bot_id symbol side order_type
                        (Some q) quote_order_qty price client st) = Ok None.
Proof.
  intros Hc Hinfo Hstep E Hq. unfold execute_trade. rewrite Hc.
  pose proof (get_symbol_info_calls c (upper symbol) st) as Hcalls.
  destruct (TradeExecutor.get_symbol_info c (upper symbol) st) as [st1 r].
  simpl in Hinfo, Hcalls. subst r.
  unfold quantity_params. rewrite Hstep.
  assert (Hz : Qle_bool (adjust_quantity_to_step_size q step) 0 = true).
  { apply Qle_bool_iff. unfold adjust_quantity_to_step_size.
    rewrite (precision_of_pow10 step k E).
    pose proof (pow10_pos k) as Hf. unfold floor_to.
    apply Qle_shift_div_r; [exact Hf|]. rewrite Qmult_0_l.
    assert (Hlt : q * pow10 k < 1).
    { rewrite E, pow10_opp in Hq.
      assert (H1 : q * pow10 k < / pow10 k * pow10 k)
        by (apply Qmult_lt_compat_r; assumption).
      assert (H2 : / pow10 k * pow10 k == 1) by (field; lra).
      rewrite H2 in H1. exact H1. }
    pose proof (Qfloor_le (q * pow10 k)) as Hfl.
    assert (Hz : (Qfloor (q * pow10 k) < 1)%Z).
    { rewrite Zlt_Qlt. change (inject_Z 1) with 1. lra. }
    assert (Hz' : (Qfloor (q * pow10 k) <= 0)%Z) by lia.
    rewrite Zle_Qle in Hz'. exact Hz'. }
  rewrite Hz. simpl. auto.
Qed.

(** The theorem at a sale of 0.000001 BTC with a step of 0.00001. *)
Lemma quantity_below_one_step_is_rejected_witness :
  step_size_of btc_rules = Some (1 # 100000)
  /\ 1 # 100000 == pow10 (- 5)
  /\ 1 # 1000000 < 1 # 100000
  /\ create_order_calls
       (fst (execute_trade (Some btc_client) 1 "btcusdt" SELL MARKET
                           (Some (1 # 1000000)) None None None idle))
     = create_order_calls idle
  /\ snd (execute_trade (Some btc_client) 1 "btcusdt" SELL MARKET
                        (Some (1 # 1000000)) None None None idle) = Ok None.
Proof.
  assert (H1 : match @None Client with Some x => Some x | None => Some btc_client end
               = Some btc_client) by reflexivity.
  assert (H2 : snd (TradeExecutor.get_symbol_info btc_client (upper "btcusdt") idle)
               = Ok (Some btc_rules)) by reflexivity.
  assert (H3 : step_size_of btc_rules = Some (1 # 100000)) by reflexivity.
  assert (H4 : 1 # 100000 == pow10 (- 5)) by reflexivity.
  assert (H5 : 1 # 1000000 < 1 # 100000) by reflexivity.
  split; [exact H3|]. split; [exact H4|]. split; [exact H5|].
  exact (quantity_below_one_step_is_rejected (Some btc_client) None btc_client 1
           "btcusdt" SELL MARKET (1 # 1000000) (1 # 100000) 5 None None idle btc_rules
           H1 H2 H3 H4 H5).
Defined.


Ltac no_rows :=
  exists []; simpl; rewrite ?app_nil_r;
  split; [reflexivity | split; [simpl; lia | intros ? []]].

(** X5.  [execute_trade] adds at most one row to the trade history, and only
    for an order the exchange accepted with an executed quantity above zero:
    the row carries the bot, the symbol in upper case, the side and that
    quantity, exactly one order was sent, and the call returns the order.
    A call that returns [None] or raises records nothing. *)
Theorem trade_is_recorded_only_for_an_executed_order
    (binance_client client : option Client) (bot_id : Z)
    (symbol : string) (side : OrderSide) (order_type : OrderType)
    (quantity quote_order_qty price : option Q) (st : State) :
  exists rows,
    trade_history
      (fst (execute_trade binance_client bot_id symbol side order_type
                          quantity quote_order_qty price client st))
    = trade_history st ++ rows
    /\ (length rows <= 1)%nat
    /\ forall row, In row rows ->
         t_bot_id row = bot_id /\ t_symbol row = upper symbol
         /\ t_action row = side_name side /\ 0 < t_quantity row
         /\ (exists order,
               snd (execute_trade binance_client bot_id symbol side order_type
                                  quantity quote_order_qty price client st)
               = Ok (Some order))
         /\ length (create_order_calls
                      (fst (execute_trade binance_client bot_id symbol side order_type
                                          quantity quote_order_qty price client st)))
            = S (length (create_order_calls st)).
Proof.
  unfold execute_trade.
  destruct (match client with Some c => Some c | None => binance_client end) as [c|];
    [|no_rows].
  pose proof (get_symbol_info_calls c (upper symbol) st) as Hcalls.
  pose proof (get_symbol_info_history c (upper symbol) st) as Hhist.
  destruct (TradeExecutor.get_symbol_info c (upper symbol) st) as [st1 [[rules|]|e]];
    simpl in Hcalls, Hhist; rewrite <- Hhist, <- Hcalls; try no_rows.
  destruct (quantity_params rules (upper symbol) side order_type quantity quote_order_qty)
    as [params0|]; [|no_rows].
  destruct (price_params rules order_type price params0) as [order_params|];
    [|no_rows].
  destruct (below_min_notional _ _); [no_rows|].
  destruct (create_order c order_params) as [order|e]; [|no_rows].
  pose proof (record_actual_trade_rows bot_id (upper symbol) side order_type order
                (add_call order_params st1)) as [Hsent Hrec].
  destruct (record_actual_trade _ _ _ _ _ _) as [st3 r]; simpl in Hsent, Hrec.
  destruct Hrec as [Hsame|(row & Hrow & Hr & A & B & C & D)].
  - destruct r; simpl; rewrite Hsame; no_rows.
  - subst r. exists [row]. split; [exact Hrow|]. split; [simpl; lia|].
    intros row' [<-|[]]. repeat split; try assumption.
    + eexists. reflexivity.
    + simpl. rewrite Hsent. simpl. rewrite List.length_app. simpl. lia.
Qed.






End OrderPlacement.
Section GridConfiguration.

Local Open Scope Q_scope.
Import GridBot Fixtures.

(** X7.  The check of lines 37-41 builds its list before [all] looks at
    it, so both comparisons are made whatever the [isinstance] tests say.
    Settings without [upper_limit] or without [lower_limit] make the first
    comparison fail: the call raises [TypeError] and does not answer the
    empty list; with both limits numbers, settings without [num_grids] raise
    at the second comparison. *)
Theorem grid_without_limits_raises (config : gmap string pyval) (current_price : Q) :
  config !! "upper_limit"%string = None \/ config !! "lower_limit"%string = None
  \/ (config !! "num_grids"%string = None
      /\ is_int_or_float (get config "upper_limit") = true
      /\ is_int_or_float (get config "lower_limit") = true) ->
  get_grid_actions config current_price = Raise TypeError.
Proof.
  unfold get_grid_actions, get, py_gt, py_ge, is_int_or_float.
  intros [H|[H|(H & Hu & Hl)]]; rewrite H in *.
  - simpl. destruct (config !! "lower_limit"%string) as [[]|]; reflexivity.
  - destruct (config !! "upper_limit"%string) as [[]|]; reflexivity.
  - destruct (config !! "upper_limit"%string) as [u|]; [|discriminate].
    destruct (config !! "lower_limit"%string) as [l|]; [|discriminate].
    destruct (as_number u); [|discriminate].
    destruct (as_number l); [|discriminate]. reflexivity.
Qed.

(** The theorem at settings that name a symbol only. *)
Lemma grid_without_limits_raises_witness :
  ((<["symbol"%string := PyStr "BTCUSDT"]> ∅ : gmap string pyval) !! "upper_limit"%string = None
   \/ (<["symbol"%string := PyStr "BTCUSDT"]> ∅ : gmap string pyval) !! "lower_limit"%string
      = None
   \/ ((<["symbol"%string := PyStr "BTCUSDT"]> ∅ : gmap string pyval) !! "num_grids"%string
       = None
       /\ is_int_or_float (get (<["symbol"%string := PyStr "BTCUSDT"]> ∅) "upper_limit") = true
       /\ is_int_or_float (get (<["symbol"%string := PyStr "BTCUSDT"]> ∅) "lower_limit") = true))
  /\ get_grid_actions (<["symbol"%string := PyStr "BTCUSDT"]> ∅) 47500 = Raise TypeError.
Proof.
  assert (H : (<["symbol"%string := PyStr "BTCUSDT"]> ∅ : gmap string pyval)
              !! "upper_limit"%string = None) by reflexivity.
  split; [left; exact H|].
  apply (grid_without_limits_raises (<["symbol"%string := PyStr "BTCUSDT"]> ∅) 47500).
  left. exact H.
Defined.

(** X8.  Settings whose three values are numbers but do not describe a
    grid are answered with the empty list, at every price: an upper limit
    that is not above the lower one, fewer than two grid lines, or a number
    of grid lines that is not an [int]. *)
Theorem grid_that_is_no_grid_has_no_actions
    (config : gmap string pyval) (current_price lo hi n : Q) :
  as_number (get config "lower_limit") = Some lo ->
  as_number (get config "upper_limit") = Some hi ->
  as_number (get config "num_grids") = Some n ->
  hi <= lo \/ n < 2 \/ is_int (get config "num_grids") = false ->
  get_grid_actions config current_price = Ok [].
Proof.
  intros Hlo Hhi Hn Hbad.
  unfold get_grid_actions, py_gt, py_ge, is_int_or_float.
  rewrite Hlo, Hhi, Hn.
  change (as_number (PyInt 2)) with (Some (inject_Z 2)). unfold bind.
  destruct Hbad as [H|[H|H]].
  - apply Qlt_bool_false in H. rewrite H.
    rewrite !andb_false_r. reflexivity.
  - assert (Hb : Qle_bool (inject_Z 2) n = false) by (apply Qle_bool_false; exact H).
    rewrite Hb. rewrite !andb_false_r. reflexivity.
  - rewrite H. rewrite !andb_false_r. reflexivity.
Qed.

(** The theorem at the example grid turned upside down. *)
Lemma grid_that_is_no_grid_has_no_actions_witness :
  as_number (get (<["upper_limit"%string := PyInt 48000]>
                    (<["lower_limit"%string := PyInt 52000]> btc_grid)) "lower_limit")
  = Some (inject_Z 52000)
  /\ as_number (get (<["upper_limit"%string := PyInt 48000]>
                       (<["lower_limit"%string := PyInt 52000]> btc_grid)) "upper_limit")
     = Some (inject_Z 48000)
  /\ as_number (get (<["upper_limit"%string := PyInt 48000]>
                       (<["lower_limit"%string := PyInt 52000]> btc_grid)) "num_grids")
     = Some (inject_Z 5)
  /\ inject_Z 48000 <= inject_Z 52000
  /\ get_grid_actions
       (<["upper_limit"%string := PyInt 48000]>
          (<["lower_limit"%string := PyInt 52000]> btc_grid)) 49500 = Ok [].
Proof.
  assert (H1 : as_number (get (<["upper_limit"%string := PyInt 48000]>
                    (<["lower_limit"%string := PyInt 52000]> btc_grid)) "lower_limit")
               = Some (inject_Z 52000)) by reflexivity.
  assert (H2 : as_number (get (<["upper_limit"%string := PyInt 48000]>
                    (<["lower_limit"%string := PyInt 52000]> btc_grid)) "upper_limit")
               = Some (inject_Z 48000)) by reflexivity.
  assert (H3 : as_number (get (<["upper_limit"%string := PyInt 48000]>
                    (<["lower_limit"%string := PyInt 52000]> btc_grid)) "num_grids")
               = Some (inject_Z 5)) by reflexivity.
  assert (H : inject_Z 48000 <= inject_Z 52000) by (unfold Qle; simpl; lia).
  split; [exact H1|]. split; [exact H2|]. split; [exact H3|]. split; [exact H|].
  apply (grid_that_is_no_grid_has_no_actions
           (<["upper_limit"%string := PyInt 48000]>
              (<["lower_limit"%string := PyInt 52000]> btc_grid))
           49500 (inject_Z 52000) (inject_Z 48000) (inject_Z 5) H1 H2 H3).
  left. exact H.
Defined.

End GridConfiguration.
Section DcaActions.

Local Open Scope Q_scope.
Import DcaBot Fixtures Samples.

(** A simulated trade adds at most one row. *)
Lemma record_simulated_trade_rows db_bot symbol_upper action_type amount price db :
  exists rows,
    record_simulated_trade db_bot symbol_upper action_type amount price db = db ++ rows
    /\ (length rows <= 1)%nat /\ (db_bot = None -> rows = []).
Proof.
  unfold record_simulated_trade. destruct db_bot as [bot_id|].
  - match goal with |- context [match ?scrut with Ok _ => _ | Raise _ => _ end] =>
      destruct scrut as [q|e] end.
    + eexists. split; [reflexivity|]. split; [simpl; lia|discriminate].
    + exists []. rewrite app_nil_r. split; [reflexivity|]. split; [simpl; lia|reflexivity].
  - exists []. rewrite app_nil_r. split; [reflexivity|]. split; [simpl; lia|reflexivity].
Qed.

Lemma smart_dip_rows ta client db_bot symbol_upper current_price investment_amount
    smart_dip_pct smart_dip_ma_period smart_dip_multiplier smart_dip_ma_type db :
  exists rows,
    fst (smart_dip ta client db_bot symbol_upper current_price investment_amount
           smart_dip_pct smart_dip_ma_period smart_dip_multiplier smart_dip_ma_type db)
    = db ++ rows
    /\ (length rows <= 1)%nat /\ (db_bot = None -> rows = [])
    /\ (length (snd (smart_dip ta client db_bot symbol_upper current_price
                       investment_amount smart_dip_pct smart_dip_ma_period
                       smart_dip_multiplier smart_dip_ma_type db)) <= 1)%nat
    /\ (snd (smart_dip ta client db_bot symbol_upper current_price
               investment_amount smart_dip_pct smart_dip_ma_period
               smart_dip_multiplier smart_dip_ma_type db) = [] -> rows = []).
Proof.
  unfold smart_dip.
  match goal with |- context [match ?r with Ok _ => _ | Raise _ => _ end] =>
    destruct r as [[dip|]|e] end; simpl.
  - destruct (record_simulated_trade_rows db_bot symbol_upper SIM_BUY dip current_price db)
      as (rows & E & L & N).
    exists rows. repeat split; try assumption; try lia. discriminate.
  - exists []. rewrite app_nil_r. repeat split; simpl; lia.
  - exists []. rewrite app_nil_r. repeat split; simpl; lia.
Qed.

Ltac nothing_recorded :=
  exists []; simpl; rewrite ?app_nil_r;
  split; [reflexivity|]; split; [simpl; lia|]; split; [reflexivity|];
  try reflexivity; eexists; split; reflexivity.

Ltac dca_tail :=
  destruct (should_invest_now _ _ _) as [[|]|?]; simpl;
  [ match goal with
    | |- context [record_simulated_trade ?a1 ?a2 ?a3 ?a4 ?a5 ?a6] =>
        let rows := fresh "rows" in
        let E := fresh "E" in
        let L := fresh "L" in
        let N := fresh "N" in
        destruct (record_simulated_trade_rows a1 a2 a3 a4 a5 a6) as (rows & E & L & N);
        exists rows; split; [exact E|]; split; [exact L|]; split; [exact N|];
        eexists; split; [reflexivity|discriminate]
    end
  | destruct (truthy _ && truthy _); [|nothing_recorded];
    match goal with
    | |- context [smart_dip ?a1 ?a2 ?a3 ?a4 ?a5 ?a6 ?a7 ?a8 ?a9 ?a10 ?a11] =>
        let rows := fresh "rows" in
        let E := fresh "E" in
        let L := fresh "L" in
        let N := fresh "N" in
        let Ld := fresh "Ld" in
        let Hd := fresh "Hd" in
        let Hkind := fresh "Hkind" in
        let Hh := fresh "Hh" in
        let db2 := fresh "db2" in
        let dip := fresh "dip" in
        let d := fresh "d" in
        let d' := fresh "d'" in
        pose proof (smart_dip_kind a1 a2 a3 a4 a5 a6 a7 a8 a9 a10 a11) as Hkind;
        destruct (smart_dip_rows a1 a2 a3 a4 a5 a6 a7 a8 a9 a10 a11)
          as (rows & E & L & N & Ld & Hd);
        destruct (smart_dip a1 a2 a3 a4 a5 a6 a7 a8 a9 a10 a11) as [db2 dip];
        simpl in *; exists rows; split; [exact E|]; split; [exact L|]; split; [exact N|];
        destruct dip as [|d [|d' dip]]; simpl in *; [| |lia];
        (eexists; split; [reflexivity|]);
        [ intros _; apply Hd; reflexivity
        | intros Hh; rewrite (Hkind d) in Hh by (left; reflexivity); discriminate ]
    end
  | nothing_recorded ].

(** What the body of the [try] adds to the history and answers. *)
Lemma evaluate_one_action ta now client db_bot symbol investment_amount frequency
    smart_dip_pct smart_dip_ma_period smart_dip_multiplier trailing_stop_pct
    smart_dip_ma_type last_investment_time average_purchase_price
    highest_price_since_purchase position_active db :
  exists rows,
    fst (evaluate ta now client db_bot symbol investment_amount frequency
           smart_dip_pct smart_dip_ma_period smart_dip_multiplier trailing_stop_pct
           smart_dip_ma_type last_investment_time average_purchase_price
           highest_price_since_purchase position_active db) = db ++ rows
    /\ (length rows <= 1)%nat
    /\ (db_bot = None -> rows = [])
    /\ match snd (evaluate ta now client db_bot symbol investment_amount frequency
                    smart_dip_pct smart_dip_ma_period smart_dip_multiplier
                    trailing_stop_pct smart_dip_ma_type last_investment_time
                    average_purchase_price highest_price_since_purchase
                    position_active db) with
       | Ok actions => exists a, actions = [a] /\ (action a = HOLD -> rows = [])
       | Raise _ => rows = []
       end.
Proof.
  unfold evaluate.
  destruct (bind (py_upper symbol) _) as [[symbol_upper current_price]|e];
    [|nothing_recorded].
  destruct (stop_loss_price _ _ _ _) as [[stop|e]|]; [| nothing_recorded |].
  - destruct (Qlt_bool current_price stop); [|dca_tail].
    simpl.
    destruct (record_simulated_trade_rows db_bot symbol_upper SIM_SELL PyNone
                current_price db) as (rows & E & L & N).
    exists rows. split; [exact E|]. split; [exact L|]. split; [exact N|].
    eexists. split; [reflexivity|]. discriminate.
  - dca_tail.
Qed.

(** X9.  Whenever the moving-average type of the settings is a string (or
    is left out), [get_dca_actions] answers exactly one action: a trailing
    stop, a regular purchase, a dip purchase or a HOLD, never two of them
    and never none.  It records at most one simulated trade, none without a
    database and bot identifier, and none with a HOLD. *)
Theorem dca_answers_exactly_one_action
    (ta : Pandas.TA) (now : Z) (config state : gmap string pyval) (client : Client)
    (db_bot : option Z) (db : list TradeHistoryCreate) (ma_type : string) :
  py_lower (get_default config "smart_dip_ma_type" (PyStr "sma")) = Ok ma_type ->
  exists a rows,
    snd (get_dca_actions ta now config client state db_bot db) = Ok [a]
    /\ fst (get_dca_actions ta now config client state db_bot db) = db ++ rows
    /\ (length rows <= 1)%nat
    /\ (db_bot = None -> rows = [])
    /\ (action a = HOLD -> rows = []).
Proof.
  intros Hma. unfold get_dca_actions. rewrite Hma.
  destruct (negb _ || negb _).
  { exists (hold None), []. rewrite app_nil_r. repeat split; simpl; lia. }
  match goal with
  | |- context [evaluate ?a1 ?a2 ?a3 ?a4 ?a5 ?a6 ?a7 ?a8 ?a9 ?a10 ?a11 ?a12 ?a13 ?a14
                         ?a15 ?a16 ?a17] =>
      destruct (evaluate_one_action a1 a2 a3 a4 a5 a6 a7 a8 a9 a10 a11 a12 a13 a14
                  a15 a16 a17) as (rows & E & L & N & Hr);
      destruct (evaluate a1 a2 a3 a4 a5 a6 a7 a8 a9 a10 a11 a12 a13 a14 a15 a16 a17)
        as [db' [actions|e]]
  end; simpl in *.
  - destruct Hr as (a & -> & Hh). exists a, rows. repeat split; auto.
  - subst rows. exists (hold None), []. subst db'. repeat split; simpl; auto.
Qed.

(** The theorem at the daily purchase of 50 on ETHUSDT. *)
Lemma dca_answers_exactly_one_action_witness :
  py_lower (get_default eth_dca_config "smart_dip_ma_type" (PyStr "sma")) = Ok "sma"%string
  /\ exists a,
       snd (get_dca_actions no_indicators (days 5) eth_dca_config (ticker_client 3200)
              (eth_dca_state 0) None []) = Ok [a].
Proof.
  assert (H : py_lower (get_default eth_dca_config "smart_dip_ma_type" (PyStr "sma"))
              = Ok "sma"%string) by reflexivity.
  split; [exact H|].
  destruct (dca_answers_exactly_one_action no_indicators (days 5) eth_dca_config
              (eth_dca_state 0) (ticker_client 3200) None [] "sma" H)
    as (a & rows & E & _).
  exists a. exact E.
Defined.






(** X12.  What goes wrong before the checks ends in a HOLD without a
    price, with nothing recorded: settings without an investment amount or a
    frequency (the exchange is not asked), a symbol that is not a string, and
    a ticker that fails. *)
Theorem dca_holds_without_a_price
    (ta : Pandas.TA) (now : Z) (config state : gmap string pyval) (client : Client)
    (db_bot : option Z) (db : list TradeHistoryCreate) (ma_type : string) :
  py_lower (get_default config "smart_dip_ma_type" (PyStr "sma")) = Ok ma_type ->
  truthy (get config "investment_amount") = false
  \/ truthy (get config "frequency") = false
  \/ (exists e, py_upper (get_default config "symbol" (PyStr "BTCUSDT")) = Raise e)
  \/ (exists symbol_upper e,
        py_upper (get_default config "symbol" (PyStr "BTCUSDT")) = Ok symbol_upper
        /\ get_symbol_ticker client symbol_upper = Raise e) ->
  get_dca_actions ta now config client state db_bot db = (db, Ok [hold None]).
Proof.
  intros Hma Hbad. unfold get_dca_actions. rewrite Hma.
  destruct (truthy (get config "investment_amount")) eqn:Hamount;
    [|reflexivity].
  destruct (truthy (get config "frequency")) eqn:Hfreq; [|reflexivity].
  simpl. unfold evaluate.
  destruct Hbad as [H|[H|[(e & H)|(s & e & H & Ht)]]]; try discriminate.
  - rewrite H. reflexivity.
  - rewrite H. simpl. rewrite Ht. reflexivity.
Qed.

(** The theorem at an exchange that cannot be reached. *)
Lemma dca_holds_without_a_price_witness :
  py_lower (get_default eth_dca_config "smart_dip_ma_type" (PyStr "sma")) = Ok "sma"%string
  /\ (exists symbol_upper e,
        py_upper (get_default eth_dca_config "symbol" (PyStr "BTCUSDT")) = Ok symbol_upper
        /\ get_symbol_ticker unreachable_client symbol_upper = Raise e)
  /\ get_dca_actions no_indicators (days 5) eth_dca_config unreachable_client
       (eth_dca_state 0) (Some 4%Z) []
     = ([], Ok [hold None]).
Proof.
  assert (H1 : py_lower (get_default eth_dca_config "smart_dip_ma_type" (PyStr "sma"))
               = Ok "sma"%string) by reflexivity.
  assert (H2 : exists symbol_upper e,
        py_upper (get_default eth_dca_config "symbol" (PyStr "BTCUSDT")) = Ok symbol_upper
        /\ get_symbol_ticker unreachable_client symbol_upper = Raise e).
  { exists "ETHUSDT"%string, BinanceAPIException. split; reflexivity. }
  split; [exact H1|]. split; [exact H2|].
  apply (dca_holds_without_a_price no_indicators (days 5) eth_dca_config
           (eth_dca_state 0) unreachable_client (Some 4%Z) [] "sma" H1).
  right. right. right. exact H2.
Defined.

End DcaActions.
Section MomentumEdges.

Local Open Scope Q_scope.
Import MomentumBot Pandas Fixtures Samples.

Lemma last_two_short (df : list Row) : (length df < 2)%nat -> last_two df = None.
Proof.
  destruct df as [|a [|b df]]; simpl; intros H; try reflexivity. lia.
Qed.

Lemma last_two_some (df : list Row) (prev latest : Row) :
  last_two df = Some (prev, latest) -> exists init, df = init ++ [prev; latest].
Proof.
  induction df as [|a df IH]; [discriminate|].
  destruct df as [|b [|c df]].
  - discriminate.
  - intros [= <- <-]. exists []. reflexivity.
  - intros H. destruct (IH H) as (init & E). exists (a :: init). rewrite E. reflexivity.
Qed.

(** X13.  [get_momentum_signal] answers HOLD and records nothing whenever
    there is nothing to decide on: the symbol is not a string, the candles
    cannot be fetched or are empty, the indicators fail or lack a required
    column, or fewer than two rows are left once the rows with a missing
    value are dropped. *)
Theorem momentum_holds_without_two_rows
    (ta : TA) (config : gmap string pyval) (client : Client)
    (db_bot : option Z) (db : list TradeHistoryCreate) :
  (exists e, py_upper (get_default config "symbol" (PyStr "BTCUSDT")) = Raise e)
  \/ (exists symbol_upper,
        py_upper (get_default config "symbol" (PyStr "BTCUSDT")) = Ok symbol_upper
        /\ ((exists e,
               get_klines client symbol_upper (get_default config "interval" (PyStr "1h"))
                          (get_default config "kline_limit" (PyInt 100)) = Raise e)
            \/ get_klines client symbol_upper (get_default config "interval" (PyStr "1h"))
                          (get_default config "kline_limit" (PyInt 100)) = Ok []
            \/ exists klines,
                 get_klines client symbol_upper
                            (get_default config "interval" (PyStr "1h"))
                            (get_default config "kline_limit" (PyInt 100)) = Ok klines
                 /\ ((exists e, indicators ta config klines = Raise e)
                     \/ indicators ta config klines = Ok None
                     \/ exists rows, indicators ta config klines = Ok (Some rows)
                                     /\ (length (dropna rows) < 2)%nat))) ->
  get_momentum_signal ta config client db_bot db = (db, HOLD).
Proof.
  unfold get_momentum_signal.
  intros [(e & H)|(s & H & [(e & Hk)|[Hk|(klines & Hk & Hi)]])]; rewrite H; simpl;
    try reflexivity; rewrite Hk; simpl; try reflexivity.
  destruct klines as [|k klines]; [reflexivity|].
  destruct Hi as [(e & Hi)|[Hi|(rows & Hi & Hshort)]]; rewrite Hi; simpl;
    try reflexivity.
  rewrite (last_two_short _ Hshort). reflexivity.
Qed.

(** The theorem at a frame whose only complete row is the last one. *)
Lemma momentum_holds_without_two_rows_witness :
  (length (dropna [ warming_up; warming_up; row 104 50 2 1 1 12 11 ]) < 2)%nat
  /\ get_momentum_signal
       {| indicators := fun _ _ => Ok (Some [ warming_up; warming_up;
                                              row 104 50 2 1 1 12 11 ]);
          last_ma := fun _ _ _ => Ok None |}
       ∅ candle_client (Some 5%Z) []
     = ([], HOLD).
Proof.
  assert (H : (length (dropna [ warming_up; warming_up; row 104 50 2 1 1 12 11 ]) < 2)%nat)
    by (simpl; lia).
  split; [exact H|].
  apply (momentum_holds_without_two_rows
           {| indicators := fun _ _ => Ok (Some [ warming_up; warming_up;
                                                  row 104 50 2 1 1 12 11 ]);
              last_ma := fun _ _ _ => Ok None |}
           ∅ candle_client (Some 5%Z) []).
  right. exists "BTCUSDT"%string. split; [reflexivity|].
  right. right. eexists. split; [reflexivity|].
  right. right. eexists. split; [reflexivity|exact H].
Defined.

(** X14.  A signal is stored as a simulated trade only when it is BUY or
    SELL and a database and bot identifier were passed: then exactly one
    row is added, SIM_BUY or SIM_SELL for that bot, with quantity 1 at the
    close of the latest complete row.  A HOLD, or a call without database,
    leaves the history as it is. *)
Theorem momentum_signal_is_recorded_once
    (ta : TA) (config : gmap string pyval) (client : Client)
    (db_bot : option Z) (db : list TradeHistoryCreate) :
  (snd (get_momentum_signal ta config client db_bot db) = HOLD \/ db_bot = None ->
   fst (get_momentum_signal ta config client db_bot db) = db)
  /\ (forall bot_id,
        db_bot = Some bot_id ->
        snd (get_momentum_signal ta config client db_bot db) <> HOLD ->
        exists row symbol_upper klines rows init prev latest,
          fst (get_momentum_signal ta config client db_bot db) = db ++ [row]
          /\ py_upper (get_default config "symbol" (PyStr "BTCUSDT")) = Ok symbol_upper
          /\ get_klines client symbol_upper (get_default config "interval" (PyStr "1h"))
                        (get_default config "kline_limit" (PyInt 100)) = Ok klines
          /\ indicators ta config klines = Ok (Some rows)
          /\ dropna rows = init ++ [prev; latest]
          /\ t_bot_id row = bot_id /\ t_symbol row = symbol_upper
          /\ t_action row
             = match snd (get_momentum_signal ta config client db_bot db) with
               | BUY => "SIM_BUY"%string
               | _ => "SIM_SELL"%string
               end
          /\ t_price row = value (close latest) /\ t_quantity row = 1).
Proof.
  unfold get_momentum_signal.
  destruct (py_upper (get_default config "symbol" (PyStr "BTCUSDT")))
    as [symbol_upper|e] eqn:Hs; simpl;
    [|split; [reflexivity|intros ? _ Hh; contradiction]].
  destruct (get_klines client symbol_upper _ _) as [klines|e] eqn:Hk; simpl;
    [|split; [reflexivity|intros ? _ Hh; contradiction]].
  destruct klines as [|k klines];
    [split; [reflexivity|intros ? _ Hh; contradiction]|].
  destruct (indicators ta config (k :: klines)) as [[rows|]|e] eqn:Hi; simpl;
    [| split; [reflexivity|intros ? _ Hh; contradiction]
     | split; [reflexivity|intros ? _ Hh; contradiction]].
  destruct (last_two (dropna rows)) as [[prev latest]|] eqn:Hl;
    [|split; [reflexivity|intros ? _ Hh; contradiction]].
  destruct (last_two_some _ _ _ Hl) as (init & Hrows).
  destruct (signal_logic _ _ prev latest) as [s|e]; simpl;
    [|split; [reflexivity|intros ? _ Hh; contradiction]].
  split.
  - intros [-> | ->]; [reflexivity|]. destruct s; reflexivity.
  - intros bot_id -> Hs'.
    exists {| t_bot_id := bot_id; t_symbol := symbol_upper;
              t_action := match s with BUY => "SIM_BUY" | _ => "SIM_SELL" end;
              t_price := value (close latest); t_quantity := 1 |},
           symbol_upper, (k :: klines), rows, init, prev, latest.
    split; [destruct s; try reflexivity; contradiction|].
    repeat split; first [reflexivity | assumption | destruct s; reflexivity].
Qed.

(** The theorem at the BUY of [rising_rows], for bot 5: one SIM_BUY at the
    latest close of 104. *)
Lemma momentum_signal_is_recorded_once_witness :
  snd (get_momentum_signal rising ∅ candle_client (Some 5%Z) []) <> HOLD
  /\ exists row,
       fst (get_momentum_signal rising ∅ candle_client (Some 5%Z) []) = [] ++ [row]
       /\ t_bot_id row = 5%Z /\ t_action row = "SIM_BUY"%string
       /\ t_price row = 104 /\ t_quantity row = 1.
Proof.
  assert (H : snd (get_momentum_signal rising ∅ candle_client (Some 5%Z) []) <> HOLD)
    by (intros E; vm_compute in E; discriminate).
  split; [exact H|].
  destruct (proj2 (momentum_signal_is_recorded_once rising ∅ candle_client (Some 5%Z) [])
              5%Z eq_refl H)
    as (row & s & klines & rows & init & prev & latest & E & _ & _ & _ & _ & Hb & _ & Ha
        & Hp & Hq).
  exists row. split; [exact E|]. split; [exact Hb|].
  injection E as <-. repeat split; reflexivity.
Defined.

End MomentumEdges.
Section ConnectionManager.

Import Websockets Fixtures Samples.

Lemma subscribers_connect (conns : gmap string (gset nat)) (ws ws' : nat) (s s' : string) :
  ws' ∈ subscribers (connect ws s conns) s'
  <-> (ws' = ws /\ s' = s) \/ ws' ∈ subscribers conns s'.
Proof.
  unfold subscribers, connect. destruct (decide (s = s')) as [<-|Hne].
  - rewrite lookup_insert_eq. destruct (conns !! s); set_solver.
  - rewrite lookup_insert_ne by exact Hne.
    destruct (conns !! s'); set_solver.
Qed.

Lemma subscribers_disconnect (conns : gmap string (gset nat)) (ws ws' : nat) (s s' : string) :
  ws' ∈ subscribers (disconnect ws s conns) s'
  <-> ws' ∈ subscribers conns s' /\ ~ (ws' = ws /\ s' = s).
Proof.
  unfold subscribers, disconnect.
  destruct (conns !! s) as [S|] eqn:Hs.
  - destruct (decide (ws ∈ S)) as [Hin|Hout].
    + destruct (decide (S ∖ {[ws]} = ∅)) as [He|Hne].
      * destruct (decide (s = s')) as [<-|Hd].
        -- rewrite lookup_delete_eq, Hs. set_solver.
        -- rewrite lookup_delete_ne by exact Hd.
           destruct (conns !! s'); set_solver.
      * destruct (decide (s = s')) as [<-|Hd].
        -- rewrite lookup_insert_eq, Hs. set_solver.
        -- rewrite lookup_insert_ne by exact Hd.
           destruct (conns !! s'); set_solver.
    + destruct (decide (s = s')) as [<-|Hd].
      * rewrite Hs. set_solver.
      * destruct (conns !! s'); set_solver.
  - destruct (decide (s = s')) as [<-|Hd].
    + rewrite Hs. set_solver.
    + destruct (conns !! s'); set_solver.
Qed.

(** X15.  The connection manager keeps, for every symbol, the set of its
    sockets: [connect] adds the socket to its symbol and to no other;
    [disconnect] removes it from its symbol and from no other; every other
    socket stays where it was.  Connecting or disconnecting twice is the
    same as once. *)
Theorem connection_manager_keeps_sets
    (conns : gmap string (gset nat)) (ws ws' : nat) (s s' : string) :
  (ws' ∈ subscribers (connect ws s conns) s'
   <-> (ws' = ws /\ s' = s) \/ ws' ∈ subscribers conns s')
  /\ (ws' ∈ subscribers (disconnect ws s conns) s'
      <-> ws' ∈ subscribers conns s' /\ ~ (ws' = ws /\ s' = s))
  /\ connect ws s (connect ws s conns) = connect ws s conns
  /\ disconnect ws s (disconnect ws s conns) = disconnect ws s conns.
Proof.
  split; [apply subscribers_connect|]. split; [apply subscribers_disconnect|]. split.
  - unfold connect. rewrite lookup_insert_eq, insert_insert_eq.
    f_equal. destruct (conns !! s); set_solver.
  - unfold disconnect. destruct (conns !! s) as [S|] eqn:Hs.
    + destruct (decide (ws ∈ S)) as [Hin|Hout].
      * destruct (decide (S ∖ {[ws]} = ∅)) as [He|Hne].
        -- rewrite lookup_delete_eq. reflexivity.
        -- rewrite lookup_insert_eq.
           destruct (decide (ws ∈ S ∖ {[ws]})) as [Hin'|_]; [set_solver|reflexivity].
      * rewrite ?Hs. destruct (decide (ws ∈ S)); [contradiction|reflexivity].
    + rewrite ?Hs. reflexivity.
Qed.

Lemma connect_no_empty (conns : gmap string (gset nat)) (ws : nat) (s : string) :
  (forall s0 S, conns !! s0 = Some S -> S <> ∅) ->
  forall s0 S, connect ws s conns !! s0 = Some S -> S <> ∅.
Proof.
  intros H s0 S. unfold connect. intros E.
  apply lookup_insert_Some in E as [[<- <-]|[_ E]]; [set_solver|exact (H s0 S E)].
Qed.

Lemma disconnect_no_empty (conns : gmap string (gset nat)) (ws : nat) (s : string) :
  (forall s0 S, conns !! s0 = Some S -> S <> ∅) ->
  forall s0 S, disconnect ws s conns !! s0 = Some S -> S <> ∅.
Proof.
  intros H s0 S. unfold disconnect.
  destruct (conns !! s) as [S'|] eqn:Hs; [|apply H].
  destruct (decide (ws ∈ S')); [|apply H].
  destruct (decide (S' ∖ {[ws]} = ∅)) as [He|Hne]; intros E.
  - apply lookup_delete_Some in E as [_ E]. exact (H s0 S E).
  - apply lookup_insert_Some in E as [[<- <-]|[_ E]]; [exact Hne|exact (H s0 S E)].
Qed.

Lemma endpoint_finally_connections s st :
  active_connections (endpoint_finally s st) = active_connections st
  /\ endpoints (endpoint_finally s st) = endpoints st.
Proof.
  unfold endpoint_finally.
  destruct (active_connections st !! s); [split; reflexivity|].
  destruct (binance_socket_tasks st !! s) as [t|]; [|split; reflexivity].
  destruct (done st t); [split; reflexivity|].
  unfold cancel. destruct (tasks st !! t) as [k|]; [|split; reflexivity].
  destruct (status k); split; reflexivity.
Qed.

Lemma listener_finally_connections t k st :
  active_connections (listener_finally t k st) = active_connections st
  /\ endpoints (listener_finally t k st) = endpoints st.
Proof.
  unfold listener_finally.
  destruct (binance_socket_tasks st !! symbol k); split; reflexivity.
Qed.

(** A step that leaves the connections and the endpoints alone. *)
Lemma consistent_same_connections st st' :
  connections_consistent st ->
  active_connections st' = active_connections st -> endpoints st' = endpoints st ->
  connections_consistent st'.
Proof.
  intros (Ha & Hb) Ec Ee. split.
  - rewrite Ec. exact Ha.
  - rewrite Ec, Ee. exact Hb.
Qed.

(** A step of the endpoint [ws] that changes its place and, at most, its own
    membership. *)
Lemma consistent_endpoint_step st st' ws e conns :
  connections_consistent st ->
  active_connections st' = conns -> endpoints st' = <[ws := e]> (endpoints st) ->
  (forall s0 S, conns !! s0 = Some S -> S <> ∅) ->
  (forall ws0 s0, ws0 <> ws -> ws0 ∈ subscribers (active_connections st) s0 ->
                  ws0 ∈ subscribers conns s0) ->
  (forall s0, connected_for e = Some s0 -> ws ∈ subscribers conns s0) ->
  connections_consistent st'.
Proof.
  intros (Ha & Hb) Ec Ee Hne Hothers Hself. split.
  - rewrite Ec. exact Hne.
  - rewrite Ec, Ee. intros ws0 e0 s0 Hl Hw.
    apply lookup_insert_Some in Hl as [[<- <-]|[Hd Hl]].
    + apply Hself, Hw.
    + apply Hothers; [congruence|]. exact (Hb ws0 e0 s0 Hl Hw).
Qed.

Lemma step_connections_consistent keys st ev st' :
  connections_consistent st -> step keys st ev = Some st' -> connections_consistent st'.
Proof.
  intros H Hstep. pose proof H as (Ha & Hb).
  destruct ev as [ws s|ws|ws ok|ws ok|ws|ws|t|t|t why]; unfold step in Hstep.
  - destruct (endpoints st !! ws) eqn:He; [discriminate|]. injection Hstep as <-.
    apply (consistent_endpoint_step st _ ws (Accepting (upper s)) (active_connections st) H);
      try reflexivity; auto. discriminate.
  - destruct (endpoints st !! ws) as [[s| | | |]|] eqn:He; try discriminate.
    assert (Hgoal : forall e st2,
              active_connections st2 = connect ws s (active_connections st) ->
              endpoints st2 = <[ws := e]> (endpoints st) ->
              (forall s0, connected_for e = Some s0 -> s0 = s) ->
              connections_consistent st2).
    { intros e st2 Ec Ee Hs.
      apply (consistent_endpoint_step st st2 ws e _ H Ec Ee).
      - apply connect_no_empty, Ha.
      - intros ws0 s0 _ Hin. apply subscribers_connect. right. exact Hin.
      - intros s0 Hw. rewrite (Hs s0 Hw). apply subscribers_connect. left. auto. }
    destruct (listener_needed _ s).
    + destruct (async_binance_client _).
      * injection Hstep as <-. apply (Hgoal (Receiving s)); try reflexivity.
        intros s0 [= <-]. reflexivity.
      * destruct keys; injection Hstep as <-.
        -- apply (Hgoal (CreatingClient s)); try reflexivity.
           intros s0 [= <-]. reflexivity.
        -- apply (Hgoal (Closing s)); try reflexivity.
           intros s0 [= <-]. reflexivity.
    + injection Hstep as <-. apply (Hgoal (Receiving s)); try reflexivity.
      intros s0 [= <-]. reflexivity.
  - destruct (endpoints st !! ws) as [[| s | | |]|] eqn:He; try discriminate.
    pose proof (Hb ws (CreatingClient s) s He eq_refl) as Hin.
    destruct ok; injection Hstep as <-.
    + apply (consistent_endpoint_step st _ ws (Receiving s) (active_connections st) H);
        try reflexivity; auto.
      intros s0 [= <-]. exact Hin.
    + apply (consistent_endpoint_step st _ ws (Closing s) (active_connections st) H);
        try reflexivity; auto.
      intros s0 [= <-]. exact Hin.
  - destruct (endpoints st !! ws) as [[| | s | |]|] eqn:He; try discriminate.
    destruct ok; injection Hstep as <-.
    + apply (consistent_endpoint_step st _ ws Returned
               (disconnect ws s (active_connections st)) H); try reflexivity.
      * apply disconnect_no_empty, Ha.
      * intros ws0 s0 Hd Hin. apply subscribers_disconnect. split; [exact Hin|].
        intros [? _]. contradiction.
      * discriminate.
    + apply (consistent_endpoint_step st _ ws Returned (active_connections st) H);
        try reflexivity; auto. discriminate.
  - destruct (endpoints st !! ws) as [[| | | s |]|]; try discriminate.
    injection Hstep as <-. exact H.
  - destruct (endpoints st !! ws) as [[| | | s |]|] eqn:He; try discriminate.
    injection Hstep as <-.
    destruct (endpoint_finally_connections s
                (set_connections (disconnect ws s (active_connections st)) st))
      as [Ec Ee].
    apply (consistent_endpoint_step st _ ws Returned
             (disconnect ws s (active_connections st)) H).
    + simpl. rewrite Ec. reflexivity.
    + simpl. rewrite Ee. reflexivity.
    + apply disconnect_no_empty, Ha.
    + intros ws0 s0 Hd Hin. apply subscribers_disconnect. split; [exact Hin|].
      intros [? _]. contradiction.
    + discriminate.
  - destruct (tasks st !! t) as [k|] eqn:Ht; [|discriminate].
    destruct (status k); try discriminate.
    destruct (cancel_requested k).
    { injection Hstep as <-. apply (consistent_same_connections st); auto. }
    destruct (async_binance_client st).
    { injection Hstep as <-. apply (consistent_same_connections st); auto. }
    destruct keys; injection Hstep as <-.
    + apply (consistent_same_connections st); auto.
    + destruct (listener_finally_connections t k st) as [Ec Ee].
      apply (consistent_same_connections st); auto.
  - destruct (tasks st !! t) as [[s [| |] c]|]; try discriminate.
    injection Hstep as <-. exact H.
  - destruct (tasks st !! t) as [k|] eqn:Ht; [|discriminate].
    destruct (listener_finally_connections t k st) as [Ec Ee].
    destruct (status k), why; try discriminate.
    + destruct (cancel_requested k); [|discriminate].
      injection Hstep as <-. apply (consistent_same_connections st); auto.
    + injection Hstep as <-. apply (consistent_same_connections st); auto.
Qed.

(** X16.  In every state the relay can reach, a symbol is a key of
    [active_connections] only while it has at least one socket, and the
    socket of every endpoint between its accept and its disconnect (while it
    creates the client, waits in the receive loop or closes) is among the
    sockets of its symbol, so that a broadcast for the symbol reaches it. *)
Theorem reachable_connections_consistent (keys client_ready : bool) (st : State) :
  reachable keys client_ready st -> connections_consistent st.
Proof.
  induction 1 as [|st ev st' _ IH Hstep].
  - split; simpl.
    + intros s S E. rewrite lookup_empty in E. discriminate.
    + intros ws e s E. rewrite lookup_empty in E. discriminate.
  - eapply step_connections_consistent; eassumption.
Qed.

(** The theorem at the state with one subscriber of BTCUSDT. *)
Lemma reachable_connections_consistent_witness :
  reachable true true (after one_subscriber)
  /\ endpoints (after one_subscriber) !! 1%nat = Some (Receiving "BTCUSDT")
  /\ connections_consistent (after one_subscriber).
Proof.
  assert (Hr : reachable true true (after one_subscriber)).
  { apply (run_reachable true true one_subscriber (initial true));
      [apply reachable_initial|reflexivity]. }
  split; [exact Hr|]. split; [reflexivity|].
  exact (reachable_connections_consistent true true (after one_subscriber) Hr).
Defined.

(** X17.  When the client of a waiting endpoint goes away, its socket is
    removed and the endpoint returns.  If it was the last socket of the
    symbol, the symbol leaves [active_connections], the registered listener
    that is not done is asked to cancel, and its registration is deleted.  If
    another socket of the symbol remains, the listener and the registry are
    left as they are. *)
Theorem last_subscriber_cancels_the_listener
    (keys : bool) (st : State) (ws : nat) (s : string) (subscribed : gset nat) :
  endpoints st !! ws = Some (Receiving s) ->
  active_connections st !! s = Some subscribed -> ws ∈ subscribed ->
  exists st',
    step keys st (Disconnected ws) = Some st'
    /\ endpoints st' !! ws = Some Returned
    /\ (ws ∉ subscribers (active_connections st') s)
    /\ (subscribed = {[ws]} ->
        active_connections st' !! s = None
        /\ binance_socket_tasks st' !! s = None
        /\ forall t k,
             binance_socket_tasks st !! s = Some t -> tasks st !! t = Some k ->
             status k <> Done ->
             tasks st' !! t = Some {| symbol := symbol k; status := status k;
                                      cancel_requested := true |})
    /\ (forall other, other ∈ subscribed -> other <> ws ->
        other ∈ subscribers (active_connections st') s
        /\ binance_socket_tasks st' = binance_socket_tasks st
        /\ tasks st' = tasks st).
Proof.
  intros He Hs Hin. unfold step. rewrite He.
  eexists. split; [reflexivity|].
  split; [simpl; apply lookup_insert_eq|].
  destruct (endpoint_finally_connections s
              (set_connections (disconnect ws s (active_connections st)) st)) as [Ec _].
  split.
  { simpl. rewrite Ec. simpl. rewrite subscribers_disconnect. tauto. }
  split.
  - intros ->.
    assert (Hd : disconnect ws s (active_connections st) = delete s (active_connections st)).
    { unfold disconnect. rewrite Hs.
      destruct (decide (ws ∈ ({[ws]} : gset nat))) as [_|Hout]; [|set_solver].
      destruct (decide (({[ws]} : gset nat) ∖ {[ws]} = ∅)) as [_|Hne]; [reflexivity|].
      set_solver. }
    simpl. rewrite Ec. simpl. rewrite Hd.
    split; [apply lookup_delete_eq|].
    unfold endpoint_finally. simpl. rewrite lookup_delete_eq.
    destruct (binance_socket_tasks st !! s) as [t|] eqn:Hreg.
    + split.
      * destruct (done _ t); simpl; [apply lookup_delete_eq|].
        unfold cancel. simpl. destruct (tasks st !! t) as [k|]; [|apply lookup_delete_eq].
        destruct (status k); simpl; apply lookup_delete_eq.
      * intros t0 k [= <-] Hk Hnd.
        unfold done. simpl. rewrite Hk.
        unfold cancel. simpl.
        destruct k as [sym [| |] c]; simpl in *; try contradiction;
          rewrite Hk; simpl; apply lookup_insert_eq.
    + split; [exact Hreg|]. intros t k Ht. discriminate.
  - intros other Ho Hne.
    assert (Hd : disconnect ws s (active_connections st)
                 = <[s := subscribed ∖ {[ws]}]> (active_connections st)).
    { unfold disconnect. rewrite Hs.
      destruct (decide (ws ∈ subscribed)) as [_|Hout]; [|contradiction].
      destruct (decide (subscribed ∖ {[ws]} = ∅)) as [Hempty|_]; [set_solver|reflexivity]. }
    split.
    + simpl. rewrite Ec. simpl. rewrite subscribers_disconnect. split.
      * unfold subscribers. rewrite Hs. exact Ho.
      * intros [? _]. contradiction.
    + unfold endpoint_finally. simpl. rewrite Hd, lookup_insert_eq. split; reflexivity.
Qed.

(** The theorem at the only subscriber of BTCUSDT leaving. *)
Lemma last_subscriber_cancels_the_listener_witness :
  endpoints (after one_subscriber) !! 1%nat = Some (Receiving "BTCUSDT")
  /\ active_connections (after one_subscriber) !! "BTCUSDT"%string
     = Some ({[1%nat]} : gset nat)
  /\ exists st',
       step true (after one_subscriber) (Disconnected 1) = Some st'
       /\ active_connections st' !! "BTCUSDT"%string = None
       /\ binance_socket_tasks st' !! "BTCUSDT"%string = None
       /\ tasks st' !! 0%nat
          = Some {| symbol := "BTCUSDT"; status := Listening; cancel_requested := true |}.
Proof.
  assert (He : endpoints (after one_subscriber) !! 1%nat = Some (Receiving "BTCUSDT"))
    by reflexivity.
  assert (Hs : active_connections (after one_subscriber) !! "BTCUSDT"%string
               = Some ({[1%nat]} : gset nat)) by reflexivity.
  assert (Hin : 1%nat ∈ ({[1%nat]} : gset nat)) by set_solver.
  split; [exact He|]. split; [exact Hs|].
  destruct (last_subscriber_cancels_the_listener true (after one_subscriber) 1 "BTCUSDT"
              {[1%nat]} He Hs Hin) as (st' & Hstep & _ & _ & Hlast & _).
  exists st'. split; [exact Hstep|].
  destruct (Hlast eq_refl) as (Hc & Hr & Ht).
  split; [exact Hc|]. split; [exact Hr|].
  apply (Ht 0%nat {| symbol := "BTCUSDT"; status := Listening; cancel_requested := false |});
    [reflexivity | reflexivity | discriminate].
Defined.

End ConnectionManager.
Section ListenerRegistryWitnesses.

Import Websockets Fixtures Samples.

(** [reachable_consistent] at the state with one subscriber of BTCUSDT. *)
Lemma reachable_consistent_witness :
  reachable true true (after one_subscriber)
  /\ binance_socket_tasks (after one_subscriber) !! "BTCUSDT"%string = Some 0%nat
  /\ registry_consistent (after one_subscriber).
Proof.
  assert (Hr : reachable true true (after one_subscriber)).
  { apply (run_reachable true true one_subscriber (initial true));
      [apply reachable_initial|reflexivity]. }
  split; [exact Hr|]. split; [reflexivity|].
  exact (reachable_consistent true true (after one_subscriber) Hr).
Defined.

(** [registered_listener_is_reused] at a second subscriber of BTCUSDT. *)
Lemma registered_listener_is_reused_witness :
  endpoints (after second_subscriber) !! 2%nat = Some (Accepting "BTCUSDT")
  /\ binance_socket_tasks (after second_subscriber) !! "BTCUSDT"%string = Some 0%nat
  /\ done (after second_subscriber) 0 = false
  /\ step true (after second_subscriber) (Accepted 2)
     = Some (after (second_subscriber ++ [Accepted 2]))
  /\ tasks (after (second_subscriber ++ [Accepted 2])) = tasks (after second_subscriber)
  /\ binance_socket_tasks (after (second_subscriber ++ [Accepted 2]))
     = binance_socket_tasks (after second_subscriber).
Proof.
  assert (H1 : endpoints (after second_subscriber) !! 2%nat = Some (Accepting "BTCUSDT"))
    by reflexivity.
  assert (H2 : binance_socket_tasks (after second_subscriber) !! "BTCUSDT"%string
               = Some 0%nat) by reflexivity.
  assert (H3 : done (after second_subscriber) 0 = false) by reflexivity.
  assert (H4 : step true (after second_subscriber) (Accepted 2)
               = Some (after (second_subscriber ++ [Accepted 2]))) by reflexivity.
  split; [exact H1|]. split; [exact H2|]. split; [exact H3|]. split; [exact H4|].
  exact (registered_listener_is_reused true (after second_subscriber) 2 "BTCUSDT" 0
           (after (second_subscriber ++ [Accepted 2])) H1 H2 H3 H4).
Defined.

End ListenerRegistryWitnesses.
Section Performance.

Local Open Scope Q_scope.
Import Database PerformanceCalculator.

Lemma round_half_even_between (y : Q) (a b : Z) :
  inject_Z a <= y -> y <= inject_Z b ->
  (a <= round_half_even y <= b)%Z.
Proof.
  intros Ha Hb. unfold round_half_even.
  pose proof (Qfloor_le y) as Hfl. pose proof (Qlt_floor y) as Hfu.
  assert (Hfa : (a <= Qfloor y)%Z).
  { rewrite <- (Qfloor_Z a). apply Qfloor_resp_le, Ha. }
  assert (Hfb : (Qfloor y <= b)%Z).
  { rewrite <- (Qfloor_Z b). apply Qfloor_resp_le, Hb. }
  assert (Hup : 0 < y - inject_Z (Qfloor y) -> (Qfloor y + 1 <= b)%Z).
  { intros Hr. assert (Hlt : inject_Z (Qfloor y) < inject_Z b) by lra.
    rewrite <- Zlt_Qlt in Hlt. lia. }
  destruct (Qlt_bool (y - inject_Z (Qfloor y)) (1 # 2)) eqn:H1; [lia|].
  apply Qlt_bool_false in H1.
  assert (Hr : 0 < y - inject_Z (Qfloor y)) by lra.
  specialize (Hup Hr).
  destruct (Qlt_bool (1 # 2) (y - inject_Z (Qfloor y))); [lia|].
  destruct (Z.even (Qfloor y)); lia.
Qed.

Lemma pow10_positive (n : Z) : 0 < Qpower 10 n.
Proof. apply Qpower_0_lt. reflexivity. Qed.

Lemma round_between (x : Q) (n a b : Z) :
  inject_Z a <= x * Qpower 10 n -> x * Qpower 10 n <= inject_Z b ->
  inject_Z a / Qpower 10 n <= round x n /\ round x n <= inject_Z b / Qpower 10 n.
Proof.
  intros Ha Hb. pose proof (pow10_positive n) as Hp.
  destruct (round_half_even_between _ a b Ha Hb) as [H1 H2].
  rewrite Zle_Qle in H1, H2. unfold round. split.
  - apply Qle_shift_div_l; [exact Hp|].
    assert (E : inject_Z a / Qpower 10 n * Qpower 10 n == inject_Z a) by (field; lra).
    rewrite E. exact H1.
  - apply Qle_shift_div_r; [exact Hp|].
    assert (E : inject_Z b / Qpower 10 n * Qpower 10 n == inject_Z b) by (field; lra).
    rewrite E. exact H2.
Qed.

(** Rounding does not change the sign: what is not above zero is not
    rounded above zero, and what is not below zero not below it. *)
Lemma round_sign (x : Q) (n : Z) :
  (x <= 0 -> round x n <= 0) /\ (0 <= x -> 0 <= round x n).
Proof.
  pose proof (pow10_positive n) as Hp. split; intros Hx.
  - assert (H1 : x * Qpower 10 n <= inject_Z 0).
    { change (inject_Z 0) with 0. nra. }
    pose proof (Qfloor_le (x * Qpower 10 n)) as Hfl.
    assert (H0 : inject_Z (Qfloor (x * Qpower 10 n) - 1) <= x * Qpower 10 n).
    { unfold Z.sub. rewrite inject_Z_plus, inject_Z_opp. change (inject_Z 1) with 1. lra. }
    destruct (round_between x n _ 0 H0 H1) as [_ H2].
    change (inject_Z 0) with 0 in H2.
    assert (E : 0 / Qpower 10 n == 0) by (field; lra). rewrite E in H2. exact H2.
  - assert (H1 : inject_Z 0 <= x * Qpower 10 n).
    { change (inject_Z 0) with 0. nra. }
    pose proof (Qlt_floor (x * Qpower 10 n)) as Hfu.
    assert (H0 : x * Qpower 10 n <= inject_Z (Qfloor (x * Qpower 10 n) + 1)) by lra.
    destruct (round_between x n 0 _ H1 H0) as [H2 _].
    change (inject_Z 0) with 0 in H2.
    assert (E : 0 / Qpower 10 n == 0) by (field; lra). rewrite E in H2. exact H2.
Qed.

Lemma count_actions_cons (test : string -> bool) (t : TradeHistory) (trades : list TradeHistory) :
  Samples.count_actions test (t :: trades)
  = ((if test (th_action t) then 1 else 0) + Samples.count_actions test trades)%Z.
Proof.
  unfold Samples.count_actions. simpl. destruct (test (th_action t)); simpl length; lia.
Qed.

Lemma buy_is_no_sell (action : string) : is_buy action = true -> is_sell action = false.
Proof.
  unfold is_buy, is_sell. rewrite orb_true_iff, !String.eqb_eq.
  intros [-> | ->]; reflexivity.
Qed.

Lemma account_bounded (t : Tally) (trade : TradeHistory) (buys sells : Z) :
  Samples.tally_bounded t buys sells ->
  Samples.tally_bounded (account t trade)
    (buys + if is_buy (th_action trade) then 1 else 0)
    (sells + if is_sell (th_action trade) then 1 else 0).
Proof.
  intros (Hw & Hl & Hb & Hs & Hneg & Hpos). unfold account.
  destruct (is_buy (th_action trade)) eqn:Ebuy.
  - rewrite (buy_is_no_sell _ Ebuy). unfold Samples.tally_bounded. simpl.
    destruct (last_buy_price t); repeat split; try lia; assumption.
  - destruct (is_sell (th_action trade)) eqn:Esell.
    + destruct (last_buy_price t) as [bought|] eqn:Eheld.
      * unfold Samples.tally_bounded. simpl.
        destruct (Qlt_bool 0 ((th_price trade - bought) * last_buy_quantity t)) eqn:Egain.
        -- apply Qlt_bool_iff in Egain. repeat split; try lia.
           intros Hl0. specialize (Hpos Hl0). lra.
        -- apply Qlt_bool_false in Egain.
           destruct (Qlt_bool ((th_price trade - bought) * last_buy_quantity t) 0) eqn:Eloss.
           ++ repeat split; try lia. intros Hw0. specialize (Hneg Hw0). lra.
           ++ apply Qlt_bool_false in Eloss. repeat split; try lia.
              ** intros Hw0. specialize (Hneg Hw0). lra.
              ** intros Hl0. specialize (Hpos Hl0). lra.
      * unfold Samples.tally_bounded. rewrite Eheld in *. repeat split; try lia; assumption.
    + unfold Samples.tally_bounded. rewrite !Z.add_0_r. repeat split; assumption.
Qed.

Lemma fold_account_bounded (trades : list TradeHistory) (t : Tally) (buys sells : Z) :
  Samples.tally_bounded t buys sells ->
  Samples.tally_bounded (fold_left account trades t)
    (buys + Samples.count_actions is_buy trades)
    (sells + Samples.count_actions is_sell trades).
Proof.
  revert t buys sells. induction trades as [|x trades IH]; intros t buys sells H.
  - unfold Samples.count_actions. simpl. rewrite !Z.add_0_r. exact H.
  - simpl fold_left. rewrite !count_actions_cons, !Z.add_assoc.
    apply IH, account_bounded, H.
Qed.

Lemma start_bounded : Samples.tally_bounded start 0 0.
Proof. unfold Samples.tally_bounded, start. simpl. repeat split; try lia; lra. Qed.

(** X20.  For a history that is not empty, the metrics count completed
    buy-then-sell cycles whose profit is not zero: the number of cycles is
    winning plus losing trades, neither is negative, and there are at most as
    many cycles as BUY rows and at most as many as SELL rows (simulated ones
    included).  The win rate is a percentage between 0 and 100. *)
Theorem performance_counts_completed_cycles (trades : list TradeHistory) :
  trades <> [] ->
  exists cycles won lost rate total average,
    calculate_performance_metrics trades = Cycles cycles won lost rate total average
    /\ cycles = (won + lost)%Z /\ (0 <= won)%Z /\ (0 <= lost)%Z
    /\ (cycles <= Samples.count_actions is_buy trades)%Z
    /\ (cycles <= Samples.count_actions is_sell trades)%Z
    /\ 0 <= rate /\ rate <= 100.
Proof.
  intros Hne. destruct trades as [|x trades]; [contradiction|].
  unfold calculate_performance_metrics.
  destruct (fold_account_bounded (x :: trades) start 0 0 start_bounded)
    as (Hw & Hl & Hb & Hs & _ & _).
  set (t := fold_left account (x :: trades) start) in *.
  do 6 eexists. split; [reflexivity|].
  split; [reflexivity|]. split; [exact Hw|]. split; [exact Hl|].
  split; [destruct (last_buy_price t); lia|]. split; [lia|].
  destruct (0 <? wins t + losses t)%Z eqn:Epos.
  - apply Z.ltb_lt in Epos.
    assert (Hc : 0 < inject_Z (wins t + losses t)).
    { rewrite Zlt_Qlt in Epos. exact Epos. }
    assert (Hw' : 0 <= inject_Z (wins t)) by (rewrite Zle_Qle in Hw; exact Hw).
    assert (Hwc : inject_Z (wins t) <= inject_Z (wins t + losses t))
      by (rewrite <- Zle_Qle; lia).
    assert (H0 : 0 <= inject_Z (wins t) / inject_Z (wins t + losses t)).
    { apply Qle_shift_div_l; [exact Hc|]. lra. }
    assert (H1 : inject_Z (wins t) / inject_Z (wins t + losses t) <= 1).
    { apply Qle_shift_div_r; [exact Hc|]. lra. }
    destruct (round_between
                (inject_Z (wins t) / inject_Z (wins t + losses t) * 100) 2 0 10000)
      as [Hlo Hhi].
    + change (inject_Z 0) with 0. change (Qpower 10 2) with 100. lra.
    + change (inject_Z 10000) with 10000. change (Qpower 10 2) with 100. lra.
    + split.
      * eapply Qle_trans; [|exact Hlo]. unfold Qle. simpl. lia.
      * eapply Qle_trans; [exact Hhi|]. unfold Qle. simpl. lia.
  - split; [apply (round_sign 0 2); lra|].
    eapply Qle_trans; [apply (round_sign 0 2); lra|]. lra.
Qed.

(** The theorem at a buy at 100, a sale at 110, a buy at 120 and a sale at
    115: two cycles, one won, one lost, a win rate of 50. *)
Lemma performance_counts_completed_cycles_witness :
  [ Samples.trade 1 "BUY" 100 1; Samples.trade 2 "SELL" 110 1;
    Samples.trade 3 "SIM_BUY" 120 1; Samples.trade 4 "SIM_SELL" 115 1 ] <> []
  /\ exists rate total average,
       calculate_performance_metrics
         [ Samples.trade 1 "BUY" 100 1; Samples.trade 2 "SELL" 110 1;
           Samples.trade 3 "SIM_BUY" 120 1; Samples.trade 4 "SIM_SELL" 115 1 ]
       = Cycles 2 1 1 rate total average
       /\ rate == 50 /\ total == 5 /\ average == 5 # 2.
Proof.
  assert (H : [ Samples.trade 1 "BUY" 100 1; Samples.trade 2 "SELL" 110 1;
                Samples.trade 3 "SIM_BUY" 120 1; Samples.trade 4 "SIM_SELL" 115 1 ] <> [])
    by discriminate.
  split; [exact H|].
  destruct (performance_counts_completed_cycles _ H)
    as (cycles & won & lost & rate & total & average & E & _).
  exists rate, total, average.
  assert (E' : Cycles cycles won lost rate total average
               = Cycles 2 1 1 (5000 # 100) (50000 # 10000) (25000 # 10000))
    by (rewrite <- E; vm_compute; reflexivity).
  injection E' as -> -> -> -> -> ->. rewrite E.
  split; [reflexivity|]. split; [reflexivity|]. split; reflexivity.
Defined.

(** X21.  The total is the sum of the cycles' profits, so its sign tells
    what was counted: a total above zero needs a winning trade, a total below
    zero a losing one, and without a counted cycle the win rate, the total
    and the average are all zero. *)
Theorem performance_total_needs_a_counted_cycle
    (trades : list TradeHistory) (cycles won lost : Z) (rate total average : Q) :
  calculate_performance_metrics trades = Cycles cycles won lost rate total average ->
  (0 < total -> (1 <= won)%Z)
  /\ (total < 0 -> (1 <= lost)%Z)
  /\ (cycles = 0%Z -> rate == 0 /\ total == 0 /\ average == 0).
Proof.
  destruct trades as [|x trades]; [discriminate|].
  unfold calculate_performance_metrics.
  destruct (fold_account_bounded (x :: trades) start 0 0 start_bounded)
    as (Hw & Hl & _ & _ & Hneg & Hpos).
  set (t := fold_left account (x :: trades) start) in *.
  intros [= <- <- <- <- <- <-].
  split; [|split].
  - intros Htotal. destruct (Z.eq_dec (wins t) 0%Z) as [E|]; [|lia].
    pose proof (proj1 (round_sign (total_pnl t) 4) (Hneg E)). lra.
  - intros Htotal. destruct (Z.eq_dec (losses t) 0%Z) as [E|]; [|lia].
    pose proof (proj2 (round_sign (total_pnl t) 4) (Hpos E)). lra.
  - intros Hc. assert (E1 : wins t = 0%Z) by lia. assert (E2 : losses t = 0%Z) by lia.
    assert (Hno : (0 <? wins t + losses t)%Z = false) by (apply Z.ltb_ge; lia).
    rewrite Hno.
    assert (Hzero : forall n, round 0 n == 0).
    { intros n. apply Qle_antisym; apply (round_sign 0 n); lra. }
    split; [apply Hzero|]. split; [|apply Hzero].
    apply Qle_antisym.
    + apply (round_sign (total_pnl t) 4), Hneg, E1.
    + apply (round_sign (total_pnl t) 4), Hpos, E2.
Qed.

(** The theorem at a purchase that was never sold. *)
Lemma performance_total_needs_a_counted_cycle_witness :
  exists rate total average,
    calculate_performance_metrics [ Samples.trade 1 "BUY" 100 1 ]
    = Cycles 0 0 0 rate total average
    /\ rate == 0 /\ total == 0 /\ average == 0.
Proof.
  assert (E : calculate_performance_metrics [ Samples.trade 1 "BUY" 100 1 ]
              = Cycles 0 0 0 (round 0 2) (round 0 4) (round 0 4)) by reflexivity.
  exists (round 0 2), (round 0 4), (round 0 4). split; [exact E|].
  apply (performance_total_needs_a_counted_cycle _ _ _ _ _ _ _ E). reflexivity.
Defined.

Lemma fold_account_skipped (skipped : list TradeHistory) :
  Forall (fun t => is_buy (th_action t) = false) skipped ->
  fold_left account skipped start = start.
Proof.
  induction 1 as [|x skipped Hx _ IH]; [reflexivity|].
  simpl fold_left. unfold account at 2. rewrite Hx.
  destruct (is_sell (th_action x)); exact IH.
Qed.

(** X22.  Trades that are not part of a cycle do not count: whatever comes
    before the first purchase (sales with nothing bought, rows with another
    action) is passed over, and of two purchases in a row only the later one
    is kept.  The metrics of the history are those of the history without
    such rows. *)
Theorem unpaired_trades_do_not_count
    (skipped before after : list TradeHistory) (first_buy replaced kept : TradeHistory) :
  Forall (fun t => is_buy (th_action t) = false) skipped ->
  is_buy (th_action first_buy) = true ->
  is_buy (th_action replaced) = true -> is_buy (th_action kept) = true ->
  calculate_performance_metrics (skipped ++ first_buy :: before ++ replaced :: kept :: after)
  = calculate_performance_metrics (first_buy :: before ++ kept :: after).
Proof.
  intros Hskipped Hfirst Hreplaced Hkept.
  assert (E : fold_left account
                (skipped ++ first_buy :: before ++ replaced :: kept :: after) start
              = fold_left account (first_buy :: before ++ kept :: after) start).
  { rewrite fold_left_app, (fold_account_skipped skipped Hskipped).
    simpl fold_left. rewrite !fold_left_app. simpl fold_left. f_equal.
    unfold account. rewrite Hreplaced, Hkept. reflexivity. }
  unfold calculate_performance_metrics. rewrite E.
  destruct skipped; reflexivity.
Qed.

(** The theorem at a sale with nothing bought, then purchases at 100, 90 and
    80 and a sale at 85: one winning cycle, from 80. *)
Lemma unpaired_trades_do_not_count_witness :
  calculate_performance_metrics
    ([ Samples.trade 1 "SELL" 120 1 ] ++ Samples.trade 2 "BUY" 100 1
       :: [] ++ Samples.trade 3 "BUY" 90 1 :: Samples.trade 4 "BUY" 80 1
       :: [ Samples.trade 5 "SELL" 85 1 ])
  = calculate_performance_metrics
      (Samples.trade 2 "BUY" 100 1
         :: [] ++ Samples.trade 4 "BUY" 80 1 :: [ Samples.trade 5 "SELL" 85 1 ]).
Proof.
  apply (unpaired_trades_do_not_count [ Samples.trade 1 "SELL" 120 1 ] []
           [ Samples.trade 5 "SELL" 85 1 ] (Samples.trade 2 "BUY" 100 1)
           (Samples.trade 3 "BUY" 90 1) (Samples.trade 4 "BUY" 80 1)).
  - repeat constructor.
  - reflexivity.
  - reflexivity.
  - reflexivity.
Defined.

Lemma account_same (t : Tally) (x x' : TradeHistory) :
  Samples.same_for_the_metrics x x' -> account t x = account t x'.
Proof.
  intros (Ea & Ep & Eq). unfold account. rewrite <- Ea, <- Ep.
  destruct (is_buy (th_action x)); [rewrite (Eq eq_refl)|]; reflexivity.
Qed.

(** X23.  The metrics read the action and the price of every trade and the
    quantity of the purchases, and nothing else: two histories that agree on
    these, row by row, have the same metrics, whatever their symbols,
    timestamps, bots and sold quantities are. *)
Theorem performance_reads_action_price_and_bought_quantity
    (trades trades' : list TradeHistory) :
  Forall2 Samples.same_for_the_metrics trades trades' ->
  calculate_performance_metrics trades = calculate_performance_metrics trades'.
Proof.
  intros H.
  assert (E : forall t, fold_left account trades t = fold_left account trades' t).
  { induction H as [|x x' trades trades' Hx _ IH]; intros t; [reflexivity|].
    simpl. rewrite (account_same t x x' Hx). apply IH. }
  unfold calculate_performance_metrics. rewrite E.
  destruct H; reflexivity.
Qed.

(** The theorem at a cycle whose sale names half the quantity and another
    symbol. *)
Lemma performance_reads_action_price_and_bought_quantity_witness :
  calculate_performance_metrics
    [ Samples.trade 1 "BUY" 100 2; Samples.trade 2 "SELL" 110 2 ]
  = calculate_performance_metrics
      [ Samples.trade 1 "BUY" 100 2;
        {| th_id := 9; th_bot_id := 2; th_timestamp := 0; th_symbol := "ETHUSDT";
           th_action := "SELL"; th_price := 110; th_quantity := 1 |} ].
Proof.
  apply performance_reads_action_price_and_bought_quantity.
  repeat constructor. simpl. discriminate.
Defined.

End Performance.
Section BotOwnership.

Import Database BotsApi Samples.

Lemma get_bot_config_some (db : Session) (bot_id : Z) (user : UUID) (found : BotConfiguration) :
  get_bot_config db bot_id user = Some found ->
  In found (bot_configurations db) /\ id found = bot_id /\ user_id found = user.
Proof.
  unfold get_bot_config. intros H. apply List.find_some in H as [Hin Hb].
  apply andb_true_iff in Hb as [Hi Hu].
  apply Z.eqb_eq in Hi. apply N.eqb_eq in Hu. auto.
Qed.

Lemma get_bot_config_none (db : Session) (bot_id : Z) (user : UUID) :
  (forall b, In b (bot_configurations db) -> id b = bot_id -> user_id b <> user) ->
  get_bot_config db bot_id user = None.
Proof.
  intros H. unfold get_bot_config.
  destruct (List.find _ _) as [b|] eqn:E; [|reflexivity].
  apply List.find_some in E as [Hin Hb]. apply andb_true_iff in Hb as [Hi Hu].
  apply Z.eqb_eq in Hi. apply N.eqb_eq in Hu. destruct (H b Hin Hi Hu).
Qed.

Lemma in_firstn {A} (x : A) (n : nat) (l : list A) : In x (firstn n l) -> In x l.
Proof. intros H. rewrite <- (firstn_skipn n l). apply in_or_app. left. exact H. Qed.

Lemma in_skipn {A} (x : A) (n : nat) (l : list A) : In x (skipn n l) -> In x l.
Proof. intros H. rewrite <- (firstn_skipn n l). apply in_or_app. right. exact H. Qed.

(** X24.  A bot that is not the caller's is out of reach: for an identifier
    that belongs to another user, or to no bot, reading, updating, deleting,
    the status and the performance all answer 404, as for a bot that does not
    exist, and the update and the deletion leave the database as it is.  A
    list of bots that is answered holds bots of the caller only, at most
    [limit] of them. *)
Theorem another_users_bot_is_out_of_reach
    (db : Session) (bot_id : Z) (caller : UUID) :
  (forall b, In b (bot_configurations db) -> id b = bot_id -> user_id b <> caller) ->
  read_bot db bot_id caller = HTTPException 404
  /\ (forall bot_in, update_bot db bot_id bot_in caller = (db, HTTPException 404))
  /\ delete_bot db bot_id caller = (db, HTTPException 404)
  /\ (forall ta now binance_client,
        get_bot_status ta now db bot_id caller binance_client = HTTPException 404)
  /\ get_bot_performance db bot_id caller = HTTPException 404
  /\ (forall skip limit bots,
        read_bots db skip limit caller = Answer bots ->
        (length bots <= limit)%nat
        /\ forall b, In b bots -> In b (bot_configurations db) /\ user_id b = caller).
Proof.
  intros Hforeign. pose proof (get_bot_config_none db bot_id caller Hforeign) as Hnone.
  split; [unfold read_bot; rewrite Hnone; reflexivity|].
  split; [intros bot_in; unfold update_bot, update_bot_config; rewrite Hnone; reflexivity|].
  split; [unfold delete_bot, delete_bot_config; rewrite Hnone; reflexivity|].
  split; [intros ta now c; unfold get_bot_status; rewrite Hnone; reflexivity|].
  split; [unfold get_bot_performance; rewrite Hnone; reflexivity|].
  intros skip limit bots. unfold read_bots.
  destruct (forallb validates _); [|discriminate]. intros [= <-]. split.
  - unfold get_bot_configs_by_user. rewrite List.length_firstn. lia.
  - intros b Hb. unfold get_bot_configs_by_user in Hb.
    apply in_firstn, in_skipn in Hb.
    apply List.filter_In in Hb as [Hin Hu]. apply N.eqb_eq in Hu. auto.
Qed.

(** The theorem at the grid bot of the second user, asked for by the first. *)
Lemma another_users_bot_is_out_of_reach_witness :
  (forall b, In b (bot_configurations two_users) -> id b = 2%Z -> user_id b <> alice)
  /\ read_bot two_users 2 alice = HTTPException 404
  /\ delete_bot two_users 2 alice = (two_users, HTTPException 404)
  /\ read_bot two_users 2 bob = Answer bob_grid.
Proof.
  assert (H : forall b, In b (bot_configurations two_users) -> id b = 2%Z ->
                        user_id b <> alice).
  { intros b [<-|[<-|[]]]; simpl; intros E; discriminate. }
  split; [exact H|].
  destruct (another_users_bot_is_out_of_reach two_users 2 alice H)
    as (Hread & _ & Hdelete & _).
  split; [exact Hread|]. split; [exact Hdelete|]. reflexivity.
Defined.

Lemma find_app_none {A} (f : A -> bool) (l : list A) (x : A) :
  (forall y, In y l -> f y = false) -> f x = true -> List.find f (l ++ [x]) = Some x.
Proof.
  intros Hl Hx. induction l as [|y l IH]; simpl.
  - rewrite Hx. reflexivity.
  - rewrite (Hl y (or_introl eq_refl)). apply IH. intros z Hz. apply Hl. right. exact Hz.
Qed.

Lemma find_app_some {A} (f : A -> bool) (l : list A) (x y : A) :
  List.find f l = Some y -> List.find f (l ++ [x]) = Some y.
Proof.
  induction l as [|z l IH]; simpl; [discriminate|].
  destruct (f z); [auto|exact IH].
Qed.

(** X25.  A created bot takes the next identifier of the sequence, belongs
    to the caller and holds what the request said.  The caller reads it back
    under that identifier, every other user gets 404 for it, the bots that
    were there are found as before, and the job picks it up exactly when it
    was created active.  The keys of the table stay distinct and below the
    sequence.  Without a row of the caller in [users] nothing is created. *)
Theorem created_bot_is_read_back_by_its_owner
    (db : Session) (bot_in : BotConfigurationCreate) (caller : UUID) :
  keys_in_sequence db ->
  (caller ∉ users db -> create_bot db bot_in caller = (db, Unhandled))
  /\ (caller ∈ users db ->
      exists db' created,
        create_bot db bot_in caller = (db', Answer created)
        /\ id created = bot_configurations_id_seq db /\ user_id created = caller
        /\ bot_type created = c_bot_type bot_in /\ name created = c_name bot_in
        /\ settings created = Some (c_settings bot_in)
        /\ is_active created = c_is_active bot_in
        /\ read_bot db' (id created) caller = Answer created
        /\ (forall other, other <> caller ->
              read_bot db' (id created) other = HTTPException 404)
        /\ (forall bot_id user found,
              get_bot_config db bot_id user = Some found ->
              get_bot_config db' bot_id user = Some found)
        /\ (In created (get_active_bot_configs db') <-> c_is_active bot_in = true)
        /\ keys_in_sequence db').
Proof.
  intros (Hdup & Hseq). unfold create_bot, create_bot_config. split.
  - intros Hout. destruct (decide (caller ∈ users db)); [contradiction|reflexivity].
  - intros Hin. destruct (decide (caller ∈ users db)); [|contradiction].
    set (created := {| id := bot_configurations_id_seq db; user_id := caller;
                       bot_type := c_bot_type bot_in; name := c_name bot_in;
                       settings := Some (c_settings bot_in);
                       is_active := c_is_active bot_in |}).
    assert (Hfresh : forall b, In b (bot_configurations db) -> id b <> id created).
    { intros b Hb. rewrite List.Forall_forall in Hseq. specialize (Hseq b Hb). simpl. lia. }
    eexists. exists created. split; [reflexivity|].
    repeat (split; [reflexivity|]).
    split.
    { unfold read_bot, get_bot_config. simpl bot_configurations.
      rewrite (find_app_none _ _ created); [reflexivity| |].
      - intros b Hb. apply andb_false_iff. left. apply Z.eqb_neq, Hfresh, Hb.
      - simpl. rewrite Z.eqb_refl, N.eqb_refl. reflexivity. }
    split.
    { intros other Hother. unfold read_bot.
      rewrite get_bot_config_none; [reflexivity|].
      simpl bot_configurations. intros b Hb Hid.
      apply in_app_or in Hb as [Hb|[<-|[]]]; [destruct (Hfresh b Hb Hid)|].
      simpl. congruence. }
    split.
    { intros bot_id user found Hfound. unfold get_bot_config in *.
      simpl bot_configurations. apply find_app_some, Hfound. }
    split.
    { unfold get_active_bot_configs. simpl bot_configurations.
      rewrite List.filter_app, in_app_iff, !List.filter_In. simpl.
      destruct (c_is_active bot_in) eqn:Ea; simpl; tauto. }
    unfold keys_in_sequence. simpl. split.
    + rewrite List.map_app. simpl.
      apply NoDup_app. split; [exact Hdup|]. split; [|apply NoDup_singleton].
      intros x Hx. rewrite list_elem_of_singleton. intros ->.
      apply list_elem_of_In in Hx. apply in_map_iff in Hx as (b & Hid & Hb).
      exact (Hfresh b Hb Hid).
    + apply Forall_app. split.
      * eapply List.Forall_impl; [|exact Hseq]. simpl. intros b Hb. lia.
      * constructor; [simpl; lia|constructor].
Qed.

(** The theorem at a DCA bot the first user creates in the table of two
    users: it is bot 3. *)
Lemma created_bot_is_read_back_by_its_owner_witness :
  keys_in_sequence two_users
  /\ alice ∈ users two_users
  /\ exists db' created,
       create_bot two_users
         {| c_bot_type := "dca"; c_name := "ETH DCA";
            c_settings := Fixtures.eth_dca_config; c_is_active := false |} alice
       = (db', Answer created)
       /\ id created = 3%Z
       /\ read_bot db' 3 alice = Answer created
       /\ read_bot db' 3 bob = HTTPException 404.
Proof.
  assert (Hkeys : keys_in_sequence two_users).
  { split.
    - simpl. repeat constructor; set_solver.
    - repeat constructor; simpl; lia. }
  assert (Hin : alice ∈ users two_users) by (simpl; set_solver).
  split; [exact Hkeys|]. split; [exact Hin|].
  destruct (proj2 (created_bot_is_read_back_by_its_owner two_users
                     {| c_bot_type := "dca"; c_name := "ETH DCA";
                        c_settings := Fixtures.eth_dca_config; c_is_active := false |}
                     alice Hkeys) Hin)
    as (db' & created & E & Hid & _ & _ & _ & _ & _ & Hread & Hother & _).
  exists db', created. split; [exact E|]. split; [exact Hid|].
  simpl in Hid. rewrite Hid in Hread, Hother.
  split; [exact Hread|]. apply Hother. discriminate.
Defined.

Lemma find_replaced (rows : list BotConfiguration) (key : Z) (user : UUID)
    (updated : BotConfiguration) :
  id updated = key -> user_id updated = user ->
  (exists b, In b rows /\ id b = key) ->
  List.find (fun b => (id b =? key)%Z && (user_id b =? user)%N)
            (List.map (fun b => if (id b =? key)%Z then updated else b) rows)
  = Some updated.
Proof.
  intros Hid Hu (b & Hin & Hb). induction rows as [|x rows IH]; [destruct Hin|].
  simpl. destruct (id x =? key)%Z eqn:Ex.
  - rewrite Hid, Hu, Z.eqb_refl, N.eqb_refl. reflexivity.
  - rewrite Ex. simpl. apply IH. destruct Hin as [->|Hin]; [|exact Hin].
    apply Z.eqb_neq in Ex. contradiction.
Qed.

Lemma find_not_replaced (rows : list BotConfiguration) (key other : Z) (user : UUID)
    (updated : BotConfiguration) :
  id updated = key -> other <> key ->
  List.find (fun b => (id b =? other)%Z && (user_id b =? user)%N)
            (List.map (fun b => if (id b =? key)%Z then updated else b) rows)
  = List.find (fun b => (id b =? other)%Z && (user_id b =? user)%N) rows.
Proof.
  intros Hid Hne. induction rows as [|x rows IH]; [reflexivity|].
  simpl. destruct (id x =? key)%Z eqn:Ex.
  - apply Z.eqb_eq in Ex.
    assert (E1 : (id updated =? other)%Z = false) by (apply Z.eqb_neq; congruence).
    assert (E2 : (id x =? other)%Z = false) by (apply Z.eqb_neq; congruence).
    rewrite E1, E2. simpl. exact IH.
  - destruct ((id x =? other)%Z && (user_id x =? user)%N); [reflexivity|exact IH].
Qed.

(** X26.  An update writes the fields the request set and no other: the
    bot keeps its identifier, owner and type, a field that was left out keeps
    its value, every other bot is found as before and no trade is touched.
    A request that sets the name or [is_active] to null fails as a whole, and
    nothing is written.  Settings set to null are written: that request is
    answered with an error, and so is every later reading of the bot and of
    its status. *)
Theorem update_writes_the_fields_that_are_set
    (db : Session) (bot_id : Z) (bot_in : BotConfigurationUpdate) (caller : UUID)
    (found : BotConfiguration) :
  get_bot_config db bot_id caller = Some found ->
  (set_to_null (u_name bot_in) \/ set_to_null (u_is_active bot_in) ->
   update_bot db bot_id bot_in caller = (db, Unhandled))
  /\ (~ set_to_null (u_name bot_in) -> ~ set_to_null (u_is_active bot_in) ->
      exists db' updated,
        update_bot_config db bot_id bot_in caller = Returns db' (Some updated)
        /\ id updated = bot_id /\ user_id updated = caller
        /\ bot_type updated = bot_type found
        /\ Some (name updated) = updated_value (u_name bot_in) (Some (name found))
        /\ settings updated = updated_value (u_settings bot_in) (settings found)
        /\ Some (is_active updated)
           = updated_value (u_is_active bot_in) (Some (is_active found))
        /\ get_bot_config db' bot_id caller = Some updated
        /\ (forall other user, other <> bot_id ->
              get_bot_config db' other user = get_bot_config db other user)
        /\ length (bot_configurations db') = length (bot_configurations db)
        /\ trade_history db' = trade_history db
        /\ (settings updated <> None ->
            update_bot db bot_id bot_in caller = (db', Answer updated)
            /\ read_bot db' bot_id caller = Answer updated)
        /\ (settings updated = None ->
            update_bot db bot_id bot_in caller = (db', Unhandled)
            /\ read_bot db' bot_id caller = Unhandled
            /\ forall ta now client,
                 get_bot_status ta now db' bot_id caller (Some client) = Unhandled)).
Proof.
  intros Hfound. destruct (get_bot_config_some db bot_id caller found Hfound)
    as (Hin & Hid & Hu).
  unfold update_bot, update_bot_config. rewrite Hfound. unfold set_to_null. split.
  - unfold set_fields.
    intros [-> | ->]; simpl; [reflexivity|].
    destruct (u_name bot_in) as [|[n|]]; reflexivity.
  - intros Hn Ha.
    assert (E : exists n a,
               set_fields bot_in found
               = (Some n, updated_value (u_settings bot_in) (settings found), Some a)
               /\ Some n = updated_value (u_name bot_in) (Some (name found))
               /\ Some a = updated_value (u_is_active bot_in) (Some (is_active found))).
    { unfold set_fields, updated_value.
      destruct (u_name bot_in) as [|[n|]]; [| |contradiction Hn; reflexivity];
        (destruct (u_is_active bot_in) as [|[a|]]; [| |contradiction Ha; reflexivity]);
        eexists; eexists; (split; [reflexivity|split; reflexivity]). }
    destruct E as (n & a & -> & Hname & Hactive).
    set (updated := {| id := id found; user_id := user_id found;
                       bot_type := bot_type found; name := n;
                       settings := updated_value (u_settings bot_in) (settings found);
                       is_active := a |}).
    set (db' := set_bot_configurations _ db).
    assert (Hread : get_bot_config db' bot_id caller = Some updated).
    { unfold get_bot_config, db'. simpl bot_configurations. rewrite Hid.
      apply find_replaced; simpl; auto. exists found. auto. }
    exists db', updated. split; [reflexivity|].
    split; [exact Hid|]. split; [exact Hu|]. split; [reflexivity|].
    split; [exact Hname|]. split; [reflexivity|]. split; [exact Hactive|].
    split; [exact Hread|].
    split.
    { intros other user Hne. unfold get_bot_config, db'. simpl bot_configurations.
      rewrite Hid. apply find_not_replaced; simpl; auto. }
    split; [apply List.length_map|]. split; [reflexivity|].
    unfold read_bot, get_bot_status. rewrite Hread. unfold respond, validates.
    split.
    + intros Hs. destruct (settings updated); [split; reflexivity|contradiction].
    + intros ->. split; [reflexivity|]. split; reflexivity.
Qed.

(** The theorem at the first user switching her momentum bot off. *)
Lemma update_writes_the_fields_that_are_set_witness :
  get_bot_config two_users 1 alice = Some alice_momentum
  /\ exists db' updated,
       update_bot two_users 1
         {| u_name := Unset; u_settings := Unset; u_is_active := SetTo (Some false) |}
         alice
       = (db', Answer updated)
       /\ name updated = "BTC momentum"%string /\ is_active updated = false
       /\ get_active_bot_configs db' = [].
Proof.
  assert (H : get_bot_config two_users 1 alice = Some alice_momentum) by reflexivity.
  split; [exact H|].
  destruct (proj2 (update_writes_the_fields_that_are_set two_users 1
                     {| u_name := Unset; u_settings := Unset;
                        u_is_active := SetTo (Some false) |} alice alice_momentum H))
    as (db' & updated & E & _ & _ & _ & Hname & Hsettings & Hactive & _ & _ & _ & _
        & Hanswer & _);
    try (unfold set_to_null; simpl; discriminate).
  exists db', updated.
  destruct Hanswer as [Hanswer _]; [rewrite Hsettings; discriminate|].
  split; [exact Hanswer|].
  split; [injection Hname as ->; reflexivity|].
  split; [injection Hactive as ->; reflexivity|].
  injection E as <- _. reflexivity.
Defined.

Lemma find_filter_out (rows : list BotConfiguration) (key other : Z) (user : UUID) :
  other <> key ->
  List.find (fun b => (id b =? other)%Z && (user_id b =? user)%N)
            (List.filter (fun b => negb (id b =? key)%Z) rows)
  = List.find (fun b => (id b =? other)%Z && (user_id b =? user)%N) rows.
Proof.
  intros Hne. induction rows as [|x rows IH]; [reflexivity|].
  simpl. destruct (id x =? key)%Z eqn:Ex; simpl.
  - apply Z.eqb_eq in Ex.
    assert (E : (id x =? other)%Z = false) by (apply Z.eqb_neq; congruence).
    rewrite E. simpl. exact IH.
  - destruct ((id x =? other)%Z && (user_id x =? user)%N); [reflexivity|exact IH].
Qed.

Lemma filter_filter_out (trades : list TradeHistory) (key other : Z) :
  other <> key ->
  List.filter (fun t => (th_bot_id t =? other)%Z)
              (List.filter (fun t => negb (th_bot_id t =? key)%Z) trades)
  = List.filter (fun t => (th_bot_id t =? other)%Z) trades.
Proof.
  intros Hne. induction trades as [|x trades IH]; [reflexivity|].
  simpl. destruct (th_bot_id x =? key)%Z eqn:Ex; simpl.
  - apply Z.eqb_eq in Ex.
    assert (E : (th_bot_id x =? other)%Z = false) by (apply Z.eqb_neq; congruence).
    rewrite E. exact IH.
  - destruct (th_bot_id x =? other)%Z; [f_equal|]; exact IH.
Qed.

Lemma filter_filter_same (trades : list TradeHistory) (key : Z) :
  List.filter (fun t => (th_bot_id t =? key)%Z)
              (List.filter (fun t => negb (th_bot_id t =? key)%Z) trades) = [].
Proof.
  induction trades as [|x trades IH]; [reflexivity|].
  simpl. destruct (th_bot_id x =? key)%Z eqn:Ex; simpl; [exact IH|].
  rewrite Ex. exact IH.
Qed.

(** X27.  Deleting a bot takes its trades along: after it the identifier
    is found for no user, its trade history is empty, and deleting it again
    answers 404.  The other bots and their trade histories are as they were.
    The answer is the deleted row, or an error in its place when the
    settings of the row were null. *)
Theorem delete_takes_the_trades_along
    (db : Session) (bot_id : Z) (caller : UUID) (found : BotConfiguration) :
  get_bot_config db bot_id caller = Some found ->
  exists db',
    delete_bot db bot_id caller
    = (db', match settings found with Some _ => Answer found | None => Unhandled end)
    /\ (forall user, get_bot_config db' bot_id user = None)
    /\ (forall skip limit, get_trade_history_for_bot db' bot_id skip limit = [])
    /\ delete_bot db' bot_id caller = (db', HTTPException 404)
    /\ (forall other user skip limit,
          other <> bot_id ->
          get_bot_config db' other user = get_bot_config db other user
          /\ get_trade_history_for_bot db' other skip limit
             = get_trade_history_for_bot db other skip limit).
Proof.
  intros Hfound. destruct (get_bot_config_some db bot_id caller found Hfound)
    as (Hin & Hid & Hu).
  unfold delete_bot at 1, delete_bot_config. rewrite Hfound, Hid.
  eexists. split.
  { unfold respond, validates. destruct (settings found); reflexivity. }
  assert (Hgone : forall user,
            get_bot_config
              {| users := users db;
                 bot_configurations :=
                   List.filter (fun b => negb (id b =? bot_id)%Z) (bot_configurations db);
                 trade_history :=
                   List.filter (fun t => negb (th_bot_id t =? bot_id)%Z) (trade_history db);
                 bot_configurations_id_seq := bot_configurations_id_seq db |}
              bot_id user = None).
  { intros user. apply get_bot_config_none. simpl. intros b Hb Hb'.
    apply List.filter_In in Hb as [_ Hb]. apply negb_true_iff, Z.eqb_neq in Hb.
    contradiction. }
  split; [exact Hgone|]. split.
  { intros skip limit. unfold get_trade_history_for_bot. simpl trade_history.
    rewrite filter_filter_same. simpl. rewrite skipn_nil, firstn_nil. reflexivity. }
  split.
  { unfold delete_bot, delete_bot_config. rewrite Hgone. reflexivity. }
  intros other user skip limit Hne. split.
  - unfold get_bot_config. simpl bot_configurations. apply find_filter_out, Hne.
  - unfold get_trade_history_for_bot. simpl trade_history.
    rewrite (filter_filter_out _ bot_id other Hne). reflexivity.
Qed.

(** The theorem at the first user deleting her momentum bot and its two
    trades. *)
Lemma delete_takes_the_trades_along_witness :
  get_bot_config two_users 1 alice = Some alice_momentum
  /\ length (get_trade_history_for_bot two_users 1 0 10) = 2%nat
  /\ exists db',
       delete_bot two_users 1 alice = (db', Answer alice_momentum)
       /\ get_trade_history_for_bot db' 1 0 10 = []
       /\ bot_configurations db' = [ bob_grid ].
Proof.
  assert (H : get_bot_config two_users 1 alice = Some alice_momentum) by reflexivity.
  split; [exact H|]. split; [reflexivity|].
  destruct (delete_takes_the_trades_along two_users 1 alice alice_momentum H)
    as (db' & E & _ & Htrades & _).
  exists db'. split; [exact E|]. split; [apply Htrades|].
  injection E as <-. reflexivity.
Defined.

End BotOwnership.
Section JobAndStatus.

Local Open Scope Q_scope.
Import Scheduler Fixtures Samples.

(** One turn of the loop writes one "Checking bot" line, that of its bot. *)
Lemma bot_iteration_checking env client bot st :
  List.filter is_checking (log (fst (bot_iteration env client bot st)))
  = List.filter is_checking (log st)
    ++ [ CheckingBot (id bot) (bot_type bot) (get (settings bot) "symbol") ].
Proof.
  unfold bot_iteration, bot_body.
  destruct (String.eqb (bot_type bot) "momentum").
  - destruct (snd (MomentumBot.get_momentum_signal _ _ _ _ _)); simpl.
    + unfold execute_signal. simpl.
      destruct (call_execute_trade _ _ _ _ _ _ _) as [ex [[order|]|e]]; simpl;
        rewrite ?List.filter_app; simpl; rewrite ?app_nil_r, <- ?app_assoc; reflexivity.
    + unfold execute_signal. simpl.
      destruct (call_execute_trade _ _ _ _ _ _ _) as [ex [[order|]|e]]; simpl;
        rewrite ?List.filter_app; simpl; rewrite ?app_nil_r, <- ?app_assoc; reflexivity.
    + rewrite ?List.filter_app. simpl. rewrite ?app_nil_r. reflexivity.
  - destruct (String.eqb (bot_type bot) "grid").
    + destruct (bind _ _) as [actions|e]; simpl;
        rewrite ?List.filter_app; simpl; rewrite ?app_nil_r; reflexivity.
    + destruct (String.eqb (bot_type bot) "dca").
      * destruct (snd _) as [actions|e]; simpl;
          rewrite ?List.filter_app; simpl; rewrite ?app_nil_r; reflexivity.
      * simpl. rewrite ?List.filter_app. simpl. reflexivity.
Qed.

Lemma each_in_turn_checking env client bots st :
  List.filter is_checking (log (each_in_turn env client bots st))
  = List.filter is_checking (log st)
    ++ List.map (fun bot => CheckingBot (id bot) (bot_type bot) (get (settings bot) "symbol"))
                bots.
Proof.
  revert st. induction bots as [|bot bots IH]; intros st.
  - simpl. rewrite app_nil_r. reflexivity.
  - unfold each_in_turn in *. simpl. rewrite IH, bot_iteration_checking.
    rewrite <- app_assoc. reflexivity.
Qed.

Lemma rows_checked (l : list Database.BotConfiguration) :
  List.Forall (fun b => Database.settings b <> None) l ->
  exists bots,
    Job.rows l = Some bots
    /\ List.map id bots = List.map Database.id l
    /\ List.map bot_type bots = List.map Database.bot_type l
    /\ List.map (fun bot => Some (settings bot)) bots = List.map Database.settings l.
Proof.
  induction 1 as [|b l Hb Hl (bots & E & Hids & Htypes & Hsettings)].
  - exists []. repeat split.
  - simpl. unfold Job.row. destruct (Database.settings b) as [config|] eqn:Es;
      [|contradiction]. rewrite E.
    eexists. split; [reflexivity|]. simpl. rewrite Hids, Htypes, Hsettings.
    repeat split.
Qed.

(** X28.  When the settings of every active bot are a dictionary, the job
    checks exactly the bots that are switched on, of every user: the
    "Checking bot" lines a tick adds to the log are those of the active rows
    of the table, one each, in the order of the table.  A bot that is
    switched off is not touched by the job. *)
Theorem job_checks_exactly_the_active_bots
    (client : Client) (ta : Pandas.TA) (now : Z) (db : Database.Session) (st : State) :
  (forall b, In b (Database.bot_configurations db) ->
             Database.is_active b = true -> Database.settings b <> None) ->
  exists bots,
    Job.active_bots db = Some bots
    /\ List.map id bots
       = List.map Database.id
                  (List.filter Database.is_active (Database.bot_configurations db))
    /\ List.map bot_type bots
       = List.map Database.bot_type
                  (List.filter Database.is_active (Database.bot_configurations db))
    /\ List.map (fun bot => Some (settings bot)) bots
       = List.map Database.settings
                  (List.filter Database.is_active (Database.bot_configurations db))
    /\ List.filter is_checking
         (log (run_active_bots_job (Job.env (Some client) ta now bots) st))
       = List.filter is_checking (log st) ++ List.map checking bots.
Proof.
  intros Hdict.
  destruct (rows_checked (Database.get_active_bot_configs db))
    as (bots & E & Hids & Htypes & Hsettings).
  { apply List.Forall_forall. intros b Hb.
    apply List.filter_In in Hb as [Hin Ha]. exact (Hdict b Hin Ha). }
  exists bots. split; [exact E|]. split; [exact Hids|]. split; [exact Htypes|].
  split; [exact Hsettings|].
  assert (Hc : binance_client (Job.env (Some client) ta now bots) = Some client)
    by reflexivity.
  assert (Hb : active_bots (Job.env (Some client) ta now bots) = Ok bots)
    by reflexivity.
  rewrite (run_active_bots_job_each_in_turn _ client bots st Hc Hb).
  rewrite each_in_turn_checking. simpl log.
  rewrite !List.filter_app. simpl. rewrite !app_nil_r. reflexivity.
Qed.

(** The theorem at the table of two users: only the momentum bot of the
    first is switched on. *)
Lemma job_checks_exactly_the_active_bots_witness :
  (forall b, In b (Database.bot_configurations two_users) ->
             Database.is_active b = true -> Database.settings b <> None)
  /\ exists bots,
       Job.active_bots two_users = Some bots
       /\ List.map id bots = [1%Z]
       /\ List.filter is_checking
            (log (run_active_bots_job
                    (Job.env (Some candle_client) rising (DcaBot.days 5) bots) fresh))
          = [ CheckingBot 1 "momentum" (PyStr "BTCUSDT") ].
Proof.
  assert (H : forall b, In b (Database.bot_configurations two_users) ->
                        Database.is_active b = true -> Database.settings b <> None).
  { intros b [<-|[<-|[]]]; simpl; discriminate. }
  split; [exact H|].
  destruct (job_checks_exactly_the_active_bots candle_client rising (DcaBot.days 5)
              two_users fresh H) as (bots & E & Hids & _ & _ & Hlog).
  exists bots. split; [exact E|]. split; [exact Hids|].
  rewrite Hlog. injection E as <-. reflexivity.
Defined.

(** X29.  The status endpoint shows what the job logs.  For a bot of the
    caller whose settings are a dictionary, with the same exchange,
    indicators and clock, the status carries the signal of a momentum bot,
    the actions of a grid or DCA bot, or the error that stopped the check,
    and the turn of the job for that bot logs the same signal, the same
    actions, or the same error; a bot of another type is "unsupported_type"
    for the endpoint and is only checked by the job. *)
Theorem status_shows_what_the_job_logs
    (ta : Pandas.TA) (now : Z) (db : Database.Session) (bot_id : Z)
    (caller : Database.UUID) (client : Client) (found : Database.BotConfiguration)
    (bot : BotConfiguration) (bots : list BotConfiguration) (st : State) :
  Database.get_bot_config db bot_id caller = Some found ->
  Job.row found = Some bot ->
  exists status,
    BotsApi.get_bot_status ta now db bot_id caller (Some client) = BotsApi.Answer status
    /\ BotsApi.s_bot_id status = bot_id
    /\ BotsApi.s_bot_type status = Database.bot_type found
    /\ BotsApi.s_is_active status = Database.is_active found
    /\ match logged_as bot_id (BotsApi.s_symbol status) (BotsApi.s_details status) with
       | Some entry =>
           In entry (log (fst (bot_iteration (Job.env (Some client) ta now bots) client
                                             bot st)))
       | None =>
           BotsApi.s_status status = "unsupported_type"%string
           /\ log (fst (bot_iteration (Job.env (Some client) ta now bots) client bot st))
              = log st ++ [ checking bot ]
       end.
Proof.
  intros Hfound Hrow.
  assert (Hid : Database.id found = bot_id).
  { unfold Database.get_bot_config in Hfound. apply List.find_some in Hfound as [_ Hb].
    apply andb_true_iff in Hb as [Hb _]. apply Z.eqb_eq, Hb. }
  unfold BotsApi.get_bot_status. rewrite Hfound.
  unfold Job.row in Hrow. destruct (Database.settings found) as [config|]; [|discriminate].
  injection Hrow as <-.
  unfold BotsApi.check, bot_iteration, bot_body. simpl id. simpl bot_type. simpl settings.
  simpl Scheduler.ta. simpl Scheduler.now. rewrite Hid.
  destruct (String.eqb (Database.bot_type found) "momentum").
  - eexists. split; [reflexivity|]. simpl.
    repeat (split; [reflexivity|]).
    rewrite (momentum_signal_history ta config client None []
               (TradeExecutor.trade_history (executor st))).
    destruct (snd (MomentumBot.get_momentum_signal _ _ _ _ _)).
    + unfold execute_signal.
      destruct (call_execute_trade _ _ _ _ _ _ _) as [ex [[order|]|e]]; simpl;
        rewrite !in_app_iff; simpl; tauto.
    + unfold execute_signal.
      destruct (call_execute_trade _ _ _ _ _ _ _) as [ex [[order|]|e]]; simpl;
        rewrite !in_app_iff; simpl; tauto.
    + simpl. rewrite !in_app_iff. simpl. tauto.
  - destruct (String.eqb (Database.bot_type found) "grid").
    + destruct (py_upper (get_default config "symbol" (PyStr "UNKNOWN")))
        as [s|e]; simpl.
      * destruct (get_symbol_ticker client s) as [current_price|e]; simpl.
        -- destruct (GridBot.get_grid_actions config current_price)
             as [actions|e]; simpl.
           ++ eexists. split; [reflexivity|]. simpl. repeat (split; [reflexivity|]).
              rewrite !in_app_iff. simpl. tauto.
           ++ eexists. split; [reflexivity|]. simpl. repeat (split; [reflexivity|]).
              rewrite !in_app_iff. simpl. tauto.
        -- eexists. split; [reflexivity|]. simpl. repeat (split; [reflexivity|]).
           rewrite !in_app_iff. simpl. tauto.
      * eexists. split; [reflexivity|]. simpl. repeat (split; [reflexivity|]).
        rewrite !in_app_iff. simpl. tauto.
    + destruct (String.eqb (Database.bot_type found) "dca").
      * change BotsApi.dca_state with dca_state.
        rewrite (dca_actions_history ta now config client dca_state
                   None (TradeExecutor.trade_history (executor (info _ st))) []).
        destruct (snd (DcaBot.get_dca_actions _ _ _ _ _ _ _)) as [actions|e]; simpl.
        -- eexists. split; [reflexivity|]. simpl. repeat (split; [reflexivity|]).
           rewrite !in_app_iff. simpl. tauto.
        -- eexists. split; [reflexivity|]. simpl. repeat (split; [reflexivity|]).
           rewrite !in_app_iff. simpl. tauto.
      * eexists. split; [reflexivity|]. simpl. repeat (split; [reflexivity|]).
        unfold checking. simpl. reflexivity.
Qed.

(** The theorem at the momentum bot of the first user, with the candles of
    [candle_client] and the indicators of [rising]: a BUY on both sides. *)
Lemma status_shows_what_the_job_logs_witness :
  Database.get_bot_config two_users 1 alice = Some alice_momentum
  /\ exists bot status,
       Job.row alice_momentum = Some bot
       /\ BotsApi.get_bot_status rising (DcaBot.days 5) two_users 1 alice
                                 (Some candle_client)
          = BotsApi.Answer status
       /\ BotsApi.s_status status = "signal_generated"%string
       /\ BotsApi.s_details status = BotsApi.Signal MomentumBot.BUY
       /\ In (MomentumSignal 1 MomentumBot.BUY)
             (log (fst (bot_iteration
                          (Job.env (Some candle_client) rising (DcaBot.days 5) [bot])
                          candle_client bot fresh))).
Proof.
  assert (H : Database.get_bot_config two_users 1 alice = Some alice_momentum)
    by reflexivity.
  split; [exact H|].
  assert (Hrow : Job.row alice_momentum
                 = Some {| id := 1; bot_type := "momentum";
                           settings := <["symbol" := PyStr "BTCUSDT"]> ∅ |})
    by reflexivity.
  set (bot := {| id := 1; bot_type := "momentum";
                 settings := <["symbol" := PyStr "BTCUSDT"]> ∅ |}) in *.
  destruct (status_shows_what_the_job_logs rising (DcaBot.days 5) two_users 1 alice
              candle_client alice_momentum bot [ bot ] fresh H Hrow)
    as (status & E & _ & _ & _ & Hlog).
  exists bot, status. split; [exact Hrow|]. split; [exact E|].
  assert (E' : BotsApi.Answer status
               = BotsApi.Answer
                   {| BotsApi.s_bot_id := 1; BotsApi.s_bot_type := "momentum";
                      BotsApi.s_symbol := PyStr "BTCUSDT"; BotsApi.s_is_active := true;
                      BotsApi.s_status := "signal_generated";
                      BotsApi.s_details := BotsApi.Signal MomentumBot.BUY |})
    by (rewrite <- E; vm_compute; reflexivity).
  injection E' as ->. split; [reflexivity|]. split; [reflexivity|]. exact Hlog.
Defined.

End JobAndStatus.
Section TickerEndpoint.

Import MarketApi Samples.

(** X30.  The ticker endpoint answers 404 exactly for an error of the
    exchange whose message contains 'Invalid symbol'.  An empty answer of the
    exchange is not a 404: the [HTTPException] of line 85 is raised inside
    the [try] and caught by the last handler, which answers 500.  A ticker
    that is returned is the one the exchange gave for the symbol in upper
    case, and is not empty.  No other status code than 503, 404, 400, 504 and
    500 is answered. *)
Theorem ticker_is_not_found_only_for_an_invalid_symbol
    (symbol : string) (client : option Client) :
  (get_ticker symbol client = Error 404
   <-> exists c message,
         client = Some c
         /\ get_symbol_ticker c (upper symbol) = inr (BinanceAPIException message)
         /\ contains "Invalid symbol" message = true)
  /\ (forall c,
        client = Some c ->
        get_symbol_ticker c (upper symbol) = inl None
        \/ get_symbol_ticker c (upper symbol) = inl (Some ∅) ->
        get_ticker symbol client = Error 500)
  /\ (forall ticker_info,
        get_ticker symbol client = Ticker ticker_info ->
        ticker_info <> ∅
        /\ exists c, client = Some c
                     /\ get_symbol_ticker c (upper symbol) = inl (Some ticker_info))
  /\ (forall status_code,
        get_ticker symbol client = Error status_code ->
        In status_code [503; 404; 400; 504; 500]%Z).
Proof.
  unfold get_ticker, ticker_info_of. destruct client as [c|].
  - destruct (get_symbol_ticker c (upper symbol)) as [[info|]|[m|m|code|]] eqn:E.
    + destruct (decide (info = ∅)) as [He|Hne].
      * split; [split; [discriminate|intros (c0 & m & [= <-] & H & _); congruence]|].
        split; [reflexivity|]. split; [discriminate|].
        intros code [= <-]. simpl. tauto.
      * split; [split; [discriminate|intros (c0 & m & [= <-] & H & _); congruence]|].
        split; [intros c0 [= <-] [H|H]; congruence|].
        split; [intros i [= <-]; split; [exact Hne|eauto]|discriminate].
    + split; [split; [discriminate|intros (c0 & m & [= <-] & H & _); congruence]|].
      split; [reflexivity|]. split; [discriminate|].
      intros code [= <-]. simpl. tauto.
    + destruct (contains "Invalid symbol" m) eqn:Hm.
      * split; [split; [intros _; exists c, m; auto|reflexivity]|].
        split; [intros c0 [= <-] [H|H]; congruence|].
        split; [discriminate|]. intros code [= <-]. simpl. tauto.
      * split; [split; [discriminate|intros (c0 & m0 & [= <-] & H1 & H); rewrite E in H1; injection H1 as <-; congruence]|].
        split; [intros c0 [= <-] [H|H]; congruence|].
        split; [discriminate|]. intros code [= <-]. simpl. tauto.
    + split; [split; [discriminate|intros (c0 & m0 & [= <-] & H & _); congruence]|].
      split; [intros c0 [= <-] [H|H]; congruence|].
      split; [discriminate|]. intros code [= <-]. simpl. tauto.
    + split; [split; [discriminate|intros (c0 & m0 & [= <-] & H & _); congruence]|].
      split; [intros c0 [= <-] [H|H]; congruence|].
      split; [discriminate|]. intros sc [= <-]. simpl. tauto.
    + split; [split; [discriminate|intros (c0 & m0 & [= <-] & H & _); congruence]|].
      split; [intros c0 [= <-] [H|H]; congruence|].
      split; [discriminate|]. intros sc [= <-]. simpl. tauto.
  - split; [split; [discriminate|intros (c0 & m & H & _); discriminate H]|].
    split; [intros c0 H; discriminate H|].
    split; [discriminate|]. intros code [= <-]. simpl. tauto.
Qed.

(** The theorem at an exchange that answers an empty ticker: 500. *)
Lemma ticker_is_not_found_only_for_an_invalid_symbol_witness :
  get_symbol_ticker empty_ticker_client (upper "btcusdt") = inl (Some ∅)
  /\ get_ticker "btcusdt" (Some empty_ticker_client) = Error 500.
Proof.
  assert (H : get_symbol_ticker empty_ticker_client (upper "btcusdt") = inl (Some ∅))
    by reflexivity.
  split; [exact H|].
  apply (proj1 (proj2 (ticker_is_not_found_only_for_an_invalid_symbol
                         "btcusdt" (Some empty_ticker_client)))
           empty_ticker_client eq_refl).
  right. exact H.
Defined.

End TickerEndpoint.
